(** * Construction order chart: timeline layout and edit history

    A shallow embedding of the core of the streamlit-gantt application:

    - [utils/dates.py]: [to_date], [month_range], [make_tickvals],
      [clip_segment_to_range];
    - [utils/state.py]: [AppState], [push_history], [undo], [redo],
      [update_data];
    - [components/gantt.py]: [build_gantt_dataframe].

    Python exceptions are values of [result]; the Streamlit toasts emitted
    by [undo] and [redo] are returned next to the new state; pandas frames
    are lists of records carrying their index label. *)

From Stdlib Require Import String Ascii ZArith List Bool Lia.
From Stdlib Require Import Sorting.Sorted Sorting.Permutation.
From Stdlib Require Import DecimalString DecimalNat DecimalZ.
Import ListNotations.

Open Scope string_scope.
Open Scope list_scope.
Open Scope Z_scope.

(* ================================================================== *)
(** * Part I. Definitions *)
(* ================================================================== *)

(** ** Exceptions and results *)

(** The exception classes the modelled code can raise. *)
Inductive exn : Type :=
| ValueError (msg : string)
| OverflowError (msg : string)
| IndexError (msg : string).

(** Outcome of a call: a value, a raised exception, or the loop bound of
    the model being reached ([OutOfFuel] is no Python behaviour; the
    totality lemmas show it is not produced on [date] objects). *)
Inductive result (A : Type) : Type :=
| Ok (a : A)
| Raise (e : exn)
| OutOfFuel.

Arguments Ok {A} a.
Arguments Raise {A} e.
Arguments OutOfFuel {A}.

Definition bind {A B : Type} (r : result A) (k : A -> result B) : result B :=
  match r with
  | Ok a => k a
  | Raise e => Raise e
  | OutOfFuel => OutOfFuel
  end.

Notation "x <- e ;; k" := (bind e (fun x => k))
  (at level 61, e at next level, right associativity).

(** ** The calendar of [datetime.date] *)

Definition MINYEAR : Z := 1.
Definition MAXYEAR : Z := 9999.

(** A [datetime.date]: proleptic Gregorian year, month, day. *)
Record date : Type := mkdate { year : Z; month : Z; day : Z }.

Definition is_leap (y : Z) : bool :=
  (y mod 4 =? 0) && (negb (y mod 100 =? 0) || (y mod 400 =? 0)).

Definition DAYS_IN_MONTH : list Z :=
  [-1; 31; 28; 31; 30; 31; 30; 31; 31; 30; 31; 30; 31].

Definition days_in_month (y m : Z) : Z :=
  if (m =? 2) && is_leap y then 29 else nth (Z.to_nat m) DAYS_IN_MONTH (-1).

(** The check made by the [date] constructor. *)
Definition date_ok (d : date) : bool :=
  (MINYEAR <=? year d) && (year d <=? MAXYEAR)
  && (1 <=? month d) && (month d <=? 12)
  && (1 <=? day d) && (day d <=? days_in_month (year d) (month d)).

(** [date(y, m, d)]: the constructor checks the year, then the month, then
    the day. *)
Definition date_new (y m d : Z) : result date :=
  if negb ((MINYEAR <=? y) && (y <=? MAXYEAR)) then
    Raise (ValueError "year is out of range")
  else if negb ((1 <=? m) && (m <=? 12)) then
    Raise (ValueError "month must be in 1..12")
  else if negb ((1 <=? d) && (d <=? days_in_month y m)) then
    Raise (ValueError "day is out of range for month")
  else Ok (mkdate y m d).

(** [d.replace(day=k)] *)
Definition date_replace_day (d : date) (k : Z) : result date :=
  date_new (year d) (month d) k.

(** Dates compare as the tuples (year, month, day). *)
Definition date_compare (a b : date) : comparison :=
  match year a ?= year b with
  | Eq => match month a ?= month b with
          | Eq => day a ?= day b
          | c => c
          end
  | c => c
  end.

Definition date_ltb (a b : date) : bool :=
  match date_compare a b with Lt => true | _ => false end.

Definition date_leb (a b : date) : bool :=
  match date_compare a b with Gt => false | _ => true end.

(** The builtin [min(a, b)] keeps [a] unless [b] is strictly smaller. *)
Definition date_min (a b : date) : date := if date_ltb b a then b else a.

(** The day after and the day before, on the unbounded calendar. *)
Definition succ_day (d : date) : date :=
  if day d <? days_in_month (year d) (month d) then mkdate (year d) (month d) (day d + 1)
  else if month d <? 12 then mkdate (year d) (month d + 1) 1
  else mkdate (year d + 1) 1 1.

Definition pred_day (d : date) : date :=
  if 1 <? day d then mkdate (year d) (month d) (day d - 1)
  else if 1 <? month d then mkdate (year d) (month d - 1) (days_in_month (year d) (month d - 1))
  else mkdate (year d - 1) 12 31.

(** [d + timedelta(days=k)]: the date [k] days away; [OverflowError] when
    it leaves [date.min .. date.max]. *)
Definition date_add_days (d : date) (k : Z) : result date :=
  let r := if 0 <=? k then Nat.iter (Z.to_nat k) succ_day d
           else Nat.iter (Z.to_nat (- k)) pred_day d in
  if (MINYEAR <=? year r) && (year r <=? MAXYEAR) then Ok r
  else Raise (OverflowError "date value out of range").

(** ** [datetime.datetime] *)

Record time : Type := mktime { hour : Z; minute : Z; second : Z; microsecond : Z }.

(** [datetime.min.time()] is midnight. *)
Definition time_min : time := mktime 0 0 0 0.

Record datetime : Type := mkdatetime { dt_date : date; dt_time : time }.

(** [datetime.combine(d, t)] *)
Definition datetime_combine (d : date) (t : time) : datetime := mkdatetime d t.

Definition time_compare (a b : time) : comparison :=
  match hour a ?= hour b with
  | Eq => match minute a ?= minute b with
          | Eq => match second a ?= second b with
                  | Eq => microsecond a ?= microsecond b
                  | c => c
                  end
          | c => c
          end
  | c => c
  end.

Definition dt_compare (a b : datetime) : comparison :=
  match date_compare (dt_date a) (dt_date b) with
  | Eq => time_compare (dt_time a) (dt_time b)
  | c => c
  end.

Definition dt_ltb (a b : datetime) : bool :=
  match dt_compare a b with Lt => true | _ => false end.

Definition dt_gtb (a b : datetime) : bool :=
  match dt_compare a b with Gt => true | _ => false end.

Definition dt_leb (a b : datetime) : bool :=
  match dt_compare a b with Gt => false | _ => true end.

Definition dt_geb (a b : datetime) : bool :=
  match dt_compare a b with Lt => false | _ => true end.

(** The builtins [max(a, b)] and [min(a, b)] return [a] on ties. *)
Definition dt_max (a b : datetime) : datetime := if dt_gtb b a then b else a.
Definition dt_min (a b : datetime) : datetime := if dt_ltb b a then b else a.

(** ** [utils/dates.py] *)

(** [DateLike = date | datetime | str] *)
Inductive DateLike : Type :=
| DLdate (d : date)
| DLdatetime (dt : datetime)
| DLstr (s : string).

Definition digit (c : ascii) : option Z :=
  let n := N_of_ascii c in
  if ((48 <=? n) && (n <=? 57))%N then Some (Z.of_N n - 48) else None.

Definition number (cs : list ascii) : option Z :=
  fold_left (fun acc c =>
               match acc, digit c with
               | Some a, Some v => Some (10 * a + v)
               | _, _ => None
               end) cs (Some 0).

(** [datetime.fromisoformat] on the calendar form [YYYY-MM-DD], the form
    in which this program exchanges dates; the longer ISO forms are not
    part of the model and are rejected like any other malformed text. *)
Definition fromisoformat (s : string) : result datetime :=
  let bad := Raise (ValueError "Invalid isoformat string") in
  match list_ascii_of_string s with
  | [y1; y2; y3; y4; s1; m1; m2; s2; d1; d2] =>
      if (Ascii.eqb s1 "-" && Ascii.eqb s2 "-")%bool then
        match number [y1; y2; y3; y4], number [m1; m2], number [d1; d2] with
        | Some y, Some m, Some d =>
            r <- date_new y m d ;; Ok (datetime_combine r time_min)
        | _, _, _ => bad
        end
      else bad
  | _ => bad
  end.

(** [to_date]: the [TypeError] branch of the source is for values that
    are none of the three alternatives of [DateLike]. *)
Definition to_date (value : DateLike) : result date :=
  match value with
  | DLdate d => Ok d
  | DLdatetime dt => Ok (dt_date dt)
  | DLstr s => dt <- fromisoformat s ;; Ok (dt_date dt)
  end.

(** Bound on the iterations of the [while] loop of [month_range]: one per
    calendar month from [current] to [last], and the final test. *)
Definition month_range_fuel (current last : date) : nat :=
  S (Z.to_nat (12 * (year last - year current) + (month last - month current) + 1)).

Fixpoint month_range_loop (fuel : nat) (current last : date)
    (months : list (date * date)) : result (list (date * date)) :=
  match fuel with
  | O => OutOfFuel
  | S fuel' =>
      if date_leb current last then
        d28 <- date_replace_day current 28 ;;
        d32 <- date_add_days d28 4 ;;
        next_month <- date_replace_day d32 1 ;;
        prev <- date_add_days next_month (-1) ;;
        let month_end := date_min prev last in
        month_range_loop fuel' next_month last (months ++ [(current, month_end)])
      else Ok months
  end.

Definition month_range (start end_ : DateLike) : result (list (date * date)) :=
  s <- to_date start ;;
  current <- date_replace_day s 1 ;;
  last <- to_date end_ ;;
  month_range_loop (month_range_fuel current last) current last [].

Definition TICK_DAYS : list Z := [6; 12; 18; 24].

(** The inner [for day in (6, 12, 18, 24)] loop of [make_tickvals]. *)
Fixpoint month_ticks (days : list Z) (month_start month_end : date)
    (ticks : list datetime) : result (list datetime) :=
  match days with
  | [] => Ok ticks
  | d :: rest =>
      if d <=? day month_end then
        tick_date <- date_replace_day month_start d ;;
        if date_leb month_start tick_date && date_leb tick_date month_end then
          month_ticks rest month_start month_end
            (ticks ++ [datetime_combine tick_date time_min])
        else month_ticks rest month_start month_end ticks
      else month_ticks rest month_start month_end ticks
  end.

(** The outer [for month_start, month_end in month_range(start, end)] loop. *)
Fixpoint all_ticks (months : list (date * date)) (ticks : list datetime)
    : result (list datetime) :=
  match months with
  | [] => Ok ticks
  | (month_start, month_end) :: rest =>
      ticks' <- month_ticks TICK_DAYS month_start month_end ticks ;;
      all_ticks rest (ticks' ++ [datetime_combine month_end time_min])
  end.

(** The closing comprehension
    [[tick for tick in ticks if to_date(start) <= tick.date() <= to_date(end)]];
    the chained comparison converts [end] only when the first test holds. *)
Fixpoint ticks_in_range (start end_ : DateLike) (ticks : list datetime)
    : result (list datetime) :=
  match ticks with
  | [] => Ok []
  | tick :: rest =>
      s <- to_date start ;;
      keep <- (if date_leb s (dt_date tick)
               then e <- to_date end_ ;; Ok (date_leb (dt_date tick) e)
               else Ok false) ;;
      kept <- ticks_in_range start end_ rest ;;
      Ok (if keep then tick :: kept else kept)
  end.

Definition make_tickvals (start end_ : DateLike) : result (list datetime) :=
  months <- month_range start end_ ;;
  ticks <- all_ticks months [] ;;
  ticks_in_range start end_ ticks.

Record ClippedSegment : Type := mkClippedSegment {
  cs_project_id : string;
  cs_label : string;
  cs_start : datetime;
  cs_end : datetime
}.

Definition INVALID_SEGMENT_RANGE : exn :=
  ValueError "end_date must be greater than or equal to start_date".

(** [None] is the source's "no overlap" result. *)
Definition clip_segment_to_range (project_id label : string)
    (start end_ view_start view_end : DateLike) : result (option ClippedSegment) :=
  s <- to_date start ;;
  let start_dt := datetime_combine s time_min in
  e <- to_date end_ ;;
  let end_dt := datetime_combine e time_min in
  if dt_ltb end_dt start_dt then Raise INVALID_SEGMENT_RANGE
  else
    vs <- to_date view_start ;;
    let view_start_dt := datetime_combine vs time_min in
    ve <- to_date view_end ;;
    let view_end_dt := datetime_combine ve time_min in
    if dt_ltb end_dt view_start_dt || dt_gtb start_dt view_end_dt then Ok None
    else
      let clipped_start := dt_max start_dt view_start_dt in
      let clipped_end := dt_min end_dt view_end_dt in
      Ok (Some (mkClippedSegment project_id label clipped_start clipped_end)).

(** ** [utils/state.py] *)

(** [collections.deque(maxlen=n)]: the left end is the head of [items]. *)
Record deque (A : Type) : Type := mkdeque { items : list A; maxlen : nat }.

Arguments mkdeque {A} items maxlen.
Arguments items {A} d.
Arguments maxlen {A} d.

Section Deque.
Context {A : Type}.

(** [deque(maxlen=n)] *)
Definition deque_new (n : nat) : deque A := mkdeque [] n.

(** [bool(d)] *)
Definition deque_nonempty (d : deque A) : bool :=
  match items d with [] => false | _ :: _ => true end.

(** [d.append(x)]: a full deque discards its leftmost item. *)
Definition deque_append (x : A) (d : deque A) : deque A :=
  let l := items d ++ [x] in
  mkdeque (if (maxlen d <? length l)%nat then tl l else l) (maxlen d).

(** [d.appendleft(x)]: a full deque discards its rightmost item. *)
Definition deque_appendleft (x : A) (d : deque A) : deque A :=
  let l := x :: items d in
  mkdeque (if (maxlen d <? length l)%nat then removelast l else l) (maxlen d).

(** [d.pop()] *)
Definition deque_pop (d : deque A) : result (A * deque A) :=
  match rev (items d) with
  | [] => Raise (IndexError "pop from an empty deque")
  | x :: r => Ok (x, mkdeque (rev r) (maxlen d))
  end.

(** [d.popleft()] *)
Definition deque_popleft (d : deque A) : result (A * deque A) :=
  match items d with
  | [] => Raise (IndexError "pop from an empty deque")
  | x :: r => Ok (x, mkdeque r (maxlen d))
  end.

(** [d.clear()] *)
Definition deque_clear (d : deque A) : deque A := mkdeque [] (maxlen d).
End Deque.

(** A cell of a date column: a [pd.Timestamp], or [None] for a missing
    value (NaN, NaT). *)
Definition Timestamp : Type := option datetime.

(** A row of the projects table. *)
Module Project.
Record t : Type := mk {
  id : string;
  name : string;
  client : string;
  site : string;
  work_type : string;
  owner : string;
  progress : string;
  start_date : Timestamp;
  end_date : Timestamp;
  note : string;
  color : option string
}.
End Project.

(** A row of the segments table. *)
Module Segment.
Record t : Type := mk {
  segment_id : string;
  project_id : string;
  label : string;
  start_date : Timestamp;
  end_date : Timestamp
}.
End Segment.

Definition ProjectsFrame : Type := list Project.t.
Definition SegmentsFrame : Type := list Segment.t.

(** [DataFrame.copy()] is a deep copy: on values, the same table. *)
Definition copy {A : Type} (df : list A) : list A := df.

Inductive FilterValue : Type :=
| FNone
| FStr (s : string)
| FList (l : list string).

Inductive SettingValue : Type :=
| SStr (s : string)
| SBool (b : bool).

Definition DEFAULT_SETTINGS : list (string * SettingValue) :=
  [("show_today", SBool true); ("grid_mode", SStr "week"); ("zoom", SStr "month")].

Definition HISTORY_LIMIT : nat := 20.

Definition Snapshot : Type := (ProjectsFrame * SegmentsFrame)%type.

Record AppState : Type := mkAppState {
  projects_df : ProjectsFrame;
  segments_df : SegmentsFrame;
  filters : list (string * FilterValue);
  settings : list (string * SettingValue);
  history : deque Snapshot;
  future : deque Snapshot
}.

(** [AppState(projects_df=..., segments_df=...)] with the field defaults. *)
Definition AppState_new (projects : ProjectsFrame) (segments : SegmentsFrame) : AppState :=
  mkAppState projects segments [] DEFAULT_SETTINGS
    (deque_new HISTORY_LIMIT) (deque_new HISTORY_LIMIT).

(** What the user is shown: the [st.toast] calls. *)
Inductive Notice : Type :=
| Toast (msg : string).

Definition NOTHING_TO_UNDO : string := "元に戻せる操作がありません".
Definition NOTHING_TO_REDO : string := "やり直せる操作がありません".

Definition push_history (state : AppState) : AppState :=
  let history' :=
    deque_append (copy (projects_df state), copy (segments_df state)) (history state) in
  let future' := deque_clear (future state) in
  mkAppState (projects_df state) (segments_df state) (filters state) (settings state)
    history' future'.

Definition undo (state : AppState) : result (AppState * list Notice) :=
  if negb (deque_nonempty (history state)) then
    Ok (state, [Toast NOTHING_TO_UNDO])
  else
    let future' :=
      deque_appendleft (copy (projects_df state), copy (segments_df state)) (future state) in
    popped <- deque_pop (history state) ;;
    let '((prev_projects, prev_segments), history') := popped in
    Ok (mkAppState prev_projects prev_segments (filters state) (settings state)
          history' future', []).

Definition redo (state : AppState) : result (AppState * list Notice) :=
  if negb (deque_nonempty (future state)) then
    Ok (state, [Toast NOTHING_TO_REDO])
  else
    let history' :=
      deque_append (copy (projects_df state), copy (segments_df state)) (history state) in
    popped <- deque_popleft (future state) ;;
    let '((next_projects, next_segments), future') := popped in
    Ok (mkAppState next_projects next_segments (filters state) (settings state)
          history' future', []).

Definition update_data (state : AppState) (projects : ProjectsFrame)
    (segments : SegmentsFrame) : AppState :=
  let state' := push_history state in
  mkAppState projects segments (filters state') (settings state')
    (history state') (future state').

(** The deques of a session keep the bound they were created with. *)
Definition state_wf (state : AppState) : Prop :=
  maxlen (history state) = HISTORY_LIMIT /\ maxlen (future state) = HISTORY_LIMIT
  /\ (length (items (history state)) <= HISTORY_LIMIT)%nat
  /\ (length (items (future state)) <= HISTORY_LIMIT)%nat.

(** ** [components/gantt.py] *)

Definition DEFAULT_COLOR : string := "#f97316".

(** [segments_df.merge(projects_df, left_on="project_id", right_on="id",
    how="left", ...)]: every segment row, in the order of the segments
    table, once per project row whose [id] equals its [project_id], or once
    with all project columns missing when there is none. *)
Definition merge_left (segments : SegmentsFrame) (projects : ProjectsFrame)
    : list (Segment.t * option Project.t) :=
  flat_map (fun s =>
              match filter (fun p => String.eqb (Project.id p) (Segment.project_id s)) projects with
              | [] => [(s, None)]
              | ps => map (fun p => (s, Some p)) ps
              end) segments.

(** The result of a merge is labelled by a fresh [RangeIndex]. *)
Definition range_index {A : Type} (l : list A) : list (nat * A) :=
  combine (seq 0 (length l)) l.

(** A row of [merged] once the [color], [start] and [end] columns are set.
    [segment] holds the columns that come from the segments table (its
    [start_date] and [end_date] are the columns [start_date_segment] and
    [end_date_segment] of the frame), [project] those that come from the
    projects table and keep their names: the merge suffixes only the
    segment columns, with [_segment]. *)
Module Merged.
Record t : Type := mk {
  index : nat;
  segment : Segment.t;
  project : option Project.t;
  color : string;
  start : Timestamp;
  end_ : Timestamp
}.

Definition project_id (r : t) : string := Segment.project_id (segment r).
End Merged.

(** A row of the returned frame. *)
Module Row.
Record t : Type := mk {
  merged : Merged.t;
  row : nat;
  display_name : option string
}.

Definition index (r : t) : nat := Merged.index (merged r).
Definition segment (r : t) : Segment.t := Merged.segment (merged r).
Definition project (r : t) : option Project.t := Merged.project (merged r).
Definition project_id (r : t) : string := Merged.project_id (merged r).
Definition segment_id (r : t) : string := Segment.segment_id (segment r).
Definition start (r : t) : Timestamp := Merged.start (merged r).
Definition end_ (r : t) : Timestamp := Merged.end_ (merged r).
End Row.

(** A column of the projects table as it appears in [merged]. *)
Definition project_column {A : Type} (col : Project.t -> option A)
    (project : option Project.t) : option A :=
  match project with
  | Some p => col p
  | None => None
  end.

(** [Series.fillna(value)] *)
Definition fillna {A : Type} (value : A) (cell : option A) : A :=
  match cell with
  | Some v => v
  | None => value
  end.

(** [pd.to_datetime]: a missing cell becomes [NaT]. *)
Definition to_datetime (cell : Timestamp) : Timestamp := cell.

(** [Series.clip(lower=...)] and [Series.clip(upper=...)] leave [NaT] alone. *)
Definition clip_lower (lower : datetime) (cell : Timestamp) : Timestamp :=
  option_map (fun x => if dt_ltb x lower then lower else x) cell.

Definition clip_upper (upper : datetime) (cell : Timestamp) : Timestamp :=
  option_map (fun x => if dt_gtb x upper then upper else x) cell.

(** Comparisons of a column with a scalar are false on [NaT]. *)
Definition ts_geb (cell : Timestamp) (v : datetime) : bool :=
  match cell with
  | Some x => dt_geb x v
  | None => false
  end.

Definition ts_leb (cell : Timestamp) (v : datetime) : bool :=
  match cell with
  | Some x => dt_leb x v
  | None => false
  end.

(** Order of a date column under [sort_values]: [NaT] last. *)
Definition ts_compare (a b : Timestamp) : comparison :=
  match a, b with
  | Some x, Some y => dt_compare x y
  | Some _, None => Lt
  | None, Some _ => Gt
  | None, None => Eq
  end.

(** The sort key [["project_id", "start"]]. *)
Definition sort_key_compare (a b : Merged.t) : comparison :=
  match String.compare (Merged.project_id a) (Merged.project_id b) with
  | Eq => ts_compare (Merged.start a) (Merged.start b)
  | c => c
  end.

Definition sort_key_leb (a b : Merged.t) : bool :=
  match sort_key_compare a b with Gt => false | _ => true end.

(** [sort_values] on several columns is a stable sort: rows with equal
    keys keep their relative order. *)
Fixpoint insert_row (x : Merged.t) (l : list Merged.t) : list Merged.t :=
  match l with
  | [] => [x]
  | y :: l' => if sort_key_leb x y then x :: y :: l' else y :: insert_row x l'
  end.

Definition sort_values (l : list Merged.t) : list Merged.t :=
  fold_right insert_row [] l.

(** [groupby("project_id").cumcount()]: the number of earlier rows of the
    frame with the same [project_id]; [seen] holds the ids of the rows
    already numbered. *)
Fixpoint cumcount (seen : list string) (rows : list Merged.t) : list nat :=
  match rows with
  | [] => []
  | r :: rest =>
      count_occ string_dec seen (Merged.project_id r)
      :: cumcount (Merged.project_id r :: seen) rest
  end.

(** [merged["name"] + " / " + merged["label"]], missing when the name is. *)
Definition make_display_name (r : Merged.t) : option string :=
  option_map (fun n => (n ++ " / " ++ Segment.label (Merged.segment r))%string)
    (project_column (fun p => Some (Project.name p)) (Merged.project r)).

Definition build_gantt_dataframe (projects : ProjectsFrame) (segments : SegmentsFrame)
    (view_start view_end : datetime) : list Row.t :=
  let merged := range_index (merge_left segments projects) in
  let merged :=
    map (fun '(i, (s, p)) =>
           Merged.mk i s p
             (fillna DEFAULT_COLOR (project_column Project.color p))
             (clip_lower view_start (to_datetime (project_column Project.start_date p)))
             (clip_upper view_end (to_datetime (project_column Project.end_date p))))
        merged in
  let merged :=
    filter (fun r => ts_geb (Merged.end_ r) view_start && ts_leb (Merged.start r) view_end)
      merged in
  let merged := sort_values merged in
  map (fun '(r, n) => Row.mk r n (make_display_name r))
    (combine merged (cumcount [] merged)).

(** [max] on dates, used to state what clipping returns. *)
Definition date_max (a b : date) : date := if date_ltb a b then b else a.

(** ** Vocabulary of the properties *)

(** The first day of the month after month [m] of year [y]. *)
Definition first_of_next_month (y m : Z) : date :=
  if m =? 12 then mkdate (y + 1) 1 1 else mkdate y (m + 1) 1.

(** Months counted from year 0. *)
Definition month_index (d : date) : Z := 12 * year d + month d.

(** A bucket of [month_range]: the first of a month and a day of it. *)
Definition bucket_ok (b : date * date) : Prop :=
  date_ok (fst b) = true /\ day (fst b) = 1
  /\ date_ok (snd b) = true
  /\ year (snd b) = year (fst b) /\ month (snd b) = month (fst b).

(** Comparison functions that are strict total orders. *)

Record is_order {T : Type} (c : T -> T -> comparison) : Prop := mk_is_order {
  ord_eq : forall x y, c x y = Eq -> x = y;
  ord_refl : forall x, c x x = Eq;
  ord_antisym : forall x y, c x y = CompOpp (c y x);
  ord_trans : forall x y z, c x y = Lt -> c y z = Lt -> c x z = Lt
}.

(** Lexicographic comparison by two components. *)
Definition lex_by {T A B : Type} (fa : T -> A) (fb : T -> B)
    (ca : A -> A -> comparison) (cb : B -> B -> comparison) (x y : T) : comparison :=
  match ca (fa x) (fa y) with
  | Eq => cb (fb x) (fb y)
  | c => c
  end.

(** The key by which [sort_values] orders a row. *)
Definition sort_key (r : Merged.t) : string * Timestamp :=
  (Merged.project_id r, Merged.start r).

(** The order in which the sorted frame lists its rows: by key, and by
    index label among equal keys. *)
Definition row_before (a b : Merged.t) : Prop :=
  sort_key_compare a b = Lt
  \/ (sort_key_compare a b = Eq /\ (Merged.index a < Merged.index b)%nat).

(** ** The steps of [build_gantt_dataframe] *)

(** [merged] with its [color], [start] and [end] columns, before the
    rows outside the window are dropped. *)
Definition merged_rows (projects : ProjectsFrame) (segments : SegmentsFrame)
    (view_start view_end : datetime) : list Merged.t :=
  map (fun '(i, (s, p)) =>
         Merged.mk i s p
           (fillna DEFAULT_COLOR (project_column Project.color p))
           (clip_lower view_start (to_datetime (project_column Project.start_date p)))
           (clip_upper view_end (to_datetime (project_column Project.end_date p))))
      (range_index (merge_left segments projects)).

(** The mask [(merged["end"] >= view_start) & (merged["start"] <= view_end)]. *)
Definition in_window (view_start view_end : datetime) (r : Merged.t) : bool :=
  ts_geb (Merged.end_ r) view_start && ts_leb (Merged.start r) view_end.

(** The [row] and [display_name] columns, numbering after [seen]. *)
Definition number_rows (seen : list string) (l : list Merged.t) : list Row.t :=
  map (fun '(r, n) => Row.mk r n (make_display_name r)) (combine l (cumcount seen l)).

(** Order of two rows of the result that belong to the same project. *)
Definition ordinal_before (r r' : Row.t) : Prop :=
  row_before (Row.merged r) (Row.merged r')
  /\ (Row.project_id r = Row.project_id r' -> (Row.row r < Row.row r')%nat).

(** What the specification asks of a project without segments: a row of
    its own in the result. *)
Definition segmentless_projects_have_a_row (projects : ProjectsFrame)
    (segments : SegmentsFrame) (out : list Row.t) : Prop :=
  forall p, In p projects ->
    (forall s, In s segments -> Segment.project_id s <> Project.id p) ->
    exists r, In r out /\ Row.project_id r = Project.id p.

(** What the specification asks of rows with equal starts: ordinals in
    the order of the segment ids. *)
Definition ties_follow_segment_id (out : list Row.t) : Prop :=
  forall r1 r2, In r1 out -> In r2 out ->
    Row.project_id r1 = Row.project_id r2 ->
    Row.start r1 = Row.start r2 ->
    String.ltb (Row.segment_id r1) (Row.segment_id r2) = true ->
    (Row.row r1 < Row.row r2)%nat.

(** ** Sample data *)

Definition sample_project (i : string) (s e : date) : Project.t :=
  Project.mk i ("Project " ++ i) "client" "site" "works" "owner" "予定"
    (Some (datetime_combine s time_min)) (Some (datetime_combine e time_min))
    EmptyString None.

Definition sample_segment (i p : string) (s e : date) : Segment.t :=
  Segment.mk i p "main"
    (Some (datetime_combine s time_min)) (Some (datetime_combine e time_min)).

Definition sample_projects : ProjectsFrame :=
  [sample_project "0" (mkdate 2025 7 1) (mkdate 2025 8 31);
   sample_project "1" (mkdate 2025 9 1) (mkdate 2025 10 31)].

Definition sample_segments : SegmentsFrame :=
  [sample_segment "1-main" "1" (mkdate 2025 9 1) (mkdate 2025 10 31)].

(** The default view window of the sidebar, [DEFAULT_FROM .. DEFAULT_TO]. *)
Definition sample_view_start : datetime := datetime_combine (mkdate 2025 7 1) time_min.
Definition sample_view_end : datetime := datetime_combine (mkdate 2026 6 30) time_min.

(** A segment that names a project the projects table does not have. *)
Definition orphan_segment : Segment.t :=
  sample_segment "9-main" "9" (mkdate 2025 9 1) (mkdate 2025 10 31).

(** A row to name when a frame is read by position. *)
Definition blank_row : Row.t :=
  Row.mk (Merged.mk 0 orphan_segment None EmptyString None None) 0 None.

(** Two segments of one project with the same dates, the later
    [segment_id] listed first. *)
Definition tie_projects : ProjectsFrame :=
  [sample_project "0" (mkdate 2025 7 1) (mkdate 2025 8 31)].

Definition tie_segments : SegmentsFrame :=
  [sample_segment "0-b" "0" (mkdate 2025 7 1) (mkdate 2025 8 31);
   sample_segment "0-a" "0" (mkdate 2025 7 1) (mkdate 2025 8 31)].

(* ================================================================== *)
(** * Part I, continued. The rest of the modelled code *)
(* ================================================================== *)

(** ** Ordinals and weekdays of [datetime.date] *)

Definition DAYS_BEFORE_MONTH : list Z :=
  [-1; 0; 31; 59; 90; 120; 151; 181; 212; 243; 273; 304; 334].

(** Days before January 1st of year [y]. *)
Definition days_before_year (y : Z) : Z :=
  let y' := y - 1 in y' * 365 + y' / 4 - y' / 100 + y' / 400.

(** Days of year [y] before the first of month [m]. *)
Definition days_before_month (y m : Z) : Z :=
  nth (Z.to_nat m) DAYS_BEFORE_MONTH (-1) + (if (2 <? m) && is_leap y then 1 else 0).

(** [d.toordinal()]: January 1st of year 1 is day 1. *)
Definition toordinal (d : date) : Z :=
  days_before_year (year d) + days_before_month (year d) (month d) + day d.

(** [d.weekday()]: Monday is 0, Sunday is 6. *)
Definition weekday (d : date) : Z := (toordinal d + 6) mod 7.

(** [(a - b).days] *)
Definition date_diff (a b : date) : Z := toordinal a - toordinal b.

(** A month and a day of the calendar, in any year. *)
Definition date_wf (d : date) : Prop :=
  1 <= month d <= 12 /\ 1 <= day d <= days_in_month (year d) (month d).

(** [date.max.toordinal()] *)
Definition MAXORDINAL : Z := 3652059.

(** ** The rest of [utils/dates.py] *)

(** [str(n)] of an integer, as an f-string prints it. *)
Definition string_of_Z (z : Z) : string := NilZero.string_of_int (Z.to_int z).

(** The two suffixes of the month label, as the source file spells them. *)
Definition YEAR_SUFFIX : string := "å¹´".
Definition MONTH_SUFFIX : string := "æœˆ".

(** The loop of [make_month_annotations]. The midpoint is
    [month_start + (month_end - month_start) / 2]: halving a whole number
    of days gives days and perhaps twelve hours, and adding a timedelta to
    a date uses its whole days only. *)
Fixpoint month_annotations (months : list (date * date))
    (annotations : list (string * datetime)) : result (list (string * datetime)) :=
  match months with
  | [] => Ok annotations
  | (month_start, month_end) :: rest =>
      let label :=
        (string_of_Z (year month_start) ++ YEAR_SUFFIX
         ++ string_of_Z (month month_start) ++ MONTH_SUFFIX)%string in
      midpoint <- date_add_days month_start (date_diff month_end month_start / 2) ;;
      month_annotations rest
        (annotations ++ [(label, datetime_combine midpoint time_min)])
  end.

Definition make_month_annotations (start end_ : DateLike)
    : result (list (string * datetime)) :=
  months <- month_range start end_ ;;
  month_annotations months [].

(** Bound on the iterations of the loop of [make_week_lines]: one per week
    from [current] to [end_date], and the final test. *)
Definition week_lines_fuel (current end_date : date) : nat :=
  S (Z.to_nat ((toordinal end_date - toordinal current) / 7 + 1)).

Fixpoint week_lines_loop (fuel : nat) (current end_date : date)
    (lines : list datetime) : result (list datetime) :=
  match fuel with
  | O => OutOfFuel
  | S fuel' =>
      if date_leb current end_date then
        let lines := lines ++ [datetime_combine current time_min] in
        next <- date_add_days current 7 ;;
        week_lines_loop fuel' next end_date lines
      else Ok lines
  end.

Definition make_week_lines (start end_ : DateLike) : result (list datetime) :=
  start_date <- to_date start ;;
  aligned_start <- date_add_days start_date (- weekday start_date) ;;
  end_date <- to_date end_ ;;
  week_lines_loop (week_lines_fuel aligned_start end_date) aligned_start end_date [].

(** [np.busday_count(begin, end)] with the default week mask and begin not
    after end (as [business_days] calls it): the Mondays to Fridays from
    [begin] up to, not including, [end]. *)
Fixpoint count_weekdays (n : nat) (d : date) : Z :=
  match n with
  | O => 0
  | S n' => (if weekday d <? 5 then 1 else 0) + count_weekdays n' (succ_day d)
  end.

Definition busday_count (begin end_ : date) : Z :=
  count_weekdays (Z.to_nat (date_diff end_ begin)) begin.

Section BusinessDays.
(** [len(pd.bdate_range(start, end))], the fallback of [business_days] for
    when the numpy path raises; pandas is not part of the model. *)
Variable bdate_range_len : date -> date -> result Z.

Definition business_days (start end_ : DateLike) : result Z :=
  start_date <- to_date start ;;
  end_date <- to_date end_ ;;
  if date_ltb end_date start_date then Raise INVALID_SEGMENT_RANGE
  else
    match date_add_days end_date 1 with
    | Ok next_day => Ok (busday_count start_date next_day)
    | _ => bdate_range_len start_date end_date
    end.
End BusinessDays.

(** The bucket of the month with index [k] (twelve times the year plus
    the month) in a range that ends at [last]: the whole month, cut at
    [last]. *)
Definition bucket_at (last : date) (k : Z) : date * date :=
  let y := (k - 1) / 12 in
  let m := (k - 1) mod 12 + 1 in
  (mkdate y m 1, date_min (mkdate y m (days_in_month y m)) last).

(** The ticks of one bucket: the [TICK_DAYS] of the month up to the day
    the bucket ends, and the end of the bucket. *)
Definition bucket_ticks (b : date * date) : list datetime :=
  map (fun d => datetime_combine (mkdate (year (fst b)) (month (fst b)) d) time_min)
    (filter (fun d => d <=? day (snd b)) TICK_DAYS)
  ++ [datetime_combine (snd b) time_min].

(** The annotation of a bucket: its label, and midnight of the day half
    way (rounded down) from the first day to the day the bucket ends. *)
Definition annotation_of (b : date * date) : string * datetime :=
  ((string_of_Z (year (fst b)) ++ YEAR_SUFFIX
    ++ string_of_Z (month (fst b)) ++ MONTH_SUFFIX)%string,
   datetime_combine
     (mkdate (year (fst b)) (month (fst b)) (1 + (day (snd b) - 1) / 2)) time_min).

(** The Mondays to Fridays among the [n] days that start with the day of
    ordinal [o]. *)
Definition weekdays_from (o : Z) (n : nat) : Z :=
  fold_right Z.add 0
    (map (fun i => if (o + Z.of_nat i + 6) mod 7 <? 5 then 1 else 0) (seq 0 n)).

(** ** Sequences of history operations *)

(** [n] clicks on the undo button. *)
Fixpoint undo_times (n : nat) (state : AppState) : result AppState :=
  match n with
  | O => Ok state
  | S n' => r <- undo state ;; undo_times n' (fst r)
  end.

(** The tables a session shows. *)
Definition current_tables (state : AppState) : Snapshot :=
  (projects_df state, segments_df state).

(** ** [app.py] and [utils/io.py]: the segments generated for projects *)

(** [str(n)] of an index label. *)
Definition string_of_nat (n : nat) : string := NilZero.string_of_uint (Nat.to_uint n).

(** A calendar date as the date cell of a table. *)
Definition date_cell (y m d : Z) : Timestamp :=
  Some (datetime_combine (mkdate y m d) time_min).

Definition MAIN_LABEL : string := "基本工期".

(** The [extra_segments] of [_build_segments]: per project id, the label,
    start and end of each extra segment. *)
Definition EXTRA_SEGMENTS : list (string * list (string * Timestamp * Timestamp)) :=
  [("0", [("基礎工", date_cell 2025 7 8, date_cell 2025 8 20);
          ("建方", date_cell 2025 8 21, date_cell 2025 10 30)]);
   ("3", [("配水池施工", date_cell 2025 9 1, date_cell 2025 11 30);
          ("設備据付", date_cell 2025 12 1, date_cell 2026 1 15)]);
   ("5", [("橋面補修", date_cell 2025 7 1, date_cell 2025 8 30);
          ("舗装復旧", date_cell 2025 9 1, date_cell 2025 11 18)])].

(** The main segment [_build_segments] gives a project. *)
Definition main_segment (p : Project.t) : Segment.t :=
  Segment.mk (Project.id p ++ "-main") (Project.id p) MAIN_LABEL
    (Project.start_date p) (Project.end_date p).

(** The segments of one entry of [extra_segments], numbered from 1. *)
Definition extra_segments_of (entry : string * list (string * Timestamp * Timestamp))
    : list Segment.t :=
  let '(project_id, segs) := entry in
  map (fun '(order, (label, start, end_)) =>
         Segment.mk (project_id ++ "-extra-" ++ string_of_nat order) project_id label
           start end_)
    (combine (seq 1 (length segs)) segs).

(** [DataFrame.drop_duplicates(subset=["segment_id"], keep="last")]: of the
    rows with one segment id the last stays, the rows that stay keep their
    order. *)
Fixpoint drop_duplicates_last (l : list Segment.t) : list Segment.t :=
  match l with
  | [] => []
  | x :: rest =>
      if existsb (fun y => String.eqb (Segment.segment_id y) (Segment.segment_id x)) rest
      then drop_duplicates_last rest
      else x :: drop_duplicates_last rest
  end.

(** [_build_segments] of [app.py] *)
Definition build_segments (projects : ProjectsFrame) : SegmentsFrame :=
  let segments := map main_segment projects in
  let segments := segments ++ flat_map extra_segments_of EXTRA_SEGMENTS in
  drop_duplicates_last segments.

Definition IMPORT_LABEL : string := "メイン工期".

(** [_generate_segments] of [utils/io.py]: one segment per row, named
    after the position of the row. *)
Definition generate_segments (projects : ProjectsFrame) : SegmentsFrame :=
  map (fun '(i, p) =>
         Segment.mk (string_of_nat i ++ "-main") (string_of_nat i) IMPORT_LABEL
           (Project.start_date p) (Project.end_date p))
    (range_index projects).

(** [projects.reset_index(drop=True).assign(id=lambda d: d.index.astype(str))],
    the ids the sidebar gives the rows of an imported file. *)
Definition assign_ids (projects : ProjectsFrame) : ProjectsFrame :=
  map (fun '(i, p) =>
         Project.mk (string_of_nat i) (Project.name p) (Project.client p)
           (Project.site p) (Project.work_type p) (Project.owner p)
           (Project.progress p) (Project.start_date p) (Project.end_date p)
           (Project.note p) (Project.color p))
    (range_index projects).

(** The import of the sidebar, once the file is read: the rows get their
    ids, the generated segments come with them, and both replace the
    tables of the session through [update_data]. *)
Definition import_tables (state : AppState) (df : ProjectsFrame) : AppState :=
  update_data state (assign_ids df) (generate_segments df).

(** ** [components/editor.py] *)

(** What the editor shows: its [st.subheader], [st.info], [st.warning],
    [st.markdown], [st.error] and [st.success] calls. *)
Inductive EditorEvent : Type :=
| UiSubheader (text : string)
| UiInfo (text : string)
| UiWarning (text : string)
| UiMarkdown (text : string)
| UiError (text : string)
| UiSuccess (text : string).

(** What the widgets of the form return on this run of the script. *)
Record SegmentForm : Type := mkSegmentForm {
  form_label : string;
  form_start_date : date;
  form_end_date : date;
  form_progress : string;
  form_note : string;
  form_submitted : bool
}.

Definition EDITOR_TITLE : string := "セグメント編集".
Definition EDITOR_HINT : string := "ガントチャートのバーをクリックすると編集できます".
Definition EDITOR_NOT_FOUND : string := "選択されたセグメントが見つかりませんでした".
Definition EDITOR_PROJECT : string := "**案件:** ".
Definition EDITOR_BAD_RANGE : string := "終了日は開始日以降に設定してください".
Definition EDITOR_SAVED : string := "更新しました".
Definition PROGRESS_OPTIONS : list string := ["予定"; "進行"; "完了"].

(** [_get_segment_row]: the first row with the segment id, if any. *)
Definition get_segment_row (state : AppState) (segment_id : string) : option Segment.t :=
  match filter (fun s => String.eqb (Segment.segment_id s) segment_id) (segments_df state) with
  | [] => None
  | row :: _ => Some row
  end.

(** [frame.iloc[0]] *)
Definition iloc0 {A : Type} (frame : list A) : result A :=
  match frame with
  | [] => Raise (IndexError "single positional indexer is out-of-bounds")
  | row :: _ => Ok row
  end.

(** [options.index(x)] *)
Fixpoint list_index (x : string) (options : list string) : result nat :=
  match options with
  | [] => Raise (ValueError "is not in list")
  | o :: rest =>
      if String.eqb o x then Ok 0%nat
      else i <- list_index x rest ;; Ok (S i)
  end.

(** [to_date(str(cell))]: the text of a date cell is an ISO date, that of
    a missing cell is not. *)
Definition cell_to_date (cell : Timestamp) : result date :=
  match cell with
  | Some dt => Ok (dt_date dt)
  | None => Raise (ValueError "Invalid isoformat string")
  end.

(** [d.strftime("%Y-%m-%d")], written into a date cell. *)
Definition strftime_cell (d : date) : Timestamp := Some (datetime_combine d time_min).

(** [segments_df.loc[segments_df["segment_id"] == id,
    ["label", "start_date", "end_date"]] = [...]] *)
Definition set_segment_fields (segment_id label : string) (start end_ : Timestamp)
    (segments : SegmentsFrame) : SegmentsFrame :=
  map (fun s =>
         if String.eqb (Segment.segment_id s) segment_id
         then Segment.mk (Segment.segment_id s) (Segment.project_id s) label start end_
         else s) segments.

(** [projects_df.loc[projects_df["id"] == id, ["progress", "note"]] = [...]] *)
Definition set_project_fields (id progress note : string) (projects : ProjectsFrame)
    : ProjectsFrame :=
  map (fun p =>
         if String.eqb (Project.id p) id
         then Project.mk (Project.id p) (Project.name p) (Project.client p)
                (Project.site p) (Project.work_type p) (Project.owner p) progress
                (Project.start_date p) (Project.end_date p) note (Project.color p)
         else p) projects.

(** [render_editor]: [selected_segment_id] is [None] or a string, the form
    holds what the user entered; the result is the session afterwards and
    what was shown. *)
Definition render_editor (state : AppState) (selected_segment_id : option string)
    (form : SegmentForm) : result (AppState * list EditorEvent) :=
  let shown := [UiSubheader EDITOR_TITLE] in
  match selected_segment_id with
  | None | Some EmptyString => Ok (state, shown ++ [UiInfo EDITOR_HINT])
  | Some segment_id =>
      match get_segment_row state segment_id with
      | None => Ok (state, shown ++ [UiWarning EDITOR_NOT_FOUND])
      | Some row =>
          project <- iloc0 (filter (fun p => String.eqb (Project.id p)
                                               (Segment.project_id row))
                              (projects_df state)) ;;
          let shown := shown ++ [UiMarkdown (EDITOR_PROJECT ++ Project.name project)] in
          _ <- cell_to_date (Segment.start_date row) ;;
          _ <- cell_to_date (Segment.end_date row) ;;
          _ <- list_index (Project.progress project) PROGRESS_OPTIONS ;;
          if form_submitted form then
            if date_ltb (form_end_date form) (form_start_date form) then
              Ok (state, shown ++ [UiError EDITOR_BAD_RANGE])
            else
              let state := push_history state in
              let segments :=
                set_segment_fields segment_id (form_label form)
                  (strftime_cell (form_start_date form))
                  (strftime_cell (form_end_date form)) (segments_df state) in
              let projects :=
                set_project_fields (Project.id project) (form_progress form)
                  (form_note form) (projects_df state) in
              Ok (mkAppState projects segments (filters state) (settings state)
                    (history state) (future state),
                  shown ++ [UiSuccess EDITOR_SAVED])
          else Ok (state, shown)
      end
  end.

(** An entry of the form, for the examples. *)
Definition sample_form (start end_ : date) : SegmentForm :=
  mkSegmentForm "foundation" start end_ "進行" "checked" true.



(* ================================================================== *)
(** * Part II. Properties *)
(* ================================================================== *)

(** ** Order on dates and datetimes *)

Lemma date_compare_eq (a b : date) : date_compare a b = Eq -> a = b.
Proof.
  destruct a as [ya ma da], b as [yb mb db]; unfold date_compare; simpl.
  destruct (Z.compare_spec ya yb); try discriminate.
  destruct (Z.compare_spec ma mb); try discriminate.
  destruct (Z.compare_spec da db); try discriminate.
  intros _; congruence.
Qed.

Lemma date_compare_refl (a : date) : date_compare a a = Eq.
Proof. unfold date_compare; now rewrite !Z.compare_refl. Qed.

Lemma date_compare_lt (a b : date) :
  date_compare a b = Lt <->
  year a < year b \/
  (year a = year b /\ (month a < month b \/ (month a = month b /\ day a < day b))).
Proof.
  unfold date_compare.
  destruct (Z.compare_spec (year a) (year b));
    destruct (Z.compare_spec (month a) (month b));
    destruct (Z.compare_spec (day a) (day b));
    split; intros; try discriminate; try reflexivity; lia.
Qed.

Lemma date_compare_gt (a b : date) :
  date_compare a b = Gt <-> date_compare b a = Lt.
Proof.
  rewrite date_compare_lt; unfold date_compare.
  destruct (Z.compare_spec (year a) (year b));
    destruct (Z.compare_spec (month a) (month b));
    destruct (Z.compare_spec (day a) (day b));
    split; intros; try discriminate; try reflexivity; lia.
Qed.

Lemma date_ltb_lt (a b : date) :
  date_ltb a b = true <->
  year a < year b \/
  (year a = year b /\ (month a < month b \/ (month a = month b /\ day a < day b))).
Proof.
  rewrite <- date_compare_lt; unfold date_ltb.
  destruct (date_compare a b); split; intros; congruence.
Qed.

Lemma date_leb_le (a b : date) :
  date_leb a b = true <->
  year a < year b \/
  (year a = year b /\ (month a < month b \/ (month a = month b /\ day a <= day b))).
Proof.
  unfold date_leb.
  destruct (date_compare a b) eqn:E.
  - apply date_compare_eq in E; subst b; split; intros; [lia | reflexivity].
  - apply date_compare_lt in E; split; intros; [lia | reflexivity].
  - apply date_compare_gt, date_compare_lt in E; split; intros; [discriminate | lia].
Qed.

Lemma date_leb_ltb (a b : date) : date_leb a b = negb (date_ltb b a).
Proof.
  unfold date_leb, date_ltb.
  destruct (date_compare a b) eqn:E.
  - apply date_compare_eq in E; subst b; now rewrite date_compare_refl.
  - destruct (date_compare b a) eqn:E'; try reflexivity.
    apply date_compare_lt in E, E'; lia.
  - apply date_compare_gt in E; now rewrite E.
Qed.

Lemma time_compare_refl (t : time) : time_compare t t = Eq.
Proof. unfold time_compare; now rewrite !Z.compare_refl. Qed.

(** Two datetimes at the same time of day compare as their dates. *)
Lemma dt_compare_combine (a b : date) (t : time) :
  dt_compare (datetime_combine a t) (datetime_combine b t) = date_compare a b.
Proof.
  unfold dt_compare; simpl.
  destruct (date_compare a b); auto using time_compare_refl.
Qed.

Lemma dt_ltb_combine (a b : date) (t : time) :
  dt_ltb (datetime_combine a t) (datetime_combine b t) = date_ltb a b.
Proof. unfold dt_ltb, date_ltb; now rewrite dt_compare_combine. Qed.

Lemma dt_gtb_combine (a b : date) (t : time) :
  dt_gtb (datetime_combine a t) (datetime_combine b t) = date_ltb b a.
Proof.
  unfold dt_gtb, date_ltb; rewrite dt_compare_combine.
  destruct (date_compare a b) eqn:E.
  - apply date_compare_eq in E; subst b; now rewrite date_compare_refl.
  - destruct (date_compare b a) eqn:E'; try reflexivity.
    apply date_compare_lt in E, E'; lia.
  - apply date_compare_gt in E; now rewrite E.
Qed.

Lemma dt_max_combine (a b : date) (t : time) :
  dt_max (datetime_combine a t) (datetime_combine b t) = datetime_combine (date_max a b) t.
Proof. unfold dt_max, date_max; rewrite dt_gtb_combine; now destruct (date_ltb a b). Qed.

Lemma dt_min_combine (a b : date) (t : time) :
  dt_min (datetime_combine a t) (datetime_combine b t) = datetime_combine (date_min a b) t.
Proof. unfold dt_min, date_min; rewrite dt_ltb_combine; now destruct (date_ltb b a). Qed.

(** ** Segment clipping *)

(** The three cases of [test_dates.py]. *)
Example test_clip_segment_inside_range :
  clip_segment_to_range "1" "A" (DLstr "2025-07-01") (DLstr "2025-07-31")
    (DLstr "2025-07-10") (DLstr "2025-07-20")
  = Ok (Some (mkClippedSegment "1" "A"
                (datetime_combine (mkdate 2025 7 10) time_min)
                (datetime_combine (mkdate 2025 7 20) time_min))).
Proof. reflexivity. Qed.

Example test_clip_segment_outside_range_returns_none :
  clip_segment_to_range "1" "A" (DLstr "2025-07-01") (DLstr "2025-07-05")
    (DLstr "2025-07-10") (DLstr "2025-07-20")
  = Ok None.
Proof. reflexivity. Qed.

Example test_clip_segment_invalid_range :
  clip_segment_to_range "1" "A" (DLstr "2025-07-10") (DLstr "2025-07-01")
    (DLstr "2025-07-01") (DLstr "2025-07-31")
  = Raise INVALID_SEGMENT_RANGE.
Proof. reflexivity. Qed.

(** C5. A segment whose end precedes its start makes
    [clip_segment_to_range] raise the range error, whatever the view
    window is: the test comes before the window is even converted, so the
    segment is rejected also when it lies outside the window (and when the
    window itself is malformed). *)
Theorem clip_rejects_inverted_segment
    (project_id label : string) (start end_ view_start view_end : DateLike) (s e : date) :
  to_date start = Ok s ->
  to_date end_ = Ok e ->
  date_ltb e s = true ->
  clip_segment_to_range project_id label start end_ view_start view_end
  = Raise INVALID_SEGMENT_RANGE.
Proof.
  intros Hs He Hlt.
  unfold clip_segment_to_range.
  rewrite Hs, He; simpl.
  now rewrite dt_ltb_combine, Hlt.
Qed.

Lemma clip_rejects_inverted_segment_witness :
  to_date (DLstr "2025-07-10") = Ok (mkdate 2025 7 10) /\
  to_date (DLstr "2025-07-01") = Ok (mkdate 2025 7 1) /\
  date_ltb (mkdate 2025 7 1) (mkdate 2025 7 10) = true /\
  clip_segment_to_range "1" "A" (DLstr "2025-07-10") (DLstr "2025-07-01")
    (DLstr "2026-01-01") (DLstr "not a date")
  = Raise INVALID_SEGMENT_RANGE.
Proof.
  split; [reflexivity|]. split; [reflexivity|]. split; [reflexivity|].
  exact (clip_rejects_inverted_segment "1" "A" (DLstr "2025-07-10")
           (DLstr "2025-07-01") (DLstr "2026-01-01") (DLstr "not a date")
           (mkdate 2025 7 10) (mkdate 2025 7 1) eq_refl eq_refl eq_refl).
Defined.

(** C6. On a segment with start <= end, [clip_segment_to_range] returns
    [None] exactly when the segment ends before the window starts or
    starts after the window ends, and otherwise the segment from
    max(segStart, viewStart) to min(segEnd, viewEnd), at midnight; a
    segment ending on the very day the window starts is clipped, not
    dropped. *)
Theorem clip_overlap_spec
    (project_id label : string) (start end_ view_start view_end : DateLike)
    (s e vs ve : date) :
  to_date start = Ok s ->
  to_date end_ = Ok e ->
  to_date view_start = Ok vs ->
  to_date view_end = Ok ve ->
  date_leb s e = true ->
  let clipped :=
    mkClippedSegment project_id label
      (datetime_combine (date_max s vs) time_min)
      (datetime_combine (date_min e ve) time_min) in
  let r := clip_segment_to_range project_id label start end_ view_start view_end in
  (r = Ok None <-> date_ltb e vs = true \/ date_ltb ve s = true)
  /\ (r <> Ok None -> r = Ok (Some clipped))
  /\ (e = vs -> date_leb vs ve = true -> r = Ok (Some clipped)).
Proof.
  intros Hs He Hvs Hve Hle clipped r.
  assert (Hr : r = if date_ltb e vs || date_ltb ve s then Ok None else Ok (Some clipped)).
  { subst r clipped; unfold clip_segment_to_range.
    rewrite Hs, He; simpl.
    rewrite dt_ltb_combine.
    rewrite date_leb_ltb in Hle; apply negb_true_iff in Hle; rewrite Hle.
    rewrite Hvs, Hve; simpl.
    rewrite dt_ltb_combine, dt_gtb_combine, dt_max_combine, dt_min_combine.
    reflexivity. }
  repeat split.
  - rewrite Hr; destruct (date_ltb e vs || date_ltb ve s) eqn:E; [|discriminate].
    intros _; now apply orb_true_iff in E.
  - intros H; apply orb_true_iff in H; now rewrite Hr, H.
  - rewrite Hr; destruct (date_ltb e vs || date_ltb ve s); [congruence | reflexivity].
  - intros -> Hw; rewrite Hr.
    assert (E1 : date_ltb vs vs = false).
    { unfold date_ltb; now rewrite date_compare_refl. }
    assert (E2 : date_ltb ve s = false).
    { apply not_true_is_false; rewrite date_ltb_lt.
      apply date_leb_le in Hle, Hw; lia. }
    now rewrite E1, E2.
Qed.

Lemma clip_overlap_spec_witness :
  let start := DLstr "2025-07-01" in
  let end_ := DLstr "2025-07-10" in
  let view_start := DLstr "2025-07-10" in
  let view_end := DLstr "2025-07-20" in
  let r := clip_segment_to_range "1" "A" start end_ view_start view_end in
  let clipped :=
    mkClippedSegment "1" "A"
      (datetime_combine (mkdate 2025 7 10) time_min)
      (datetime_combine (mkdate 2025 7 10) time_min) in
  (r = Ok None <->
   date_ltb (mkdate 2025 7 10) (mkdate 2025 7 10) = true \/
   date_ltb (mkdate 2025 7 20) (mkdate 2025 7 1) = true)
  /\ (r <> Ok None -> r = Ok (Some clipped))
  /\ (mkdate 2025 7 10 = mkdate 2025 7 10 ->
      date_leb (mkdate 2025 7 10) (mkdate 2025 7 20) = true -> r = Ok (Some clipped)).
Proof.
  exact (clip_overlap_spec "1" "A" (DLstr "2025-07-01") (DLstr "2025-07-10")
           (DLstr "2025-07-10") (DLstr "2025-07-20")
           (mkdate 2025 7 1) (mkdate 2025 7 10) (mkdate 2025 7 10) (mkdate 2025 7 20)
           eq_refl eq_refl eq_refl eq_refl eq_refl).
Defined.

(** ** Edit history *)

Section DequeFacts.
Context {A : Type}.

Lemma deque_pop_append (x : A) (d : deque A) :
  (1 <= maxlen d)%nat ->
  exists l, deque_pop (deque_append x d) = Ok (x, mkdeque l (maxlen d)).
Proof.
  intros Hmax. unfold deque_pop, deque_append; simpl.
  destruct (maxlen d <? length (items d ++ [x]))%nat eqn:E.
  - apply Nat.ltb_lt in E. rewrite length_app in E; simpl in E.
    destruct (items d) as [|a l]; simpl in *; [lia|].
    rewrite rev_app_distr; simpl. eauto.
  - rewrite rev_app_distr; simpl. eauto.
Qed.

Lemma deque_popleft_appendleft (x : A) (d : deque A) :
  (1 <= maxlen d)%nat ->
  exists l, deque_popleft (deque_appendleft x d) = Ok (x, mkdeque l (maxlen d)).
Proof.
  intros Hmax. unfold deque_popleft, deque_appendleft.
  cbv beta zeta. cbn [items maxlen].
  destruct (maxlen d <? length (x :: items d))%nat eqn:E.
  - apply Nat.ltb_lt in E.
    destruct (items d) as [|a l]; simpl in *; [lia|]. eauto.
  - eauto.
Qed.

Lemma deque_append_nonempty (x : A) (d : deque A) :
  (1 <= maxlen d)%nat -> deque_nonempty (deque_append x d) = true.
Proof.
  intros Hmax. destruct (deque_pop_append x d Hmax) as [l E].
  unfold deque_nonempty, deque_pop in *.
  destruct (items (deque_append x d)); [discriminate | reflexivity].
Qed.

Lemma deque_appendleft_nonempty (x : A) (d : deque A) :
  (1 <= maxlen d)%nat -> deque_nonempty (deque_appendleft x d) = true.
Proof.
  intros Hmax. destruct (deque_popleft_appendleft x d Hmax) as [l E].
  unfold deque_nonempty, deque_popleft in *.
  destruct (items (deque_appendleft x d)); [discriminate | reflexivity].
Qed.

Lemma deque_pop_nonempty (d : deque A) :
  deque_nonempty d = true -> exists x d', deque_pop d = Ok (x, d').
Proof.
  unfold deque_nonempty, deque_pop.
  destruct (items d) as [|a l] eqn:E; [discriminate|]. intros _.
  destruct (rev (a :: l)) as [|x r] eqn:R; [|eauto].
  apply (f_equal (@length A)) in R. rewrite length_rev in R. discriminate.
Qed.

Lemma deque_popleft_nonempty (d : deque A) :
  deque_nonempty d = true -> exists x d', deque_popleft d = Ok (x, d').
Proof.
  unfold deque_nonempty, deque_popleft.
  destruct (items d) as [|a l]; [discriminate | eauto].
Qed.

Lemma deque_append_length (x : A) (d : deque A) :
  (length (items d) <= maxlen d)%nat ->
  (length (items (deque_append x d)) <= maxlen d)%nat.
Proof.
  intros H. unfold deque_append; simpl.
  destruct (maxlen d <? length (items d ++ [x]))%nat eqn:E.
  - rewrite length_app in *; simpl in *.
    destruct (items d); simpl in *; [lia|]. rewrite length_app; simpl. lia.
  - apply Nat.ltb_ge in E. lia.
Qed.

Lemma removelast_cons_length (a : A) (l : list A) :
  length (removelast (a :: l)) = length l.
Proof.
  revert a; induction l as [|b l IH]; intros a; [reflexivity|].
  change (S (length (removelast (b :: l))) = S (length l)).
  now rewrite IH.
Qed.

Lemma deque_appendleft_length (x : A) (d : deque A) :
  (length (items d) <= maxlen d)%nat ->
  (length (items (deque_appendleft x d)) <= maxlen d)%nat.
Proof.
  intros H. unfold deque_appendleft. cbv beta zeta. cbn [items maxlen].
  destruct (maxlen d <? length (x :: items d))%nat eqn:E.
  - now rewrite removelast_cons_length.
  - apply Nat.ltb_ge in E. lia.
Qed.
End DequeFacts.

(** [undo] and [redo] never raise. *)
Lemma undo_total (state : AppState) : exists st n, undo state = Ok (st, n).
Proof.
  unfold undo.
  destruct (deque_nonempty (history state)) eqn:E; simpl; [|eauto].
  destruct (deque_pop_nonempty _ E) as ([p s] & d' & ->); simpl. eauto.
Qed.

Lemma redo_total (state : AppState) : exists st n, redo state = Ok (st, n).
Proof.
  unfold redo.
  destruct (deque_nonempty (future state)) eqn:E; simpl; [|eauto].
  destruct (deque_popleft_nonempty _ E) as ([p s] & d' & ->); simpl. eauto.
Qed.

(** A new session is well formed, and every history operation keeps it so:
    both stacks hold at most [HISTORY_LIMIT] snapshots. *)
Lemma AppState_new_wf (projects : ProjectsFrame) (segments : SegmentsFrame) :
  state_wf (AppState_new projects segments).
Proof. unfold state_wf, AppState_new, HISTORY_LIMIT; cbn; repeat split; lia. Qed.

Lemma push_history_wf (state : AppState) :
  state_wf state -> state_wf (push_history state).
Proof.
  intros (Hh & Hf & Lh & Lf). unfold state_wf, push_history; simpl.
  repeat split; auto; [|lia].
  rewrite <- Hh. apply deque_append_length. now rewrite Hh.
Qed.

Lemma update_data_wf (state : AppState) (projects : ProjectsFrame) (segments : SegmentsFrame) :
  state_wf state -> state_wf (update_data state projects segments).
Proof. intros H; apply push_history_wf in H; exact H. Qed.

Lemma undo_wf (state st : AppState) (n : list Notice) :
  state_wf state -> undo state = Ok (st, n) -> state_wf st.
Proof.
  intros (Hh & Hf & Lh & Lf). unfold undo.
  destruct (deque_nonempty (history state)) eqn:E; simpl.
  - unfold deque_pop.
    destruct (rev (items (history state))) as [|[p s] r] eqn:R; simpl; [discriminate|].
    intros [= <- <-]. unfold state_wf; simpl.
    repeat split; auto.
    + apply (f_equal (@length _)) in R. rewrite length_rev in R; simpl in R.
      rewrite length_rev. lia.
    + rewrite <- Hf. apply deque_appendleft_length. now rewrite Hf.
  - intros [= <- <-]. unfold state_wf; auto.
Qed.

Lemma redo_wf (state st : AppState) (n : list Notice) :
  state_wf state -> redo state = Ok (st, n) -> state_wf st.
Proof.
  intros (Hh & Hf & Lh & Lf). unfold redo.
  destruct (deque_nonempty (future state)) eqn:E; simpl.
  - unfold deque_popleft.
    destruct (items (future state)) as [|[p s] r] eqn:R; simpl; [discriminate|].
    intros [= <- <-]. unfold state_wf; simpl.
    repeat split; auto.
    + rewrite <- Hh. apply deque_append_length. now rewrite Hh.
    + simpl in Lf. lia.
  - intros [= <- <-]. unfold state_wf; auto.
Qed.

(** C7. From any session holding the tables S0, [update_data] with the
    tables S1 followed by [undo] makes S0 current again, and a following
    [redo] makes S1 current again; neither step shows a notice. *)
Theorem history_round_trip
    (state : AppState) (projects : ProjectsFrame) (segments : SegmentsFrame) :
  state_wf state ->
  exists st2 st3,
    undo (update_data state projects segments) = Ok (st2, [])
    /\ projects_df st2 = projects_df state
    /\ segments_df st2 = segments_df state
    /\ redo st2 = Ok (st3, [])
    /\ projects_df st3 = projects
    /\ segments_df st3 = segments.
Proof.
  intros (Hh & Hf & _ & _).
  assert (H1 : (1 <= maxlen (history state))%nat) by (rewrite Hh; unfold HISTORY_LIMIT; lia).
  assert (H2 : (1 <= maxlen (future state))%nat) by (rewrite Hf; unfold HISTORY_LIMIT; lia).
  destruct (deque_pop_append (copy (projects_df state), copy (segments_df state))
              (history state) H1) as [lh Eh].
  destruct (deque_popleft_appendleft (copy projects, copy segments)
              (deque_clear (future state)) H2) as [lf Ef].
  pose proof (deque_append_nonempty (copy (projects_df state), copy (segments_df state))
                (history state) H1) as Nh.
  pose proof (deque_appendleft_nonempty (copy projects, copy segments)
                (deque_clear (future state)) H2) as Nf.
  eexists; eexists.
  split.
  { unfold undo, update_data, push_history; cbn [history future projects_df segments_df
                                                   filters settings].
    unfold Snapshot, ProjectsFrame, SegmentsFrame in *.
    rewrite Nh, Eh; simpl. reflexivity. }
  cbn [projects_df segments_df].
  split; [reflexivity|]. split; [reflexivity|].
  split.
  { unfold redo; cbn [history future projects_df segments_df filters settings].
    unfold Snapshot, ProjectsFrame, SegmentsFrame in *.
    rewrite Nf, Ef; simpl. reflexivity. }
  split; reflexivity.
Qed.

Lemma history_round_trip_witness :
  state_wf (AppState_new sample_projects sample_segments) /\
  exists st2 st3,
    undo (update_data (AppState_new sample_projects sample_segments) [] []) = Ok (st2, [])
    /\ projects_df st2 = sample_projects
    /\ segments_df st2 = sample_segments
    /\ redo st2 = Ok (st3, [])
    /\ projects_df st3 = []
    /\ segments_df st3 = [].
Proof.
  split.
  - apply AppState_new_wf.
  - apply (history_round_trip (AppState_new sample_projects sample_segments) [] []).
    apply AppState_new_wf.
Defined.

(** C8. [push_history] and [update_data] leave the future stack empty
    whatever it held; so after an [undo] followed by a fresh
    [update_data], [redo] changes nothing and only shows its notice. *)
Theorem fresh_edit_clears_future
    (state : AppState) (projects : ProjectsFrame) (segments : SegmentsFrame) :
  items (future (push_history state)) = []
  /\ items (future (update_data state projects segments)) = []
  /\ exists st1 n1,
       undo state = Ok (st1, n1)
       /\ redo (update_data st1 projects segments)
          = Ok (update_data st1 projects segments, [Toast NOTHING_TO_REDO]).
Proof.
  split; [reflexivity|]. split; [reflexivity|].
  destruct (undo_total state) as (st1 & n1 & E).
  exists st1, n1. split; [exact E | reflexivity].
Qed.

(** C9. With an empty history [undo] raises nothing, returns the session
    unchanged and shows its notice; [redo] with an empty future does the
    same. *)
Theorem history_underflow_is_noop (state : AppState) :
  (items (history state) = [] -> undo state = Ok (state, [Toast NOTHING_TO_UNDO]))
  /\ (items (future state) = [] -> redo state = Ok (state, [Toast NOTHING_TO_REDO])).
Proof.
  split; intros H.
  - unfold undo, deque_nonempty; now rewrite H.
  - unfold redo, deque_nonempty; now rewrite H.
Qed.

Lemma history_underflow_is_noop_witness :
  let state := AppState_new sample_projects sample_segments in
  (items (history state) = [] /\ undo state = Ok (state, [Toast NOTHING_TO_UNDO]))
  /\ (items (future state) = [] /\ redo state = Ok (state, [Toast NOTHING_TO_REDO])).
Proof.
  intros state.
  split; (split; [reflexivity|]).
  - apply (proj1 (history_underflow_is_noop state)). reflexivity.
  - apply (proj2 (history_underflow_is_noop state)). reflexivity.
Defined.

(** C10. [push_history], [update_data], [undo] and [redo] leave the
    [filters] and [settings] of the session as they were. *)
Theorem history_ops_keep_filters_and_settings
    (state : AppState) (projects : ProjectsFrame) (segments : SegmentsFrame) :
  (filters (push_history state) = filters state
   /\ settings (push_history state) = settings state)
  /\ (filters (update_data state projects segments) = filters state
      /\ settings (update_data state projects segments) = settings state)
  /\ (exists st n, undo state = Ok (st, n)
                   /\ filters st = filters state /\ settings st = settings state)
  /\ (exists st n, redo state = Ok (st, n)
                   /\ filters st = filters state /\ settings st = settings state).
Proof.
  split; [split; reflexivity|]. split; [split; reflexivity|]. split.
  - unfold undo.
    destruct (deque_nonempty (history state)) eqn:E; simpl; [|eauto 6].
    destruct (deque_pop_nonempty _ E) as ([p s] & d' & ->); simpl. eauto 6.
  - unfold redo.
    destruct (deque_nonempty (future state)) eqn:E; simpl; [|eauto 6].
    destruct (deque_popleft_nonempty _ E) as ([p s] & d' & ->); simpl. eauto 6.
Qed.

(** ** The calendar *)

Ltac month_cases m :=
  let H := fresh "Hm" in
  assert (H : m = 1 \/ m = 2 \/ m = 3 \/ m = 4 \/ m = 5 \/ m = 6 \/ m = 7 \/
              m = 8 \/ m = 9 \/ m = 10 \/ m = 11 \/ m = 12) by lia;
  repeat (destruct H as [H | H]); subst m.

Lemma days_in_month_bounds (y m : Z) :
  1 <= m <= 12 -> 28 <= days_in_month y m <= 31.
Proof.
  intros Hm. month_cases m; unfold days_in_month; simpl;
    try destruct (is_leap y); simpl; lia.
Qed.

Lemma date_ok_iff (d : date) :
  date_ok d = true <->
  MINYEAR <= year d <= MAXYEAR /\ 1 <= month d <= 12
  /\ 1 <= day d <= days_in_month (year d) (month d).
Proof.
  unfold date_ok. rewrite !andb_true_iff, !Z.leb_le. tauto.
Qed.

Lemma date_new_ok (y m d : Z) :
  MINYEAR <= y <= MAXYEAR -> 1 <= m <= 12 -> 1 <= d <= days_in_month y m ->
  date_new y m d = Ok (mkdate y m d).
Proof.
  intros Hy Hm Hd. unfold date_new.
  assert (E1 : (MINYEAR <=? y) && (y <=? MAXYEAR) = true)
    by (apply andb_true_iff; rewrite !Z.leb_le; lia).
  assert (E2 : (1 <=? m) && (m <=? 12) = true)
    by (apply andb_true_iff; rewrite !Z.leb_le; lia).
  assert (E3 : (1 <=? d) && (d <=? days_in_month y m) = true)
    by (apply andb_true_iff; rewrite !Z.leb_le; lia).
  now rewrite E1, E2, E3.
Qed.

(** Dates that come out of the constructor, and so out of a parsed
    string, are dates of the calendar. *)
Lemma date_new_valid (y m d : Z) (r : date) :
  date_new y m d = Ok r -> date_ok r = true.
Proof.
  unfold date_new, date_ok.
  destruct ((MINYEAR <=? y) && (y <=? MAXYEAR)) eqn:E1; [|discriminate].
  destruct ((1 <=? m) && (m <=? 12)) eqn:E2; [|discriminate].
  destruct ((1 <=? d) && (d <=? days_in_month y m)) eqn:E3; [|discriminate].
  cbn [negb]. intros [= <-]. cbn [year month day].
  apply andb_true_iff in E1 as [-> ->], E2 as [-> ->], E3 as [-> ->]. reflexivity.
Qed.

Lemma to_date_str_valid (s : string) (d : date) :
  to_date (DLstr s) = Ok d -> date_ok d = true.
Proof.
  unfold to_date, fromisoformat.
  destruct (list_ascii_of_string s) as [|y1 [|y2 [|y3 [|y4 [|s1 [|m1 [|m2 [|s2 [|d1 [|d2 [|]]]]]]]]]]];
    try discriminate.
  destruct (Ascii.eqb s1 "-" && Ascii.eqb s2 "-")%bool; [|discriminate].
  destruct (number [y1; y2; y3; y4]) as [y|]; [|discriminate].
  destruct (number [m1; m2]) as [m|]; [|discriminate].
  destruct (number [d1; d2]) as [dd|]; [|discriminate].
  destruct (date_new y m dd) as [r| |] eqn:E; cbn [bind]; try discriminate.
  intros [= <-]. cbn [dt_date datetime_combine]. exact (date_new_valid _ _ _ _ E).
Qed.

(** Four days after the 28th is one of the first four days of the next
    month. *)
Lemma four_days_after_the_28th (y m : Z) :
  1 <= m <= 12 ->
  exists d, 1 <= d <= 4 /\
    Nat.iter 4 succ_day (mkdate y m 28)
    = mkdate (year (first_of_next_month y m)) (month (first_of_next_month y m)) d.
Proof.
  intros Hm. month_cases m; unfold first_of_next_month; simpl;
    unfold succ_day, days_in_month; destruct (is_leap y) eqn:L;
    repeat (simpl; rewrite ?L);
    eexists; (split; [|reflexivity]); lia.
Qed.

(** The body of the loop of [month_range] steps from the first of a month
    to the first of the next one; the stepping needs a next month to
    exist. *)
Lemma step_to_next_month (y m : Z) :
  MINYEAR <= y <= MAXYEAR -> 1 <= m <= 12 -> y < MAXYEAR \/ m < 12 ->
  (d28 <- date_replace_day (mkdate y m 1) 28 ;;
   d32 <- date_add_days d28 4 ;;
   date_replace_day d32 1) = Ok (first_of_next_month y m).
Proof.
  intros Hy Hm Hnext.
  pose proof (days_in_month_bounds y m Hm) as Hb.
  unfold date_replace_day at 1; simpl year; simpl month.
  rewrite date_new_ok by (auto; lia). simpl bind.
  destruct (four_days_after_the_28th y m Hm) as (d & Hd & E).
  unfold date_add_days. change (0 <=? 4) with true. cbv iota.
  change (Z.to_nat 4) with 4%nat. rewrite E. clear E.
  unfold first_of_next_month, MINYEAR, MAXYEAR in *.
  destruct (Z.eqb_spec m 12) as [->|Hne]; simpl year; simpl month.
  - assert (E1 : (1 <=? y + 1) && (y + 1 <=? 9999) = true)
      by (apply andb_true_iff; rewrite !Z.leb_le; lia).
    rewrite E1; simpl bind. unfold date_replace_day; simpl year; simpl month.
    apply date_new_ok; unfold MINYEAR, MAXYEAR; try lia.
    pose proof (days_in_month_bounds (y + 1) 1); lia.
  - assert (E1 : (1 <=? y) && (y <=? 9999) = true)
      by (apply andb_true_iff; rewrite !Z.leb_le; lia).
    rewrite E1; simpl bind. unfold date_replace_day; simpl year; simpl month.
    apply date_new_ok; unfold MINYEAR, MAXYEAR; try lia.
    pose proof (days_in_month_bounds y (m + 1)); lia.
Qed.

(** In December 9999 there is no next month: the stepping overflows. *)
Lemma step_from_last_month :
  (d28 <- date_replace_day (mkdate MAXYEAR 12 1) 28 ;;
   d32 <- date_add_days d28 4 ;;
   date_replace_day d32 1) = Raise (OverflowError "date value out of range").
Proof. reflexivity. Qed.

(** The day before the first of the next month is the last day of the
    month. *)
Lemma day_before_next_month (y m : Z) :
  MINYEAR <= y <= MAXYEAR -> 1 <= m <= 12 ->
  date_add_days (first_of_next_month y m) (-1) = Ok (mkdate y m (days_in_month y m)).
Proof.
  intros Hy Hm. unfold date_add_days.
  change (0 <=? -1) with false. cbv iota.
  change (Z.to_nat (- (-1))) with 1%nat. simpl Nat.iter.
  unfold first_of_next_month, pred_day, MINYEAR, MAXYEAR in *.
  destruct (Z.eqb_spec m 12) as [->|Hne]; simpl year; simpl month; simpl day.
  - change (1 <? 1) with false. cbv iota. simpl year.
    replace (y + 1 - 1) with y by lia.
    assert (E1 : (1 <=? y) && (y <=? 9999) = true)
      by (apply andb_true_iff; rewrite !Z.leb_le; lia).
    now rewrite E1.
  - change (1 <? 1) with false. cbv iota.
    assert (E2 : (1 <? m + 1) = true) by (apply Z.ltb_lt; lia).
    rewrite E2. simpl year.
    replace (m + 1 - 1) with m by lia.
    assert (E1 : (1 <=? y) && (y <=? 9999) = true)
      by (apply andb_true_iff; rewrite !Z.leb_le; lia).
    now rewrite E1.
Qed.

(** ** Month buckets and tick marks *)

(** The loop of [month_range] returns: it adds one bucket per month from
    [current] to [last], for every [last] before December 9999. *)
Lemma month_range_loop_total (fuel : nat) :
  forall (current last : date) (months : list (date * date)),
    date_ok current = true -> day current = 1 ->
    date_ok last = true -> date_ltb last (mkdate MAXYEAR 12 1) = true ->
    Forall bucket_ok months ->
    (Z.to_nat (month_index last - month_index current + 1) < fuel)%nat ->
    exists r,
      month_range_loop fuel current last months = Ok r
      /\ Forall bucket_ok r
      /\ length r
         = (length months + Z.to_nat (month_index last - month_index current + 1))%nat.
Proof.
  induction fuel as [|fuel IH]; intros current last months Hc Hc1 Hl Hmax Hm Hfuel; [lia|].
  pose proof Hc as Hc'. pose proof Hl as Hl'.
  apply date_ok_iff in Hc', Hl'. apply date_ltb_lt in Hmax.
  destruct current as [y m d]. cbn [year month day] in *. subst d.
  unfold MINYEAR, MAXYEAR in Hc', Hl', Hmax.
  cbn [month_range_loop].
  destruct (date_leb (mkdate y m 1) last) eqn:Hle.
  - apply date_leb_le in Hle; cbn [year month day] in Hle.
    pose proof (step_to_next_month y m) as Hstep.
    unfold MINYEAR, MAXYEAR in Hstep.
    specialize (Hstep ltac:(lia) ltac:(lia) ltac:(lia)).
    destruct (date_replace_day (mkdate y m 1) 28) as [d28| |]; cbn [bind] in Hstep |- *;
      try discriminate.
    destruct (date_add_days d28 4) as [d32| |]; cbn [bind] in Hstep |- *;
      try discriminate.
    rewrite Hstep. cbn [bind].
    rewrite day_before_next_month by (unfold MINYEAR, MAXYEAR; lia). cbn [bind].
    assert (Hnext : date_ok (first_of_next_month y m) = true
                    /\ day (first_of_next_month y m) = 1
                    /\ month_index (first_of_next_month y m) = 12 * y + m + 1).
    { unfold first_of_next_month, month_index.
      destruct (Z.eqb_spec m 12); cbn [year month day];
        (split; [|split; [reflexivity | lia]]);
        apply date_ok_iff; cbn [year month day]; unfold MINYEAR, MAXYEAR;
        (split; [lia | split; [lia|]]).
      - pose proof (days_in_month_bounds (y + 1) 1); lia.
      - pose proof (days_in_month_bounds y (m + 1)); lia. }
    destruct Hnext as (Hn & Hn1 & Hni).
    set (month_end := date_min (mkdate y m (days_in_month y m)) last).
    assert (Hb : bucket_ok (mkdate y m 1, month_end)).
    { unfold bucket_ok; cbn [fst snd year month day].
      split; [exact Hc|]. split; [reflexivity|].
      subst month_end; unfold date_min.
      destruct (date_ltb last (mkdate y m (days_in_month y m))) eqn:E.
      - apply date_ltb_lt in E; cbn [year month day] in E. split; [exact Hl|]. lia.
      - split; [|split; reflexivity].
        apply date_ok_iff; cbn [year month day]. unfold MINYEAR, MAXYEAR.
        pose proof (days_in_month_bounds y m); lia. }
    unfold month_index in Hfuel; cbn [year month day] in Hfuel.
    destruct (IH (first_of_next_month y m) last (months ++ [(mkdate y m 1, month_end)]))
      as (r & Hr & Hok & Hlen); auto.
    + apply date_ltb_lt; cbn [year month day]; unfold MAXYEAR; lia.
    + apply Forall_app; split; auto.
    + rewrite Hni. unfold month_index. lia.
    + exists r. split; [exact Hr|]. split; [exact Hok|].
      rewrite Hlen, length_app, Hni. unfold month_index; cbn [year month day length].
      lia.
  - exists months. split; [reflexivity|]. split; [exact Hm|].
    assert (N : ~ date_leb (mkdate y m 1) last = true) by congruence.
    rewrite date_leb_le in N; cbn [year month day] in N.
    unfold month_index; cbn [year month day].
    replace (Z.to_nat (12 * year last + month last - (12 * y + m) + 1)) with 0%nat by lia.
    lia.
Qed.

Lemma month_range_total (start end_ : DateLike) (s e : date) :
  to_date start = Ok s -> to_date end_ = Ok e ->
  date_ok s = true -> date_ok e = true ->
  date_ltb e (mkdate MAXYEAR 12 1) = true ->
  exists months,
    month_range start end_ = Ok months
    /\ Forall bucket_ok months
    /\ length months = Z.to_nat (month_index e - month_index s + 1).
Proof.
  intros Hs He Os Oe Hmax.
  unfold month_range. rewrite Hs; cbn [bind].
  pose proof Os as Os'. apply date_ok_iff in Os'.
  pose proof (days_in_month_bounds (year s) (month s)) as Hb.
  unfold date_replace_day. rewrite date_new_ok by (try tauto; lia). cbn [bind].
  rewrite He; cbn [bind].
  destruct (month_range_loop_total
              (month_range_fuel (mkdate (year s) (month s) 1) e)
              (mkdate (year s) (month s) 1) e []) as (r & Hr & Hok & Hlen); auto.
  - apply date_ok_iff; cbn [year month day]. split; [tauto|]. split; [tauto|]. lia.
  - unfold month_range_fuel, month_index; cbn [year month day]. lia.
  - exists r. split; [exact Hr|]. split; [exact Hok|].
    rewrite Hlen. unfold month_index; cbn [year month day length]. lia.
Qed.

Lemma month_ticks_total (days : list Z) (month_start month_end : date) :
  bucket_ok (month_start, month_end) ->
  Forall (fun d => 1 <= d) days ->
  forall ticks, exists ticks', month_ticks days month_start month_end ticks = Ok ticks'.
Proof.
  intros (Hs & Hs1 & He & Hy & Hm) Hdays. cbn [fst snd] in *.
  induction Hdays as [|d days Hd _ IH]; intros ticks; cbn [month_ticks]; [eauto|].
  destruct (Z.leb_spec d (day month_end)) as [Hle|Hgt]; [|apply IH].
  apply date_ok_iff in Hs, He.
  unfold date_replace_day.
  rewrite date_new_ok; [| tauto | tauto | rewrite <- Hy, <- Hm; lia ].
  cbn [bind].
  destruct (date_leb month_start (mkdate (year month_start) (month month_start) d)
            && date_leb (mkdate (year month_start) (month month_start) d) month_end);
    apply IH.
Qed.

Lemma all_ticks_total (months : list (date * date)) :
  Forall bucket_ok months ->
  forall ticks, exists ticks', all_ticks months ticks = Ok ticks'.
Proof.
  induction 1 as [|[month_start month_end] months Hb _ IH]; intros ticks;
    cbn [all_ticks]; [eauto|].
  destruct (month_ticks_total TICK_DAYS month_start month_end Hb) with (ticks := ticks)
    as [ticks' ->].
  - unfold TICK_DAYS; repeat constructor; lia.
  - cbn [bind]. apply IH.
Qed.

(** The closing filter keeps the ticks between [start] and [end]; there
    are none when [end] is before [start]. *)
Lemma ticks_in_range_total (start end_ : DateLike) (s e : date) (ticks : list datetime) :
  to_date start = Ok s -> to_date end_ = Ok e ->
  exists kept,
    ticks_in_range start end_ ticks = Ok kept
    /\ Forall (fun t => date_leb s (dt_date t) = true /\ date_leb (dt_date t) e = true) kept
    /\ (date_ltb e s = true -> kept = []).
Proof.
  intros Hs He.
  induction ticks as [|tick ticks (kept & IH & Hin & Hnil)]; cbn [ticks_in_range].
  - exists []. repeat split; auto.
  - rewrite Hs; cbn [bind].
    destruct (date_leb s (dt_date tick)) eqn:E1.
    + rewrite He; cbn [bind]. rewrite IH; cbn [bind].
      destruct (date_leb (dt_date tick) e) eqn:E2.
      * exists (tick :: kept). split; [reflexivity|]. split; [constructor; auto|].
        intros Hlt. apply date_ltb_lt in Hlt. apply date_leb_le in E1, E2. lia.
      * exists kept. auto.
    + cbn [bind]. rewrite IH; cbn [bind]. exists kept. auto.
Qed.

(** [test_make_tickvals_includes_defined_days] of [test_dates.py]. *)
Example test_make_tickvals_includes_defined_days :
  option_map (map (fun tick => day (dt_date tick)))
    (match make_tickvals (DLdate (mkdate 2025 7 1)) (DLdate (mkdate 2025 7 31)) with
     | Ok ticks => Some ticks
     | _ => None
     end)
  = Some [6; 12; 18; 24; 31].
Proof. reflexivity. Qed.

(** An inverted range is answered, not refused. *)
Lemma inverted_range_is_not_rejected :
  let start := DLdate (mkdate 2025 7 10) in
  let end_ := DLdate (mkdate 2025 7 5) in
  date_ltb (mkdate 2025 7 5) (mkdate 2025 7 10) = true
  /\ month_range start end_ = Ok [(mkdate 2025 7 1, mkdate 2025 7 5)]
  /\ make_tickvals start end_ = Ok []
  /\ ~ (exists err, month_range start end_ = Raise err)
  /\ ~ (exists err, make_tickvals start end_ = Raise err).
Proof.
  cbv zeta. repeat split; try reflexivity.
  - intros [err H]; vm_compute in H; discriminate.
  - intros [err H]; vm_compute in H; discriminate.
Qed.

(** A range that ends in December 9999 does fail, whatever its start. *)
Example month_range_overflow :
  month_range (DLdate (mkdate 9999 12 1)) (DLdate (mkdate 9999 12 31))
  = Raise (OverflowError "date value out of range").
Proof. reflexivity. Qed.

(** C2, as the code has it. [month_range] and [make_tickvals] have no
    range check: on dates with [end] before December 9999 they return a
    list, also when [end] is before [start]. [month_range] returns one
    bucket per calendar month from the month of [start] to the month of
    [end] (at most one when [end < start]), and every tick of
    [make_tickvals] lies in [start, end] (so there is none when
    [end < start]). *)
Theorem grid_functions_accept_any_range (start end_ : DateLike) (s e : date) :
  to_date start = Ok s -> to_date end_ = Ok e ->
  date_ok s = true -> date_ok e = true ->
  date_ltb e (mkdate MAXYEAR 12 1) = true ->
  (exists months,
      month_range start end_ = Ok months
      /\ length months = Z.to_nat (month_index e - month_index s + 1)
      /\ (date_ltb e s = true -> (length months <= 1)%nat))
  /\ (exists ticks,
         make_tickvals start end_ = Ok ticks
         /\ Forall (fun t => date_leb s (dt_date t) = true
                             /\ date_leb (dt_date t) e = true) ticks
         /\ (date_ltb e s = true -> ticks = [])).
Proof.
  intros Hs He Os Oe Hmax.
  destruct (month_range_total start end_ s e Hs He Os Oe Hmax) as (months & Hm & Hok & Hlen).
  split.
  - exists months. split; [exact Hm|]. split; [exact Hlen|].
    intros Hlt. apply date_ltb_lt in Hlt. apply date_ok_iff in Os, Oe.
    rewrite Hlen. unfold month_index. lia.
  - unfold make_tickvals. rewrite Hm; cbn [bind].
    destruct (all_ticks_total months Hok []) as [ticks ->]. cbn [bind].
    apply ticks_in_range_total; assumption.
Qed.

Lemma grid_functions_accept_any_range_witness :
  let s := mkdate 2025 7 10 in
  let e := mkdate 2025 7 5 in
  (exists months,
      month_range (DLdate s) (DLdate e) = Ok months
      /\ length months = Z.to_nat (month_index e - month_index s + 1)
      /\ (date_ltb e s = true -> (length months <= 1)%nat))
  /\ (exists ticks,
         make_tickvals (DLdate s) (DLdate e) = Ok ticks
         /\ Forall (fun t => date_leb s (dt_date t) = true
                             /\ date_leb (dt_date t) e = true) ticks
         /\ (date_ltb e s = true -> ticks = [])).
Proof.
  exact (grid_functions_accept_any_range
           (DLdate (mkdate 2025 7 10)) (DLdate (mkdate 2025 7 5))
           (mkdate 2025 7 10) (mkdate 2025 7 5)
           eq_refl eq_refl eq_refl eq_refl eq_refl).
Defined.

(** ** Orders *)

Section LexOrder.
Context {T A B : Type} (fa : T -> A) (fb : T -> B).
Context (ca : A -> A -> comparison) (cb : B -> B -> comparison).
Hypothesis inj : forall x y, fa x = fa y -> fb x = fb y -> x = y.
Hypothesis oa : is_order ca.
Hypothesis ob : is_order cb.

Lemma lex_by_order : is_order (lex_by fa fb ca cb).
Proof.
  destruct oa as [aeq arefl aanti atrans], ob as [beq brefl banti btrans].
  constructor; unfold lex_by.
  - intros x y. destruct (ca (fa x) (fa y)) eqn:E; try discriminate.
    intros E'. apply inj; auto.
  - intros x. now rewrite arefl.
  - intros x y. rewrite (aanti (fa x) (fa y)).
    destruct (ca (fa y) (fa x)); simpl; auto.
  - intros x y z.
    destruct (ca (fa x) (fa y)) eqn:Exy; try discriminate;
      destruct (ca (fa y) (fa z)) eqn:Eyz; try discriminate; intros Hxy Hyz.
    + apply aeq in Exy, Eyz. rewrite Exy, Eyz, arefl. eauto.
    + apply aeq in Exy. now rewrite Exy, Eyz.
    + apply aeq in Eyz. now rewrite <- Eyz, Exy.
    + now rewrite (atrans _ _ _ Exy Eyz).
Qed.
End LexOrder.

Lemma Z_compare_order : is_order Z.compare.
Proof.
  constructor.
  - apply Z.compare_eq.
  - apply Z.compare_refl.
  - intros x y. apply Z.compare_antisym.
  - intros x y z. rewrite !Z.compare_lt_iff. lia.
Qed.

Lemma date_compare_order : is_order date_compare.
Proof.
  apply (lex_by_order year (fun d => (month d, day d)) Z.compare
           (lex_by fst snd Z.compare Z.compare)).
  - intros [y1 m1 d1] [y2 m2 d2]; simpl; congruence.
  - apply Z_compare_order.
  - apply lex_by_order; auto using Z_compare_order.
    intros [? ?] [? ?]; simpl; congruence.
Qed.

Lemma time_compare_order : is_order time_compare.
Proof.
  apply (lex_by_order hour (fun t => (minute t, (second t, microsecond t))) Z.compare
           (lex_by fst snd Z.compare (lex_by fst snd Z.compare Z.compare))).
  - intros [h1 m1 s1 u1] [h2 m2 s2 u2]; simpl; congruence.
  - apply Z_compare_order.
  - apply lex_by_order; auto using Z_compare_order.
    + intros [? ?] [? ?]; simpl; congruence.
    + apply lex_by_order; auto using Z_compare_order.
      intros [? ?] [? ?]; simpl; congruence.
Qed.

Lemma dt_compare_order : is_order dt_compare.
Proof.
  apply (lex_by_order dt_date dt_time date_compare time_compare).
  - intros [d1 t1] [d2 t2]; simpl; congruence.
  - apply date_compare_order.
  - apply time_compare_order.
Qed.

Lemma ts_compare_order : is_order ts_compare.
Proof.
  destruct dt_compare_order as [deq drefl danti dtrans].
  constructor.
  - intros [x|] [y|]; simpl; try discriminate; auto.
    intros E; apply deq in E; congruence.
  - intros [x|]; simpl; auto.
  - intros [x|] [y|]; simpl; auto.
  - intros [x|] [y|] [z|]; simpl; try discriminate; auto. apply dtrans.
Qed.

Lemma string_compare_order : is_order String.compare.
Proof.
  constructor.
  - intros x y. apply String.compare_eq_iff.
  - induction x as [|a x IH]; simpl; auto.
    unfold Ascii.compare. now rewrite N.compare_refl.
  - apply String.compare_antisym.
  - induction x as [|a x IH]; intros [|b y] [|c z]; simpl; try discriminate; auto.
    unfold Ascii.compare.
    destruct (N.compare_spec (N_of_ascii a) (N_of_ascii b)) as [Eab|Lab|Gab];
      try discriminate;
      destruct (N.compare_spec (N_of_ascii b) (N_of_ascii c)) as [Ebc|Lbc|Gbc];
      try discriminate; intros Hxy Hyz.
    + rewrite Eab, Ebc, N.compare_refl. eauto.
    + rewrite Eab. now apply N.compare_lt_iff in Lbc as ->.
    + rewrite <- Ebc. now apply N.compare_lt_iff in Lab as ->.
    + assert (L : (N_of_ascii a < N_of_ascii c)%N) by lia.
      now apply N.compare_lt_iff in L as ->.
Qed.

Lemma sort_key_order :
  is_order (lex_by (@fst string Timestamp) (@snd string Timestamp) String.compare ts_compare).
Proof.
  apply lex_by_order.
  - intros [? ?] [? ?]; simpl; congruence.
  - apply string_compare_order.
  - apply ts_compare_order.
Qed.

Lemma sort_key_compare_lex (a b : Merged.t) :
  sort_key_compare a b
  = lex_by fst snd String.compare ts_compare (sort_key a) (sort_key b).
Proof. reflexivity. Qed.

Lemma sort_key_compare_eq (a b : Merged.t) :
  sort_key_compare a b = Eq -> sort_key a = sort_key b.
Proof. rewrite sort_key_compare_lex. apply (ord_eq _ sort_key_order). Qed.

Lemma sort_key_compare_antisym (a b : Merged.t) :
  sort_key_compare a b = CompOpp (sort_key_compare b a).
Proof. rewrite !sort_key_compare_lex. apply (ord_antisym _ sort_key_order). Qed.

Lemma sort_key_compare_trans (a b c : Merged.t) :
  sort_key_compare a b = Lt -> sort_key_compare b c = Lt -> sort_key_compare a c = Lt.
Proof. rewrite !sort_key_compare_lex. apply (ord_trans _ sort_key_order). Qed.

Lemma sort_key_compare_congr (a a' b b' : Merged.t) :
  sort_key a = sort_key a' -> sort_key b = sort_key b' ->
  sort_key_compare a b = sort_key_compare a' b'.
Proof. rewrite !sort_key_compare_lex. now intros -> ->. Qed.

(** ** The timeline frame *)

Lemma build_gantt_dataframe_steps (projects : ProjectsFrame) (segments : SegmentsFrame)
    (view_start view_end : datetime) :
  build_gantt_dataframe projects segments view_start view_end
  = number_rows []
      (sort_values
         (filter (in_window view_start view_end)
            (merged_rows projects segments view_start view_end))).
Proof. reflexivity. Qed.

Section ListFacts.
Context {A B : Type}.

Lemma StronglySorted_map (R : B -> B -> Prop) (f : A -> B) (l : list A) :
  StronglySorted (fun a b => R (f a) (f b)) l -> StronglySorted R (map f l).
Proof.
  induction 1 as [|a l _ IH Hall]; simpl; constructor; auto.
  rewrite Forall_forall in *. intros b Hb.
  apply in_map_iff in Hb as (x & <- & Hx). auto.
Qed.

Lemma StronglySorted_filter (R : A -> A -> Prop) (p : A -> bool) (l : list A) :
  StronglySorted R l -> StronglySorted R (filter p l).
Proof.
  induction 1 as [|a l _ IH Hall]; simpl; [constructor|].
  destruct (p a); auto. constructor; auto.
  rewrite Forall_forall in *. intros b Hb. apply filter_In in Hb as [Hb _]. auto.
Qed.

Lemma StronglySorted_In (R : A -> A -> Prop) (l : list A) (a b : A) :
  StronglySorted R l -> In a l -> In b l -> a = b \/ R a b \/ R b a.
Proof.
  induction 1 as [|x l _ IH Hall]; simpl; [tauto|].
  rewrite Forall_forall in Hall.
  intros [->|Ha] [->|Hb]; auto.
Qed.

Lemma combine_seq_In (l : list A) (k i : nat) (x : A) :
  In (i, x) (combine (seq k (length l)) l) ->
  (k <= i)%nat /\ nth_error l (i - k) = Some x.
Proof.
  revert k; induction l as [|a l IH]; intros k; simpl; [tauto|].
  intros [[= <- <-]|H].
  - rewrite Nat.sub_diag. auto.
  - apply IH in H as [Hk Hn]. split; [lia|].
    replace (i - k)%nat with (S (i - S k)) by lia. exact Hn.
Qed.

Lemma combine_seq_sorted (l : list A) (k : nat) :
  StronglySorted (fun a b => (fst a < fst b)%nat) (combine (seq k (length l)) l).
Proof.
  revert k; induction l as [|a l IH]; intros k; simpl; constructor; auto.
  apply Forall_forall. intros [i x] H. apply combine_seq_In in H. simpl. lia.
Qed.
End ListFacts.

Lemma range_index_In {A : Type} (l : list A) (i : nat) (x : A) :
  In (i, x) (range_index l) -> nth_error l i = Some x.
Proof.
  intros H. apply combine_seq_In in H as [_ H]. now rewrite Nat.sub_0_r in H.
Qed.

(** The rows of the left join. *)
Lemma merge_left_In (segments : SegmentsFrame) (projects : ProjectsFrame)
    (s : Segment.t) (p : option Project.t) :
  In (s, p) (merge_left segments projects) ->
  In s segments
  /\ match p with
     | Some pr => In pr projects /\ Project.id pr = Segment.project_id s
     | None => forall pr, In pr projects -> Project.id pr <> Segment.project_id s
     end.
Proof.
  unfold merge_left. rewrite in_flat_map. intros (s' & Hs' & H).
  destruct (filter (fun p0 => String.eqb (Project.id p0) (Segment.project_id s')) projects)
    as [|p0 ps] eqn:F.
  - destruct H as [[= <- <-]|[]]. split; [exact Hs'|].
    intros pr Hpr E.
    assert (Hin : In pr (filter (fun p0 => String.eqb (Project.id p0) (Segment.project_id s'))
                           projects)).
    { apply filter_In. split; [exact Hpr|]. now apply String.eqb_eq. }
    rewrite F in Hin. destruct Hin.
  - apply in_map_iff in H as (pr & [= <- <-] & Hpr).
    rewrite <- F in Hpr. apply filter_In in Hpr as [Hpr E].
    apply String.eqb_eq in E. auto.
Qed.

(** With unique project ids the join has one row per segment, in the order
    of the segments table. *)
Lemma merge_left_unique_ids (segments : SegmentsFrame) (projects : ProjectsFrame) :
  NoDup (map Project.id projects) ->
  map fst (merge_left segments projects) = segments.
Proof.
  intros Hnd.
  assert (Hone : forall k, (length (filter (fun p => String.eqb (Project.id p) k) projects)
                            <= 1)%nat).
  { intros k. induction projects as [|p ps IH]; simpl; [lia|].
    inversion Hnd as [|? ? Hnotin Hnd']; subst.
    destruct (String.eqb_spec (Project.id p) k) as [E|N]; [|auto].
    assert (Z0 : filter (fun p0 => String.eqb (Project.id p0) k) ps = []).
    { destruct (filter (fun p0 => String.eqb (Project.id p0) k) ps) as [|q qs] eqn:F; auto.
      exfalso. apply Hnotin.
      assert (Hq : In q (filter (fun p0 => String.eqb (Project.id p0) k) ps))
        by (rewrite F; now left).
      apply filter_In in Hq as [Hq Eq]. apply String.eqb_eq in Eq.
      apply in_map_iff. exists q. split; [congruence | exact Hq]. }
    rewrite Z0. simpl. lia. }
  unfold merge_left.
  induction segments as [|s ss IH]; [reflexivity|].
  cbn [flat_map]. rewrite map_app, IH. specialize (Hone (Segment.project_id s)).
  destruct (filter (fun p => String.eqb (Project.id p) (Segment.project_id s)) projects)
    as [|p [|q qs]]; simpl in *; try reflexivity. lia.
Qed.

(** Every row of [merged] is a row of the join, found under its index
    label, with the columns computed from it. *)
Lemma merged_rows_In (projects : ProjectsFrame) (segments : SegmentsFrame)
    (view_start view_end : datetime) (m : Merged.t) :
  In m (merged_rows projects segments view_start view_end) ->
  nth_error (merge_left segments projects) (Merged.index m)
  = Some (Merged.segment m, Merged.project m)
  /\ Merged.start m
     = clip_lower view_start (project_column Project.start_date (Merged.project m))
  /\ Merged.end_ m
     = clip_upper view_end (project_column Project.end_date (Merged.project m)).
Proof.
  unfold merged_rows. rewrite in_map_iff. intros ([i [s p]] & <- & H).
  apply range_index_In in H. simpl. auto.
Qed.

Lemma merged_rows_sorted (projects : ProjectsFrame) (segments : SegmentsFrame)
    (view_start view_end : datetime) :
  StronglySorted (fun a b => (Merged.index a < Merged.index b)%nat)
    (merged_rows projects segments view_start view_end).
Proof.
  unfold merged_rows, range_index. apply StronglySorted_map.
  eapply StronglySorted_ind with (P := fun l => StronglySorted _ l);
    [constructor | | apply combine_seq_sorted].
  intros [i [s p]] l Hl IH Hall. constructor; auto.
  eapply Forall_impl; [|exact Hall]. intros [j [s' p']]; simpl; auto.
Qed.

(** *** The stable sort *)

Lemma insert_row_In (x z : Merged.t) (l : list Merged.t) :
  In z (insert_row x l) <-> z = x \/ In z l.
Proof.
  induction l as [|y l IH]; simpl.
  - intuition.
  - destruct (sort_key_leb x y); simpl; rewrite ?IH; intuition.
Qed.

Lemma sort_values_In (z : Merged.t) (l : list Merged.t) :
  In z (sort_values l) <-> In z l.
Proof.
  induction l as [|x l IH]; simpl; [tauto|].
  rewrite insert_row_In, IH. intuition.
Qed.

Lemma sort_key_le_trans (a b c : Merged.t) :
  sort_key_compare a b <> Gt -> sort_key_compare b c <> Gt -> sort_key_compare a c <> Gt.
Proof.
  intros Hab Hbc.
  destruct (sort_key_compare a b) eqn:Eab; [| |congruence].
  - apply sort_key_compare_eq in Eab.
    now rewrite (sort_key_compare_congr a b c c Eab eq_refl).
  - destruct (sort_key_compare b c) eqn:Ebc; [| |congruence].
    + apply sort_key_compare_eq in Ebc.
      rewrite <- (sort_key_compare_congr a a b c eq_refl Ebc), Eab. discriminate.
    + rewrite (sort_key_compare_trans a b c Eab Ebc). discriminate.
Qed.

Lemma row_before_le (a b : Merged.t) : row_before a b -> sort_key_compare a b <> Gt.
Proof. intros [H|[H _]]; rewrite H; discriminate. Qed.

Lemma row_before_asym (a b : Merged.t) : row_before a b -> ~ row_before b a.
Proof.
  unfold row_before. rewrite (sort_key_compare_antisym b a).
  destruct (sort_key_compare a b); simpl; intros [H|[H L]] [H'|[H' L']];
    try discriminate; lia.
Qed.

Lemma row_before_irrefl (a : Merged.t) : ~ row_before a a.
Proof. intros H. exact (row_before_asym a a H H). Qed.

Lemma insert_row_sorted (x : Merged.t) (l : list Merged.t) :
  StronglySorted row_before l ->
  Forall (fun y => (Merged.index x < Merged.index y)%nat) l ->
  StronglySorted row_before (insert_row x l).
Proof.
  induction 1 as [|y l Hl IH Hall]; intros Hidx; simpl.
  - repeat constructor.
  - inversion Hidx as [|? ? Hxy Hidx']; subst.
    rewrite Forall_forall in Hall, Hidx'.
    unfold sort_key_leb. destruct (sort_key_compare x y) eqn:E.
    + constructor; [constructor; auto; now apply Forall_forall|].
      constructor; [right; auto|].
      apply Forall_forall. intros z Hz.
      assert (Hle : sort_key_compare x z <> Gt).
      { apply (sort_key_le_trans x y z); [rewrite E; discriminate|].
        apply row_before_le; auto. }
      specialize (Hidx' z Hz). unfold row_before.
      destruct (sort_key_compare x z); [right | left | congruence]; auto.
    + constructor; [constructor; auto; now apply Forall_forall|].
      constructor; [left; auto|].
      apply Forall_forall. intros z Hz.
      assert (Hle : sort_key_compare x z <> Gt).
      { apply (sort_key_le_trans x y z); [rewrite E; discriminate|].
        apply row_before_le; auto. }
      specialize (Hidx' z Hz). unfold row_before.
      destruct (sort_key_compare x z); [right | left | congruence]; auto.
    + constructor; [apply IH; now apply Forall_forall|].
      apply Forall_forall. intros z Hz. apply insert_row_In in Hz as [->|Hz]; auto.
      left. rewrite sort_key_compare_antisym, E. reflexivity.
Qed.

(** Sorting a frame whose index labels increase lists the rows by key,
    and by index label among equal keys. *)
Lemma sort_values_sorted (l : list Merged.t) :
  StronglySorted (fun a b => (Merged.index a < Merged.index b)%nat) l ->
  StronglySorted row_before (sort_values l).
Proof.
  induction 1 as [|x l _ IH Hall]; [constructor|].
  change (sort_values (x :: l)) with (insert_row x (sort_values l)).
  apply insert_row_sorted; [exact IH|].
  rewrite Forall_forall in *. intros y Hy. rewrite sort_values_In in Hy. auto.
Qed.

(** *** The row ordinals *)

Lemma number_rows_In (l : list Merged.t) :
  forall (seen : list string) (r : Row.t),
    In r (number_rows seen l) ->
    In (Row.merged r) l
    /\ (count_occ string_dec seen (Row.project_id r) <= Row.row r)%nat.
Proof.
  unfold number_rows.
  induction l as [|x l IH]; intros seen r; simpl; [tauto|].
  intros [<-|H]; simpl.
  - split; [now left | reflexivity].
  - apply IH in H as [Hin Hc]. split; [now right|].
    simpl in Hc. destruct (string_dec (Merged.project_id x) (Row.project_id r)); lia.
Qed.

Lemma number_rows_sorted (l : list Merged.t) :
  StronglySorted row_before l ->
  forall seen, StronglySorted ordinal_before (number_rows seen l).
Proof.
  unfold number_rows.
  induction 1 as [|x l _ IH Hall]; intros seen; simpl; constructor; auto.
  apply Forall_forall. intros r Hr.
  apply (number_rows_In l) in Hr as [Hin Hc].
  rewrite Forall_forall in Hall.
  unfold ordinal_before, Row.project_id at 1; simpl. split; [auto|].
  intros E. simpl in Hc. rewrite E in Hc |- *.
  destruct (string_dec (Row.project_id r) (Row.project_id r)); [lia | congruence].
Qed.

(** Every row of the result is a row of [merged] inside the window. *)
Lemma build_gantt_dataframe_In (projects : ProjectsFrame) (segments : SegmentsFrame)
    (view_start view_end : datetime) (r : Row.t) :
  In r (build_gantt_dataframe projects segments view_start view_end) ->
  In (Row.merged r) (merged_rows projects segments view_start view_end)
  /\ in_window view_start view_end (Row.merged r) = true.
Proof.
  rewrite build_gantt_dataframe_steps. intros H.
  apply number_rows_In in H as [H _].
  rewrite sort_values_In, filter_In in H. exact H.
Qed.

(** A row inside the window has a project: without one its [start] and
    [end] are [NaT], and no comparison holds of [NaT]. *)
Lemma row_has_project (projects : ProjectsFrame) (segments : SegmentsFrame)
    (view_start view_end : datetime) (r : Row.t) :
  In r (build_gantt_dataframe projects segments view_start view_end) ->
  In (Row.segment r) segments
  /\ exists p, Row.project r = Some p /\ In p projects
               /\ Project.id p = Row.project_id r.
Proof.
  intros H. apply build_gantt_dataframe_In in H as [Hin Hw].
  apply merged_rows_In in Hin as (Hnth & Hs & He).
  apply nth_error_In, merge_left_In in Hnth as [Hseg Hp].
  split; [exact Hseg|].
  unfold Row.project, Row.project_id, Merged.project_id.
  destruct (Merged.project (Row.merged r)) as [p|].
  - exists p. tauto.
  - unfold in_window in Hw. rewrite He in Hw. simpl in Hw. discriminate.
Qed.

(** What the frame holds for the sample tables and an orphaned segment:
    the one segment of project 1, and nothing for the orphan. *)
Example build_gantt_dataframe_sample :
  map (fun r => (Row.index r, Row.segment_id r, Row.project_id r, Row.row r,
                 Row.display_name r))
    (build_gantt_dataframe sample_projects (orphan_segment :: sample_segments)
       sample_view_start sample_view_end)
  = [(1%nat, "1-main", "1", 0%nat, Some "Project 1 / main")].
Proof. reflexivity. Qed.

(** C1. A segment whose [project_id] is the [id] of no row of the projects
    table gives no row of the frame [build_gantt_dataframe] returns. *)
Theorem orphaned_segment_is_not_rendered
    (projects : ProjectsFrame) (segments : SegmentsFrame)
    (view_start view_end : datetime) (s : Segment.t) :
  In s segments ->
  (forall p, In p projects -> Project.id p <> Segment.project_id s) ->
  forall r, In r (build_gantt_dataframe projects segments view_start view_end) ->
            Row.segment r <> s.
Proof.
  intros _ Horphan r Hr E.
  apply row_has_project in Hr as (_ & p & _ & Hp & Hid).
  apply (Horphan p Hp). rewrite Hid. unfold Row.project_id, Merged.project_id.
  fold (Row.segment r). now rewrite E.
Qed.

Lemma orphaned_segment_is_not_rendered_witness :
  In orphan_segment (orphan_segment :: sample_segments)
  /\ (forall p, In p sample_projects -> Project.id p <> Segment.project_id orphan_segment)
  /\ forall r,
       In r (build_gantt_dataframe sample_projects (orphan_segment :: sample_segments)
               sample_view_start sample_view_end) ->
       Row.segment r <> orphan_segment.
Proof.
  assert (H : forall p, In p sample_projects ->
                        Project.id p <> Segment.project_id orphan_segment).
  { intros p [<-|[<-|[]]]; discriminate. }
  split; [now left|]. split; [exact H|].
  apply (orphaned_segment_is_not_rendered sample_projects
           (orphan_segment :: sample_segments) sample_view_start sample_view_end
           orphan_segment); [now left | exact H].
Defined.

(** Project 0 of the sample has no segment, lies inside the window, and
    has no row in the frame. *)
Lemma segmentless_project_has_no_row :
  ~ segmentless_projects_have_a_row sample_projects sample_segments
      (build_gantt_dataframe sample_projects sample_segments
         sample_view_start sample_view_end).
Proof.
  intros H.
  destruct (H (sample_project "0" (mkdate 2025 7 1) (mkdate 2025 8 31)))
    as (r & Hin & Hid).
  - now left.
  - intros s [<-|[]]; discriminate.
  - vm_compute in Hin. destruct Hin as [<-|[]]. discriminate.
Qed.

(** C3, as the code has it. The frame is built from the segments table:
    every row carries a row of that table, so a project without segments
    has no row. *)
Theorem segmentless_project_is_not_rendered
    (projects : ProjectsFrame) (segments : SegmentsFrame)
    (view_start view_end : datetime) (p : Project.t) (r : Row.t) :
  In p projects ->
  (forall s, In s segments -> Segment.project_id s <> Project.id p) ->
  In r (build_gantt_dataframe projects segments view_start view_end) ->
  In (Row.segment r) segments /\ Row.project_id r <> Project.id p.
Proof.
  intros _ Hnone Hr.
  apply row_has_project in Hr as (Hseg & _).
  split; [exact Hseg|]. exact (Hnone _ Hseg).
Qed.

Lemma segmentless_project_is_not_rendered_witness :
  let p := sample_project "0" (mkdate 2025 7 1) (mkdate 2025 8 31) in
  let out := build_gantt_dataframe sample_projects sample_segments
               sample_view_start sample_view_end in
  let r := nth 0 out blank_row in
  In p sample_projects
  /\ (forall s, In s sample_segments -> Segment.project_id s <> Project.id p)
  /\ In r out
  /\ In (Row.segment r) sample_segments /\ Row.project_id r <> Project.id p.
Proof.
  intros p out r.
  assert (H1 : In p sample_projects) by now left.
  assert (H2 : forall s, In s sample_segments -> Segment.project_id s <> Project.id p).
  { intros s [<-|[]]; discriminate. }
  assert (H3 : In r out) by (left; reflexivity).
  split; [exact H1|]. split; [exact H2|]. split; [exact H3|].
  exact (segmentless_project_is_not_rendered sample_projects sample_segments
           sample_view_start sample_view_end p r H1 H2 H3).
Defined.

(** Among the rows of one project the sorted frame goes by [start], then
    by index label. *)
Lemma row_before_same_project (a b : Merged.t) :
  Merged.project_id a = Merged.project_id b ->
  row_before a b <->
  ts_compare (Merged.start a) (Merged.start b) = Lt
  \/ (Merged.start a = Merged.start b /\ (Merged.index a < Merged.index b)%nat).
Proof.
  intros E. unfold row_before, sort_key_compare. rewrite E.
  rewrite (ord_refl _ string_compare_order).
  split; (intros [H|[H L]]; [now left | right; split; [|exact L]]).
  - now apply (ord_eq _ ts_compare_order).
  - rewrite H. apply (ord_refl _ ts_compare_order).
Qed.

(** Two segments of one project with equal dates: the frame numbers them
    in the order of the segments table, the later [segment_id] first. *)
Example build_gantt_dataframe_tie :
  map (fun r => (Row.index r, Row.segment_id r, Row.start r, Row.row r))
    (build_gantt_dataframe tie_projects tie_segments sample_view_start sample_view_end)
  = [(0%nat, "0-b", Some sample_view_start, 0%nat);
     (1%nat, "0-a", Some sample_view_start, 1%nat)].
Proof. reflexivity. Qed.

Lemma ties_do_not_follow_segment_id :
  ~ ties_follow_segment_id
      (build_gantt_dataframe tie_projects tie_segments sample_view_start sample_view_end).
Proof.
  intros H.
  remember (build_gantt_dataframe tie_projects tie_segments
              sample_view_start sample_view_end) as out eqn:E.
  vm_compute in E. subst out.
  match type of H with
  | ties_follow_segment_id [?b; ?a] =>
      pose proof (H a b (or_intror (or_introl eq_refl)) (or_introl eq_refl)
                    eq_refl eq_refl eq_refl) as X
  end.
  vm_compute in X. lia.
Qed.

(** C4, as the code has it: the tie-break. Every row keeps the index
    label of its row in the joined frame, which lists the segments in the
    order of the segments table (with unique project ids the label is the
    position in that table). The sort is stable and has no [segment_id]
    key: two rows of one project with equal [start] are numbered in the
    order of their index labels, the order of the segments table, not
    that of the segment ids. *)
Theorem row_ordinal_ties_follow_table_order
    (projects : ProjectsFrame) (segments : SegmentsFrame)
    (view_start view_end : datetime) (r1 r2 : Row.t) :
  In r1 (build_gantt_dataframe projects segments view_start view_end) ->
  In r2 (build_gantt_dataframe projects segments view_start view_end) ->
  Row.project_id r1 = Row.project_id r2 ->
  Row.start r1 = Row.start r2 ->
  nth_error (merge_left segments projects) (Row.index r1)
  = Some (Row.segment r1, Row.project r1)
  /\ (NoDup (map Project.id projects) ->
      nth_error segments (Row.index r1) = Some (Row.segment r1))
  /\ ((Row.row r1 < Row.row r2)%nat <-> (Row.index r1 < Row.index r2)%nat).
Proof.
  intros H1 H2 E T.
  assert (Hnth : nth_error (merge_left segments projects) (Row.index r1)
                 = Some (Row.segment r1, Row.project r1)).
  { apply build_gantt_dataframe_In in H1 as [H1 _].
    apply merged_rows_In in H1 as (H1 & _). exact H1. }
  split; [exact Hnth|]. split.
  { intros Hnd. rewrite <- (merge_left_unique_ids segments projects Hnd) at 1.
    rewrite nth_error_map, Hnth. reflexivity. }
  assert (Hsorted : StronglySorted ordinal_before
                      (build_gantt_dataframe projects segments view_start view_end)).
  { rewrite build_gantt_dataframe_steps.
    apply number_rows_sorted, sort_values_sorted, StronglySorted_filter, merged_rows_sorted. }
  assert (B : forall a b : Row.t,
             Row.project_id a = Row.project_id b -> Row.start a = Row.start b ->
             row_before (Row.merged a) (Row.merged b)
             <-> (Row.index a < Row.index b)%nat).
  { intros a b Ep Es.
    rewrite (row_before_same_project (Row.merged a) (Row.merged b) Ep).
    fold (Row.start a) (Row.start b) (Row.index a) (Row.index b).
    rewrite Es, (ord_refl _ ts_compare_order). split.
    - intros [X|[_ L]]; [discriminate | exact L].
    - intros L. right. split; [reflexivity | exact L]. }
  pose proof (B r1 r2 E T) as B12.
  pose proof (B r2 r1 (eq_sym E) (eq_sym T)) as B21.
  destruct (StronglySorted_In _ _ r1 r2 Hsorted H1 H2) as [<-|[[Hb Hr]|[Hb Hr]]].
  - split; lia.
  - split; [intros _; now apply B12 | intros _; exact (Hr E)].
  - specialize (Hr (eq_sym E)). apply B21 in Hb. split; lia.
Qed.

Lemma row_ordinal_ties_follow_table_order_witness :
  let out := build_gantt_dataframe tie_projects tie_segments
               sample_view_start sample_view_end in
  let r1 := nth 0 out blank_row in
  let r2 := nth 1 out blank_row in
  In r1 out /\ In r2 out /\ Row.project_id r1 = Row.project_id r2
  /\ Row.start r1 = Row.start r2
  /\ NoDup (map Project.id tie_projects)
  /\ nth_error (merge_left tie_segments tie_projects) (Row.index r1)
     = Some (Row.segment r1, Row.project r1)
  /\ nth_error tie_segments (Row.index r1) = Some (Row.segment r1)
  /\ ((Row.row r1 < Row.row r2)%nat <-> (Row.index r1 < Row.index r2)%nat).
Proof.
  intros out r1 r2.
  assert (H1 : In r1 out) by (left; reflexivity).
  assert (H2 : In r2 out) by (right; left; reflexivity).
  assert (H3 : Row.project_id r1 = Row.project_id r2) by reflexivity.
  assert (H4 : Row.start r1 = Row.start r2) by reflexivity.
  assert (H5 : NoDup (map Project.id tie_projects)).
  { constructor; [intros [] | constructor]. }
  destruct (row_ordinal_ties_follow_table_order tie_projects tie_segments
              sample_view_start sample_view_end r1 r2 H1 H2 H3 H4) as (A & B & C).
  split; [exact H1|]. split; [exact H2|]. split; [exact H3|]. split; [exact H4|].
  split; [exact H5|]. split; [exact A|]. split; [exact (B H5) | exact C].
Defined.

(* ================================================================== *)
(** * Part II, continued. Properties of the rest of the code *)
(* ================================================================== *)

(** ** Ordinals *)

Lemma date_ok_wf (d : date) : date_ok d = true -> date_wf d.
Proof. rewrite date_ok_iff. unfold date_wf. tauto. Qed.

Lemma is_leap_iff (y : Z) :
  is_leap y = true <-> y mod 4 = 0 /\ (y mod 100 <> 0 \/ y mod 400 = 0).
Proof.
  unfold is_leap. rewrite andb_true_iff, orb_true_iff, negb_true_iff.
  rewrite !Z.eqb_eq, Z.eqb_neq. tauto.
Qed.

(** A year has 365 days, and one more when it is a leap year. *)
Lemma days_before_next_year (y : Z) :
  days_before_year (y + 1) = days_before_year y + 365 + (if is_leap y then 1 else 0).
Proof.
  unfold days_before_year. cbv zeta.
  replace (y + 1 - 1) with y by lia.
  destruct (is_leap y) eqn:L.
  - apply is_leap_iff in L. Z.div_mod_to_equations. lia.
  - assert (N : ~ (y mod 4 = 0 /\ (y mod 100 <> 0 \/ y mod 400 = 0))).
    { rewrite <- is_leap_iff. congruence. }
    Z.div_mod_to_equations. lia.
Qed.

Lemma days_before_year_mono (y y' : Z) :
  y <= y' -> days_before_year y <= days_before_year y'.
Proof.
  intros H. unfold days_before_year. cbv zeta. Z.div_mod_to_equations. lia.
Qed.

Lemma days_before_next_month (y m : Z) :
  1 <= m < 12 ->
  days_before_month y (m + 1) = days_before_month y m + days_in_month y m.
Proof.
  intros Hm. assert (H12 : 1 <= m <= 12) by lia.
  month_cases m; try lia; unfold days_before_month, days_in_month;
    destruct (is_leap y); reflexivity.
Qed.

Lemma days_before_month_bounds (y m : Z) :
  1 <= m <= 12 ->
  0 <= days_before_month y m
  /\ days_before_month y m + days_in_month y m <= 365 + (if is_leap y then 1 else 0).
Proof.
  intros Hm. month_cases m; unfold days_before_month, days_in_month;
    destruct (is_leap y); simpl; lia.
Qed.

Lemma days_before_month_mono (y m m' : Z) :
  1 <= m -> m < m' -> m' <= 12 ->
  days_before_month y m + days_in_month y m <= days_before_month y m'.
Proof.
  intros H1 Hlt H12.
  assert (Hm : 1 <= m <= 12) by lia. assert (Hm' : 1 <= m' <= 12) by lia.
  month_cases m; month_cases m'; try lia;
    unfold days_before_month, days_in_month; destruct (is_leap y); simpl; lia.
Qed.

Lemma days_before_month_december (y : Z) :
  days_before_month y 12 + 31 = 365 + (if is_leap y then 1 else 0).
Proof. unfold days_before_month; destruct (is_leap y); reflexivity. Qed.

(** The next day is a day of the calendar and has the next ordinal. *)
Lemma succ_day_spec (d : date) :
  date_wf d -> date_wf (succ_day d) /\ toordinal (succ_day d) = toordinal d + 1.
Proof.
  intros [Hm Hd]. unfold succ_day.
  destruct (Z.ltb_spec (day d) (days_in_month (year d) (month d))) as [Hlt|Hge].
  - unfold date_wf, toordinal; cbn [year month day]. lia.
  - assert (E : day d = days_in_month (year d) (month d)) by lia.
    destruct (Z.ltb_spec (month d) 12) as [H12|H12].
    + unfold date_wf, toordinal; cbn [year month day].
      pose proof (days_in_month_bounds (year d) (month d + 1)).
      rewrite days_before_next_month by lia. lia.
    + assert (E12 : month d = 12) by lia.
      unfold date_wf, toordinal; cbn [year month day].
      rewrite days_before_next_year, E, E12.
      pose proof (days_before_month_december (year d)).
      change (days_in_month (year d) 12) with 31.
      change (days_before_month (year d + 1) 1) with 0.
      change (days_in_month (year d + 1) 1) with 31. lia.
Qed.

(** The day before is a day of the calendar and has the previous ordinal. *)
Lemma pred_day_spec (d : date) :
  date_wf d -> date_wf (pred_day d) /\ toordinal (pred_day d) = toordinal d - 1.
Proof.
  intros [Hm Hd]. unfold pred_day.
  destruct (Z.ltb_spec 1 (day d)) as [Hlt|Hge].
  - unfold date_wf, toordinal; cbn [year month day]. lia.
  - assert (E : day d = 1) by lia.
    destruct (Z.ltb_spec 1 (month d)) as [H1|H1].
    + unfold date_wf, toordinal; cbn [year month day].
      pose proof (days_in_month_bounds (year d) (month d - 1)).
      pose proof (days_before_next_month (year d) (month d - 1)) as N.
      replace (month d - 1 + 1) with (month d) in N by lia. lia.
    + assert (E1 : month d = 1) by lia.
      unfold date_wf, toordinal; cbn [year month day].
      pose proof (days_before_next_year (year d - 1)) as N.
      replace (year d - 1 + 1) with (year d) in N by lia.
      pose proof (days_before_month_december (year d - 1)).
      rewrite E, E1.
      change (days_in_month (year d - 1) 12) with 31.
      change (days_before_month (year d) 1) with 0. lia.
Qed.

Lemma iter_succ_day_spec (n : nat) (d : date) :
  date_wf d ->
  date_wf (Nat.iter n succ_day d)
  /\ toordinal (Nat.iter n succ_day d) = toordinal d + Z.of_nat n.
Proof.
  intros H. induction n as [|n [IHw IHo]];
    [cbn [Nat.iter]; split; [exact H | rewrite Z.add_0_r || rewrite Z.sub_0_r; reflexivity]|].
  change (Nat.iter (S n) succ_day d) with (succ_day (Nat.iter n succ_day d)).
  destruct (succ_day_spec _ IHw) as [W O]. split; [exact W | lia].
Qed.

Lemma iter_pred_day_spec (n : nat) (d : date) :
  date_wf d ->
  date_wf (Nat.iter n pred_day d)
  /\ toordinal (Nat.iter n pred_day d) = toordinal d - Z.of_nat n.
Proof.
  intros H. induction n as [|n [IHw IHo]];
    [cbn [Nat.iter]; split; [exact H | rewrite Z.add_0_r || rewrite Z.sub_0_r; reflexivity]|].
  change (Nat.iter (S n) pred_day d) with (pred_day (Nat.iter n pred_day d)).
  destruct (pred_day_spec _ IHw) as [W O]. split; [exact W | lia].
Qed.

(** The ordinal of a day of the calendar lies inside its year. *)
Lemma toordinal_in_year (d : date) :
  date_wf d ->
  days_before_year (year d) < toordinal d <= days_before_year (year d + 1).
Proof.
  intros [Hm Hd]. unfold toordinal. rewrite days_before_next_year.
  pose proof (days_before_month_bounds (year d) (month d) Hm). lia.
Qed.

(** Dates compare as their ordinals. *)
Lemma toordinal_lt (a b : date) :
  date_wf a -> date_wf b -> date_compare a b = Lt -> toordinal a < toordinal b.
Proof.
  intros Wa Wb H. apply date_compare_lt in H.
  destruct H as [Hy|[Ey [Hmo|[Em Hd]]]].
  - pose proof (toordinal_in_year a Wa). pose proof (toordinal_in_year b Wb).
    pose proof (days_before_year_mono (year a + 1) (year b)). lia.
  - destruct Wa as [Ma Da], Wb as [Mb Db]. unfold toordinal. rewrite Ey in *.
    pose proof (days_before_month_mono (year b) (month a) (month b)). lia.
  - unfold toordinal. rewrite Ey, Em. lia.
Qed.

Lemma date_compare_toordinal (a b : date) :
  date_wf a -> date_wf b -> date_compare a b = (toordinal a ?= toordinal b).
Proof.
  intros Wa Wb. destruct (date_compare a b) eqn:E.
  - apply date_compare_eq in E. subst b. now rewrite Z.compare_refl.
  - symmetry. apply Z.compare_lt_iff. now apply toordinal_lt.
  - symmetry. apply Z.compare_gt_iff. apply toordinal_lt; auto.
    now apply date_compare_gt.
Qed.

Lemma date_leb_toordinal (a b : date) :
  date_wf a -> date_wf b -> (date_leb a b = true <-> toordinal a <= toordinal b).
Proof.
  intros Wa Wb. unfold date_leb. rewrite date_compare_toordinal by assumption.
  destruct (Z.compare_spec (toordinal a) (toordinal b)); split; intros; try lia;
    try reflexivity; discriminate.
Qed.

Lemma date_ltb_toordinal (a b : date) :
  date_wf a -> date_wf b -> (date_ltb a b = true <-> toordinal a < toordinal b).
Proof.
  intros Wa Wb. unfold date_ltb. rewrite date_compare_toordinal by assumption.
  destruct (Z.compare_spec (toordinal a) (toordinal b)); split; intros; try lia;
    try reflexivity; discriminate.
Qed.

Lemma toordinal_inj (a b : date) :
  date_wf a -> date_wf b -> toordinal a = toordinal b -> a = b.
Proof.
  intros Wa Wb E. apply date_compare_eq.
  rewrite date_compare_toordinal by assumption. now apply Z.compare_eq_iff.
Qed.

(** The ordinals of the dates of the calendar: 1 to [MAXORDINAL]. *)
Lemma date_ok_toordinal (d : date) :
  date_wf d -> (MINYEAR <= year d <= MAXYEAR <-> 1 <= toordinal d <= MAXORDINAL).
Proof.
  intros W. pose proof (toordinal_in_year d W) as B.
  unfold MINYEAR, MAXYEAR, MAXORDINAL. split; intros H.
  - pose proof (days_before_year_mono 1 (year d)).
    pose proof (days_before_year_mono (year d + 1) 10000).
    change (days_before_year 1) with 0 in *.
    change (days_before_year 10000) with 3652059 in *. lia.
  - destruct (Z.le_gt_cases (year d) 0) as [L|L].
    + pose proof (days_before_year_mono (year d + 1) 1).
      change (days_before_year 1) with 0 in *. lia.
    + destruct (Z.le_gt_cases (year d) 9999) as [U|U]; [lia|].
      pose proof (days_before_year_mono 10000 (year d)).
      change (days_before_year 10000) with 3652059 in *. lia.
Qed.

(** [d + timedelta(days=k)] is the date whose ordinal is [k] more, and
    overflows exactly when that ordinal is not one of a date. *)
Lemma date_add_days_spec (d : date) (k : Z) :
  date_ok d = true ->
  (1 <= toordinal d + k <= MAXORDINAL ->
   exists r, date_add_days d k = Ok r /\ date_ok r = true
             /\ toordinal r = toordinal d + k)
  /\ (~ 1 <= toordinal d + k <= MAXORDINAL ->
      date_add_days d k = Raise (OverflowError "date value out of range")).
Proof.
  intros Hok. pose proof (date_ok_wf d Hok) as W.
  unfold date_add_days.
  set (r := if 0 <=? k then Nat.iter (Z.to_nat k) succ_day d
            else Nat.iter (Z.to_nat (- k)) pred_day d).
  assert (Hr : date_wf r /\ toordinal r = toordinal d + k).
  { subst r. destruct (Z.leb_spec 0 k).
    - destruct (iter_succ_day_spec (Z.to_nat k) d W). split; [assumption | lia].
    - destruct (iter_pred_day_spec (Z.to_nat (- k)) d W). split; [assumption | lia]. }
  destruct Hr as [Wr Or]. pose proof (date_ok_toordinal r Wr) as B.
  split; intros H.
  - rewrite <- Or in H. apply B in H.
    assert (E : (MINYEAR <=? year r) && (year r <=? MAXYEAR) = true)
      by (apply andb_true_iff; rewrite !Z.leb_le; lia).
    rewrite E. exists r. split; [reflexivity|]. split; [|exact Or].
    apply date_ok_iff. unfold date_wf in Wr. tauto.
  - rewrite <- Or in H.
    assert (E : (MINYEAR <=? year r) && (year r <=? MAXYEAR) = false).
    { apply not_true_is_false. rewrite andb_true_iff, !Z.leb_le. intros C.
      apply H, B. lia. }
    now rewrite E.
Qed.

Lemma weekday_range (d : date) : 0 <= weekday d <= 6.
Proof. unfold weekday. pose proof (Z.mod_pos_bound (toordinal d + 6) 7). lia. Qed.

(** ** Month buckets in closed form *)

Lemma month_at_index (y m : Z) :
  1 <= m <= 12 -> (12 * y + m - 1) / 12 = y /\ (12 * y + m - 1) mod 12 + 1 = m.
Proof. intros H. Z.div_mod_to_equations. lia. Qed.

Lemma bucket_at_month_index (last : date) (y m : Z) :
  1 <= m <= 12 ->
  bucket_at last (month_index (mkdate y m 1))
  = (mkdate y m 1, date_min (mkdate y m (days_in_month y m)) last).
Proof.
  intros H. unfold bucket_at, month_index. cbn [year month day]. cbv zeta.
  destruct (month_at_index y m H) as [-> ->]. reflexivity.
Qed.

Lemma month_range_loop_buckets (fuel : nat) :
  forall (current last : date) (months : list (date * date)),
    date_ok current = true -> day current = 1 ->
    date_ok last = true -> date_ltb last (mkdate MAXYEAR 12 1) = true ->
    (Z.to_nat (month_index last - month_index current + 1) < fuel)%nat ->
    month_range_loop fuel current last months
    = Ok (months
          ++ map (fun i => bucket_at last (month_index current + Z.of_nat i))
               (seq 0 (Z.to_nat (month_index last - month_index current + 1)))).
Proof.
  induction fuel as [|fuel IH]; intros current last months Hc Hc1 Hl Hmax Hfuel; [lia|].
  pose proof Hc as Hc'. pose proof Hl as Hl'.
  apply date_ok_iff in Hc', Hl'. apply date_ltb_lt in Hmax.
  destruct current as [y m d]. cbn [year month day] in *. subst d.
  unfold MINYEAR, MAXYEAR in Hc', Hl', Hmax.
  cbn [month_range_loop].
  destruct (date_leb (mkdate y m 1) last) eqn:Hle.
  - apply date_leb_le in Hle; cbn [year month day] in Hle.
    pose proof (step_to_next_month y m) as Hstep.
    unfold MINYEAR, MAXYEAR in Hstep.
    specialize (Hstep ltac:(lia) ltac:(lia) ltac:(lia)).
    destruct (date_replace_day (mkdate y m 1) 28) as [d28| |]; cbn [bind] in Hstep |- *;
      try discriminate.
    destruct (date_add_days d28 4) as [d32| |]; cbn [bind] in Hstep |- *;
      try discriminate.
    rewrite Hstep. cbn [bind].
    rewrite day_before_next_month by (unfold MINYEAR, MAXYEAR; lia). cbn [bind].
    assert (Hnext : date_ok (first_of_next_month y m) = true
                    /\ day (first_of_next_month y m) = 1
                    /\ month_index (first_of_next_month y m)
                       = month_index (mkdate y m 1) + 1).
    { unfold first_of_next_month, month_index.
      destruct (Z.eqb_spec m 12); cbn [year month day];
        (split; [|split; [reflexivity | lia]]);
        apply date_ok_iff; cbn [year month day]; unfold MINYEAR, MAXYEAR;
        (split; [lia | split; [lia|]]).
      - pose proof (days_in_month_bounds (y + 1) 1); lia.
      - pose proof (days_in_month_bounds y (m + 1)); lia. }
    destruct Hnext as (Hn & Hn1 & Hni).
    assert (Hcount : Z.to_nat (month_index last - month_index (mkdate y m 1) + 1)
                     = S (Z.to_nat (month_index last
                                    - month_index (first_of_next_month y m) + 1))).
    { rewrite Hni. unfold month_index; cbn [year month day]. lia. }
    rewrite IH; auto.
    + rewrite Hcount. cbn [seq map]. rewrite <- app_assoc. cbn [app].
      f_equal. f_equal. f_equal.
      * rewrite Z.add_0_r. symmetry. apply bucket_at_month_index. lia.
      * rewrite <- seq_shift, map_map. apply map_ext. intros i.
        f_equal. rewrite Hni. lia.
    + apply date_ltb_lt; cbn [year month day]; unfold MAXYEAR; lia.
    + lia.
  - assert (N : ~ date_leb (mkdate y m 1) last = true) by congruence.
    rewrite date_leb_le in N; cbn [year month day] in N.
    replace (Z.to_nat (month_index last - month_index (mkdate y m 1) + 1)) with 0%nat
      by (unfold month_index; cbn [year month day]; lia).
    cbn [seq map]. now rewrite app_nil_r.
Qed.

(** The buckets of [month_range], without the loop. *)
Lemma month_range_buckets_eq (start end_ : DateLike) (s e : date) :
  to_date start = Ok s -> to_date end_ = Ok e ->
  date_ok s = true -> date_ok e = true ->
  date_ltb e (mkdate MAXYEAR 12 1) = true ->
  month_range start end_
  = Ok (map (fun i => bucket_at e (month_index s + Z.of_nat i))
          (seq 0 (Z.to_nat (month_index e - month_index s + 1)))).
Proof.
  intros Hs He Os Oe Hmax.
  unfold month_range. rewrite Hs; cbn [bind].
  pose proof Os as Os'. apply date_ok_iff in Os'.
  pose proof (days_in_month_bounds (year s) (month s)) as Hb.
  unfold date_replace_day. rewrite date_new_ok by (try tauto; lia). cbn [bind].
  rewrite He; cbn [bind].
  rewrite month_range_loop_buckets; auto.
  - apply date_ok_iff; cbn [year month day]. split; [tauto|]. split; [tauto|]. lia.
  - unfold month_range_fuel, month_index; cbn [year month day]. lia.
Qed.

(** [month_range] lists the calendar months from the month of [start] to
    the month of [end], each from its first day to its last, the last one
    cut at [end]. *)
Theorem month_range_closed_form (start end_ : DateLike) (s e : date) :
  to_date start = Ok s -> to_date end_ = Ok e ->
  date_ok s = true -> date_ok e = true ->
  date_ltb e (mkdate MAXYEAR 12 1) = true ->
  month_range start end_
  = Ok (map (fun i => bucket_at e (month_index s + Z.of_nat i))
          (seq 0 (Z.to_nat (month_index e - month_index s + 1)))).
Proof. exact (month_range_buckets_eq start end_ s e). Qed.

Lemma month_range_closed_form_witness :
  month_range (DLdate (mkdate 2025 11 20)) (DLdate (mkdate 2026 1 15))
  = Ok (map (fun i => bucket_at (mkdate 2026 1 15)
                        (month_index (mkdate 2025 11 20) + Z.of_nat i))
          (seq 0 (Z.to_nat (month_index (mkdate 2026 1 15)
                            - month_index (mkdate 2025 11 20) + 1)))).
Proof.
  exact (month_range_closed_form (DLdate (mkdate 2025 11 20)) (DLdate (mkdate 2026 1 15))
           (mkdate 2025 11 20) (mkdate 2026 1 15)
           eq_refl eq_refl eq_refl eq_refl eq_refl).
Defined.

(** ** Tick marks in closed form *)

Lemma month_ticks_closed_form (days : list Z) (month_start month_end : date) :
  bucket_ok (month_start, month_end) ->
  Forall (fun d => 1 <= d) days ->
  forall ticks,
    month_ticks days month_start month_end ticks
    = Ok (ticks
          ++ map (fun d => datetime_combine
                             (mkdate (year month_start) (month month_start) d) time_min)
               (filter (fun d => d <=? day month_end) days)).
Proof.
  intros (Hs & Hs1 & He & Hy & Hm) Hdays. cbn [fst snd] in *.
  induction Hdays as [|d days Hd _ IH]; intros ticks; cbn [month_ticks filter map].
  - now rewrite app_nil_r.
  - destruct (Z.leb_spec d (day month_end)) as [Hle|Hgt]; [|apply IH].
    apply date_ok_iff in Hs, He.
    unfold date_replace_day.
    rewrite date_new_ok; [| tauto | tauto | rewrite <- Hy, <- Hm; lia ].
    cbn [bind].
    assert (E1 : date_leb month_start (mkdate (year month_start) (month month_start) d)
                 = true) by (apply date_leb_le; cbn [year month day]; lia).
    assert (E2 : date_leb (mkdate (year month_start) (month month_start) d) month_end
                 = true) by (apply date_leb_le; cbn [year month day]; lia).
    rewrite E1, E2. cbn [andb]. rewrite IH, <- app_assoc. reflexivity.
Qed.

Lemma all_ticks_closed_form (months : list (date * date)) :
  Forall bucket_ok months ->
  forall ticks, all_ticks months ticks = Ok (ticks ++ flat_map bucket_ticks months).
Proof.
  induction 1 as [|[month_start month_end] months Hb _ IH]; intros ticks;
    cbn [all_ticks flat_map].
  - now rewrite app_nil_r.
  - rewrite (month_ticks_closed_form TICK_DAYS month_start month_end Hb)
      by (unfold TICK_DAYS; repeat constructor; lia).
    cbn [bind]. rewrite IH. unfold bucket_ticks. cbn [fst snd].
    now rewrite <- !app_assoc.
Qed.

Lemma ticks_in_range_closed_form (start end_ : DateLike) (s e : date)
    (ticks : list datetime) :
  to_date start = Ok s -> to_date end_ = Ok e ->
  ticks_in_range start end_ ticks
  = Ok (filter (fun t => date_leb s (dt_date t) && date_leb (dt_date t) e) ticks).
Proof.
  intros Hs He. induction ticks as [|tick ticks IH]; cbn [ticks_in_range filter].
  - reflexivity.
  - rewrite Hs; cbn [bind]. destruct (date_leb s (dt_date tick)).
    + rewrite He; cbn [bind]. rewrite IH; cbn [bind andb]. reflexivity.
    + cbn [bind]. rewrite IH; cbn [bind andb]. reflexivity.
Qed.

Lemma bucket_at_ok (last : date) (k : Z) :
  date_ok last = true -> 12 * MINYEAR < k ->
  k <= month_index last -> bucket_ok (bucket_at last k).
Proof.
  intros Hl Hk Hle. pose proof Hl as Hl'. apply date_ok_iff in Hl'.
  unfold bucket_at, bucket_ok, month_index, MINYEAR, MAXYEAR in *. cbv zeta. cbn [fst snd].
  set (y := (k - 1) / 12). set (m := (k - 1) mod 12 + 1).
  assert (Hm : 1 <= m <= 12) by (subst m; pose proof (Z.mod_pos_bound (k - 1) 12); lia).
  assert (Hy : 1 <= y <= 9999) by (subst y; Z.div_mod_to_equations; lia).
  pose proof (days_in_month_bounds y m Hm) as Hb.
  split; [apply date_ok_iff; cbn [year month day]; unfold MINYEAR, MAXYEAR; lia|].
  split; [reflexivity|].
  unfold date_min. destruct (date_ltb last (mkdate y m (days_in_month y m))) eqn:E.
  - split; [exact Hl|]. apply date_ltb_lt in E. cbn [year month day] in E.
    assert (Hk' : k = 12 * y + m) by (subst y m; Z.div_mod_to_equations; lia).
    cbn [year month day]. lia.
  - split; [|split; reflexivity].
    apply date_ok_iff; cbn [year month day]; unfold MINYEAR, MAXYEAR; lia.
Qed.

Lemma month_range_buckets_ok (s e : date) :
  date_ok s = true -> date_ok e = true ->
  Forall bucket_ok
    (map (fun i => bucket_at e (month_index s + Z.of_nat i))
       (seq 0 (Z.to_nat (month_index e - month_index s + 1)))).
Proof.
  intros Os Oe. apply Forall_forall. intros b Hb.
  apply in_map_iff in Hb as (i & <- & Hi). apply in_seq in Hi.
  apply date_ok_iff in Os as Os'.
  apply bucket_at_ok; auto; unfold month_index, MINYEAR in *; lia.
Qed.

Lemma bucket_at_last (e : date) :
  date_ok e = true -> snd (bucket_at e (month_index e)) = e.
Proof.
  intros Oe. apply date_ok_iff in Oe.
  destruct e as [y m d]. cbn [year month day] in Oe.
  change (month_index (mkdate y m d)) with (month_index (mkdate y m 1)).
  rewrite bucket_at_month_index by tauto. cbn [snd]. unfold date_min.
  destruct (date_ltb (mkdate y m d) (mkdate y m (days_in_month y m))) eqn:E;
    [reflexivity|].
  assert (N : ~ date_ltb (mkdate y m d) (mkdate y m (days_in_month y m)) = true)
    by congruence.
  rewrite date_ltb_lt in N. cbn [year month day] in N.
  f_equal. lia.
Qed.

(** What [make_tickvals] returns, without the loops: the ticks of the
    buckets of [month_range] that lie in [start, end]. *)
Lemma make_tickvals_closed_form (start end_ : DateLike) (s e : date) :
  to_date start = Ok s -> to_date end_ = Ok e ->
  date_ok s = true -> date_ok e = true ->
  date_ltb e (mkdate MAXYEAR 12 1) = true ->
  make_tickvals start end_
  = Ok (filter (fun t => date_leb s (dt_date t) && date_leb (dt_date t) e)
          (flat_map bucket_ticks
             (map (fun i => bucket_at e (month_index s + Z.of_nat i))
                (seq 0 (Z.to_nat (month_index e - month_index s + 1)))))).
Proof.
  intros Hs He Os Oe Hmax. unfold make_tickvals.
  rewrite (month_range_buckets_eq start end_ s e) by assumption. cbn [bind].
  rewrite all_ticks_closed_form by now apply month_range_buckets_ok.
  cbn [bind app]. now apply ticks_in_range_closed_form.
Qed.

(** Every tick of [make_tickvals] is at midnight, on the 6th, 12th, 18th
    or 24th of a month, on the last day of a month, or on [end]; and when
    [start <= end] the last tick is [end] itself. *)
Theorem make_tickvals_ticks (start end_ : DateLike) (s e : date) :
  to_date start = Ok s -> to_date end_ = Ok e ->
  date_ok s = true -> date_ok e = true ->
  date_ltb e (mkdate MAXYEAR 12 1) = true ->
  exists ticks,
    make_tickvals start end_ = Ok ticks
    /\ Forall (fun t =>
                 dt_time t = time_min
                 /\ (In (day (dt_date t)) TICK_DAYS
                     \/ day (dt_date t)
                        = days_in_month (year (dt_date t)) (month (dt_date t))
                     \/ dt_date t = e)) ticks
    /\ (date_leb s e = true ->
        exists before, ticks = before ++ [datetime_combine e time_min]).
Proof.
  intros Hs He Os Oe Hmax.
  rewrite (make_tickvals_closed_form start end_ s e) by assumption.
  eexists. split; [reflexivity|]. split.
  - apply Forall_forall. intros t Ht.
    apply filter_In in Ht as [Ht _]. apply in_flat_map in Ht as (b & Hb & Ht).
    apply in_map_iff in Hb as (i & <- & _).
    unfold bucket_ticks in Ht. apply in_app_or in Ht as [Ht|[<-|[]]].
    + apply in_map_iff in Ht as (d & <- & Hd). apply filter_In in Hd as [Hd _].
      split; [reflexivity|]. left. exact Hd.
    + split; [reflexivity|]. right. cbn [dt_date datetime_combine].
      unfold bucket_at. cbv zeta. cbn [snd]. unfold date_min.
      match goal with
      | |- context [date_ltb e (mkdate ?y ?m ?d)] =>
          destruct (date_ltb e (mkdate y m d)); [right; reflexivity | left; reflexivity]
      end.
  - intros Hle. apply date_leb_le in Hle.
    apply date_ok_iff in Os as Os'. apply date_ok_iff in Oe as Oe'.
    assert (Hn : Z.to_nat (month_index e - month_index s + 1)
                 = S (Z.to_nat (month_index e - month_index s)))
      by (unfold month_index; lia).
    rewrite Hn, seq_S, map_app, flat_map_app, filter_app. cbn [map flat_map seq].
    replace (month_index s + Z.of_nat (0 + Z.to_nat (month_index e - month_index s)))
      with (month_index e) by (unfold month_index; lia).
    rewrite app_nil_r. unfold bucket_ticks at 2.
    rewrite bucket_at_last by assumption. rewrite filter_app. cbn [filter dt_date datetime_combine].
    assert (E1 : date_leb s e = true) by now apply date_leb_le.
    assert (E2 : date_leb e e = true) by (apply date_leb_le; lia).
    rewrite E1, E2. cbn [andb]. rewrite app_assoc. eexists. reflexivity.
Qed.

Lemma make_tickvals_ticks_witness :
  exists ticks,
    make_tickvals (DLdate (mkdate 2025 7 1)) (DLdate (mkdate 2025 8 24)) = Ok ticks
    /\ Forall (fun t =>
                 dt_time t = time_min
                 /\ (In (day (dt_date t)) TICK_DAYS
                     \/ day (dt_date t)
                        = days_in_month (year (dt_date t)) (month (dt_date t))
                     \/ dt_date t = mkdate 2025 8 24)) ticks
    /\ (date_leb (mkdate 2025 7 1) (mkdate 2025 8 24) = true ->
        exists before, ticks = before ++ [datetime_combine (mkdate 2025 8 24) time_min]).
Proof.
  exact (make_tickvals_ticks (DLdate (mkdate 2025 7 1)) (DLdate (mkdate 2025 8 24))
           (mkdate 2025 7 1) (mkdate 2025 8 24)
           eq_refl eq_refl eq_refl eq_refl eq_refl).
Defined.

(** ** Week lines *)

Lemma week_lines_loop_spec (fuel : nat) :
  forall (current e : date) (lines : list datetime),
    date_ok current = true -> date_ok e = true ->
    toordinal e + 7 <= MAXORDINAL ->
    (Z.to_nat ((toordinal e - toordinal current) / 7 + 1) < fuel)%nat ->
    exists r,
      week_lines_loop fuel current e lines = Ok (lines ++ r)
      /\ map (fun l => toordinal (dt_date l)) r
         = map (fun i => toordinal current + 7 * Z.of_nat i)
             (seq 0 (Z.to_nat ((toordinal e - toordinal current) / 7 + 1)))
      /\ Forall (fun l => dt_time l = time_min /\ date_ok (dt_date l) = true) r.
Proof.
  induction fuel as [|fuel IH]; intros current e lines Hc He Hmax Hfuel; [lia|].
  pose proof (date_ok_wf _ Hc) as Wc. pose proof (date_ok_wf _ He) as We.
  cbn [week_lines_loop].
  destruct (date_leb current e) eqn:Hle.
  - apply date_leb_toordinal in Hle; auto.
    apply date_ok_iff in Hc as Hc'.
    assert (B : 1 <= toordinal current <= MAXORDINAL) by (apply date_ok_toordinal; tauto).
    destruct (proj1 (date_add_days_spec current 7 Hc)) as (next & -> & Hn & On); [lia|].
    cbn [bind].
    assert (Hcount : Z.to_nat ((toordinal e - toordinal current) / 7 + 1)
                     = S (Z.to_nat ((toordinal e - toordinal next) / 7 + 1))).
    { rewrite On. Z.div_mod_to_equations. lia. }
    destruct (IH next e (lines ++ [datetime_combine current time_min]) Hn He Hmax)
      as (r & Hr & Hmap & Hall); [lia|].
    exists (datetime_combine current time_min :: r).
    split; [rewrite Hr, <- app_assoc; reflexivity|]. split.
    + rewrite Hcount. cbn [seq map dt_date datetime_combine]. f_equal; [lia|].
      rewrite Hmap, <- seq_shift, map_map. apply map_ext. intros i. lia.
    + constructor; [split; [reflexivity | exact Hc] | exact Hall].
  - exists []. rewrite app_nil_r. split; [reflexivity|].
    assert (N : ~ toordinal current <= toordinal e).
    { rewrite <- date_leb_toordinal by assumption. congruence. }
    replace (Z.to_nat ((toordinal e - toordinal current) / 7 + 1)) with 0%nat
      by (Z.div_mod_to_equations; lia).
    split; [reflexivity | constructor].
Qed.

(** [make_week_lines] returns the Mondays, at midnight, from the Monday on
    or before [start] up to [end], seven days apart. The range must end a
    week before the last date of the calendar, or stepping overflows. *)
Theorem make_week_lines_mondays (start end_ : DateLike) (s e : date) :
  to_date start = Ok s -> to_date end_ = Ok e ->
  date_ok s = true -> date_ok e = true ->
  toordinal e + 7 <= MAXORDINAL ->
  exists lines,
    make_week_lines start end_ = Ok lines
    /\ map (fun l => toordinal (dt_date l)) lines
       = map (fun i => toordinal s - weekday s + 7 * Z.of_nat i)
           (seq 0 (Z.to_nat ((toordinal e - (toordinal s - weekday s)) / 7 + 1)))
    /\ Forall (fun l => dt_time l = time_min /\ date_ok (dt_date l) = true
                        /\ weekday (dt_date l) = 0
                        /\ date_leb (dt_date l) e = true) lines.
Proof.
  intros Hs He Os Oe Hmax.
  pose proof (date_ok_wf _ Os) as Ws. pose proof (date_ok_wf _ Oe) as We.
  apply date_ok_iff in Os as Os'.
  assert (B : 1 <= toordinal s <= MAXORDINAL) by (apply date_ok_toordinal; tauto).
  pose proof (weekday_range s) as Hw.
  assert (Ha : 1 <= toordinal s - weekday s).
  { unfold weekday in *. Z.div_mod_to_equations. lia. }
  unfold make_week_lines. rewrite Hs. cbn [bind].
  destruct (proj1 (date_add_days_spec s (- weekday s) Os)) as (a & -> & Oa & Ea); [lia|].
  cbn [bind]. rewrite He. cbn [bind].
  destruct (week_lines_loop_spec (week_lines_fuel a e) a e [] Oa Oe Hmax)
    as (lines & Hr & Hmap & Hall); [unfold week_lines_fuel; lia|].
  exists lines. split; [exact Hr|].
  replace (toordinal s - weekday s) with (toordinal a) by lia.
  split; [exact Hmap|].
  apply Forall_forall. intros l Hl.
  rewrite Forall_forall in Hall. destruct (Hall l Hl) as [Ht Ho].
  assert (Hin : In (toordinal (dt_date l)) (map (fun l => toordinal (dt_date l)) lines))
    by (apply in_map_iff; eauto).
  rewrite Hmap in Hin. apply in_map_iff in Hin as (i & Ei & Hi). apply in_seq in Hi.
  split; [exact Ht|]. split; [exact Ho|]. split.
  - unfold weekday in *. rewrite <- Ei. Z.div_mod_to_equations. lia.
  - apply date_leb_toordinal; [now apply date_ok_wf | exact We|].
    rewrite <- Ei. Z.div_mod_to_equations. lia.
Qed.

Lemma make_week_lines_mondays_witness :
  exists lines,
    make_week_lines (DLdate (mkdate 2025 7 3)) (DLdate (mkdate 2025 7 31)) = Ok lines
    /\ map (fun l => toordinal (dt_date l)) lines
       = map (fun i => toordinal (mkdate 2025 7 3) - weekday (mkdate 2025 7 3)
                       + 7 * Z.of_nat i)
           (seq 0 (Z.to_nat ((toordinal (mkdate 2025 7 31)
                              - (toordinal (mkdate 2025 7 3)
                                 - weekday (mkdate 2025 7 3))) / 7 + 1)))
    /\ Forall (fun l => dt_time l = time_min /\ date_ok (dt_date l) = true
                        /\ weekday (dt_date l) = 0
                        /\ date_leb (dt_date l) (mkdate 2025 7 31) = true) lines.
Proof.
  apply (make_week_lines_mondays (DLdate (mkdate 2025 7 3)) (DLdate (mkdate 2025 7 31))
           (mkdate 2025 7 3) (mkdate 2025 7 31)); try reflexivity.
  vm_compute. discriminate.
Defined.

(** ** Month annotations *)

Lemma month_annotations_closed_form (months : list (date * date)) :
  Forall bucket_ok months ->
  forall annotations,
    month_annotations months annotations = Ok (annotations ++ map annotation_of months).
Proof.
  induction 1 as [|[ms me] months Hb _ IH]; intros annotations;
    cbn [month_annotations map].
  - now rewrite app_nil_r.
  - destruct Hb as (Hs & Hs1 & He & Hy & Hm). cbn [fst snd] in *.
    pose proof (date_ok_wf _ Hs) as Ws. pose proof (date_ok_wf _ He) as We.
    apply date_ok_iff in Hs as Hs'. apply date_ok_iff in He as He'.
    assert (Hdiff : date_diff me ms = day me - 1).
    { unfold date_diff, toordinal. rewrite Hy, Hm, Hs1. lia. }
    rewrite Hdiff.
    set (k := (day me - 1) / 2).
    assert (Hk : 0 <= k <= day me - 1) by (subst k; Z.div_mod_to_equations; lia).
    assert (Bs : 1 <= toordinal ms <= MAXORDINAL) by (apply date_ok_toordinal; tauto).
    assert (Be : 1 <= toordinal me <= MAXORDINAL) by (apply date_ok_toordinal; tauto).
    assert (Ome : toordinal me = toordinal ms + (day me - 1)).
    { unfold toordinal. rewrite Hy, Hm, Hs1. lia. }
    destruct (proj1 (date_add_days_spec ms k Hs)) as (r & -> & Or & Er); [lia|].
    cbn [bind].
    assert (Er' : r = mkdate (year ms) (month ms) (1 + k)).
    { apply toordinal_inj.
      - now apply date_ok_wf.
      - unfold date_wf; cbn [year month day]. rewrite <- Hy, <- Hm. lia.
      - rewrite Er. unfold toordinal; cbn [year month day]. rewrite Hs1. lia. }
    rewrite IH, <- app_assoc. unfold annotation_of. cbn [fst snd app].
    subst k. rewrite Er'. reflexivity.
Qed.

(** [make_month_annotations] gives one annotation per bucket of
    [month_range]: the label is the year, the year suffix, the month and the
    month suffix of the source, and the midpoint is midnight of day
    1 + floor((d - 1) / 2) of the month, where d is the day the bucket ends
    (the 16th of a whole month of 31 days, the 15th of one of 30 or 29, the
    14th of one of 28): the division rounds down, and the midpoint never leaves the
    bucket. *)
Theorem make_month_annotations_midpoints (start end_ : DateLike) (s e : date) :
  to_date start = Ok s -> to_date end_ = Ok e ->
  date_ok s = true -> date_ok e = true ->
  date_ltb e (mkdate MAXYEAR 12 1) = true ->
  exists months,
    month_range start end_ = Ok months
    /\ make_month_annotations start end_ = Ok (map annotation_of months)
    /\ Forall (fun b => date_leb (fst b) (dt_date (snd (annotation_of b))) = true
                        /\ date_leb (dt_date (snd (annotation_of b))) (snd b) = true)
         months.
Proof.
  intros Hs He Os Oe Hmax.
  pose proof (month_range_buckets_eq start end_ s e Hs He Os Oe Hmax) as Hm.
  pose proof (month_range_buckets_ok s e Os Oe) as Hok.
  eexists. split; [exact Hm|]. split.
  - unfold make_month_annotations. rewrite Hm. cbn [bind].
    now rewrite month_annotations_closed_form.
  - eapply Forall_impl; [|exact Hok].
    intros [ms me] (H1 & H2 & H3 & H4 & H5). cbn [fst snd] in *.
    unfold annotation_of. cbn [fst snd dt_date datetime_combine].
    apply date_ok_iff in H3.
    assert (Hk : 0 <= (day me - 1) / 2 <= day me - 1)
      by (Z.div_mod_to_equations; lia).
    split; apply date_leb_le; cbn [year month day]; lia.
Qed.

Lemma make_month_annotations_midpoints_witness :
  exists months,
    month_range (DLdate (mkdate 2025 7 10)) (DLdate (mkdate 2025 9 5)) = Ok months
    /\ make_month_annotations (DLdate (mkdate 2025 7 10)) (DLdate (mkdate 2025 9 5))
       = Ok (map annotation_of months)
    /\ Forall (fun b => date_leb (fst b) (dt_date (snd (annotation_of b))) = true
                        /\ date_leb (dt_date (snd (annotation_of b))) (snd b) = true)
         months.
Proof.
  exact (make_month_annotations_midpoints
           (DLdate (mkdate 2025 7 10)) (DLdate (mkdate 2025 9 5))
           (mkdate 2025 7 10) (mkdate 2025 9 5)
           eq_refl eq_refl eq_refl eq_refl eq_refl).
Defined.

(** The annotations of July 10th to September 5th, 2025. *)
Example make_month_annotations_sample :
  make_month_annotations (DLdate (mkdate 2025 7 10)) (DLdate (mkdate 2025 9 5))
  = Ok [("2025å¹´7æœˆ", datetime_combine (mkdate 2025 7 16) time_min);
        ("2025å¹´8æœˆ", datetime_combine (mkdate 2025 8 16) time_min);
        ("2025å¹´9æœˆ", datetime_combine (mkdate 2025 9 3) time_min)].
Proof. reflexivity. Qed.

(** ** Business days *)

Lemma weekdays_from_succ (o : Z) (n : nat) :
  weekdays_from o (S n)
  = (if (o + 6) mod 7 <? 5 then 1 else 0) + weekdays_from (o + 1) n.
Proof.
  unfold weekdays_from. cbn [seq map fold_right].
  rewrite Z.add_0_r. f_equal.
  rewrite <- seq_shift, map_map. f_equal. apply map_ext. intros i.
  replace (o + Z.of_nat (S i) + 6) with (o + 1 + Z.of_nat i + 6) by lia. reflexivity.
Qed.

Lemma weekdays_from_app (o : Z) (n m : nat) :
  weekdays_from o (n + m) = weekdays_from o n + weekdays_from (o + Z.of_nat n) m.
Proof.
  revert o. induction n as [|n IH]; intros o.
  - cbn [Nat.add]. unfold weekdays_from at 2. cbn. now rewrite Z.add_0_r.
  - cbn [Nat.add]. rewrite !weekdays_from_succ, IH.
    replace (o + 1 + Z.of_nat n) with (o + Z.of_nat (S n)) by lia. lia.
Qed.

Lemma weekdays_from_bounds (o : Z) (n : nat) :
  0 <= weekdays_from o n <= Z.of_nat n.
Proof.
  revert o. induction n as [|n IH]; intros o.
  - unfold weekdays_from. cbn. lia.
  - rewrite weekdays_from_succ. specialize (IH (o + 1)).
    destruct ((o + 6) mod 7 <? 5); lia.
Qed.

(** Seven days in a row hold five weekdays. *)
Lemma weekdays_from_week (o : Z) : weekdays_from o 7 = 5.
Proof.
  assert (S : forall c, (o + c + 6) mod 7 = (o mod 7 + (c + 6)) mod 7).
  { intros c. rewrite <- Z.add_assoc. now rewrite Z.add_mod_idemp_l. }
  unfold weekdays_from. cbn [seq map fold_right Z.of_nat Pos.of_succ_nat Pos.succ].
  rewrite !S.
  pose proof (Z.mod_pos_bound o 7 ltac:(lia)) as B.
  assert (C : o mod 7 = 0 \/ o mod 7 = 1 \/ o mod 7 = 2 \/ o mod 7 = 3
              \/ o mod 7 = 4 \/ o mod 7 = 5 \/ o mod 7 = 6) by lia.
  destruct C as [C|[C|[C|[C|[C|[C|C]]]]]]; rewrite C; reflexivity.
Qed.

Lemma count_weekdays_ordinals (n : nat) :
  forall d, date_wf d -> count_weekdays n d = weekdays_from (toordinal d) n.
Proof.
  induction n as [|n IH]; intros d W; [reflexivity|].
  cbn [count_weekdays]. rewrite weekdays_from_succ.
  destruct (succ_day_spec d W) as [W' O'].
  rewrite IH by assumption. rewrite O'. reflexivity.
Qed.

Section BusinessDaysFacts.
Variable bdate_range_len : date -> date -> result Z.

(** [business_days] refuses a range that ends before it starts. *)
Lemma business_days_rejects_inverted (start end_ : DateLike) (s e : date) :
  to_date start = Ok s -> to_date end_ = Ok e ->
  date_ltb e s = true ->
  business_days bdate_range_len start end_ = Raise INVALID_SEGMENT_RANGE.
Proof.
  intros Hs He Hlt. unfold business_days. rewrite Hs, He. cbn [bind]. now rewrite Hlt.
Qed.

(** What [business_days] returns, in ordinals. *)
Lemma business_days_closed_form (start end_ : DateLike) (s e : date) :
  to_date start = Ok s -> to_date end_ = Ok e ->
  date_ok s = true -> date_ok e = true ->
  date_leb s e = true -> toordinal e < MAXORDINAL ->
  business_days bdate_range_len start end_
  = Ok (weekdays_from (toordinal s) (Z.to_nat (toordinal e - toordinal s + 1))).
Proof.
  intros Hs He Os Oe Hle Hmax.
  pose proof (date_ok_wf _ Os) as Ws. pose proof (date_ok_wf _ Oe) as We.
  unfold business_days. rewrite Hs, He. cbn [bind].
  assert (Hle' : toordinal s <= toordinal e) by now apply date_leb_toordinal.
  rewrite date_leb_ltb in Hle. apply negb_true_iff in Hle. rewrite Hle.
  apply date_ok_iff in Oe as Oe'.
  assert (Be : 1 <= toordinal e <= MAXORDINAL) by (apply date_ok_toordinal; tauto).
  destruct (proj1 (date_add_days_spec e 1 Oe)) as (e1 & -> & O1 & E1); [lia|].
  unfold busday_count, date_diff.
  rewrite count_weekdays_ordinals by assumption.
  replace (toordinal e1 - toordinal s) with (toordinal e - toordinal s + 1) by lia.
  reflexivity.
Qed.

(** On a range with [start <= end] that does not end on the last date of
    the calendar, [business_days] returns the number of Mondays to Fridays
    from [start] to [end], both included: between zero and the number of
    days of the range, and for a single day one or zero as the day is a
    weekday or not. *)
Theorem business_days_counts (start end_ : DateLike) (s e : date) :
  to_date start = Ok s -> to_date end_ = Ok e ->
  date_ok s = true -> date_ok e = true ->
  date_leb s e = true -> toordinal e < MAXORDINAL ->
  let n := weekdays_from (toordinal s) (Z.to_nat (toordinal e - toordinal s + 1)) in
  business_days bdate_range_len start end_ = Ok n
  /\ 0 <= n <= toordinal e - toordinal s + 1
  /\ (s = e -> n = if weekday s <? 5 then 1 else 0).
Proof.
  intros Hs He Os Oe Hle Hmax n.
  assert (Hle' : toordinal s <= toordinal e)
    by (apply date_leb_toordinal; auto using date_ok_wf).
  split; [now apply business_days_closed_form|]. split.
  - subst n. pose proof (weekdays_from_bounds (toordinal s)
                           (Z.to_nat (toordinal e - toordinal s + 1))). lia.
  - intros ->. subst n.
    replace (toordinal e - toordinal e + 1) with 1 by lia.
    change (Z.to_nat 1) with 1%nat. rewrite weekdays_from_succ.
    unfold weekdays_from, weekday. cbn [seq map fold_right].
    now rewrite Z.add_0_r.
Qed.

(** Ending the range seven days later adds five business days. *)
Theorem business_days_week_later (start : DateLike) (s e e' : date) (n : Z) :
  to_date start = Ok s ->
  date_ok s = true -> date_ok e = true ->
  date_leb s e = true ->
  date_add_days e 7 = Ok e' -> toordinal e' < MAXORDINAL ->
  business_days bdate_range_len start (DLdate e) = Ok n ->
  business_days bdate_range_len start (DLdate e') = Ok (n + 5).
Proof.
  intros Hs Os Oe Hle Hadd Hmax Hn.
  pose proof (date_ok_wf _ Os) as Ws. pose proof (date_ok_wf _ Oe) as We.
  apply date_ok_iff in Oe as Oe'.
  assert (Be : 1 <= toordinal e <= MAXORDINAL) by (apply date_ok_toordinal; tauto).
  assert (Hle' : toordinal s <= toordinal e) by now apply date_leb_toordinal.
  assert (He' : date_ok e' = true /\ toordinal e' = toordinal e + 7).
  { destruct (Z.le_gt_cases (toordinal e + 7) MAXORDINAL) as [L|G].
    - destruct (proj1 (date_add_days_spec e 7 Oe)) as (r & Hr & Or & Er); [lia|].
      rewrite Hadd in Hr. injection Hr as <-. auto.
    - rewrite (proj2 (date_add_days_spec e 7 Oe)) in Hadd by lia. discriminate. }
  destruct He' as [Oe1 Ee1].
  assert (Hle1 : date_leb s e' = true)
    by (apply date_leb_toordinal; auto using date_ok_wf; lia).
  rewrite (business_days_closed_form start (DLdate e) s e Hs eq_refl Os Oe Hle) in Hn
    by lia.
  rewrite (business_days_closed_form start (DLdate e') s e' Hs eq_refl Os Oe1 Hle1 Hmax).
  injection Hn as <-. f_equal.
  rewrite Ee1.
  replace (Z.to_nat (toordinal e + 7 - toordinal s + 1))
    with (Z.to_nat (toordinal e - toordinal s + 1) + 7)%nat by lia.
  rewrite weekdays_from_app, weekdays_from_week. reflexivity.
Qed.
End BusinessDaysFacts.

(** Monday the 7th to Friday the 11th of July 2025, and the week after. *)
Lemma business_days_counts_witness :
  let s := mkdate 2025 7 7 in
  let e := mkdate 2025 7 11 in
  let n := weekdays_from (toordinal s) (Z.to_nat (toordinal e - toordinal s + 1)) in
  business_days (fun _ _ => Ok 0) (DLdate s) (DLdate e) = Ok n
  /\ 0 <= n <= toordinal e - toordinal s + 1
  /\ (s = e -> n = if weekday s <? 5 then 1 else 0).
Proof.
  exact (business_days_counts (fun _ _ => Ok 0)
           (DLdate (mkdate 2025 7 7)) (DLdate (mkdate 2025 7 11))
           (mkdate 2025 7 7) (mkdate 2025 7 11)
           eq_refl eq_refl eq_refl eq_refl eq_refl eq_refl).
Defined.

Lemma business_days_week_later_witness :
  business_days (fun _ _ => Ok 0) (DLdate (mkdate 2025 7 7)) (DLdate (mkdate 2025 7 18))
  = Ok (5 + 5).
Proof.
  exact (business_days_week_later (fun _ _ => Ok 0)
           (DLdate (mkdate 2025 7 7)) (mkdate 2025 7 7) (mkdate 2025 7 11)
           (mkdate 2025 7 18) 5
           eq_refl eq_refl eq_refl eq_refl eq_refl eq_refl eq_refl).
Defined.

(** A working week, and a weekend. *)
Example business_days_examples :
  business_days (fun _ _ => Ok 0) (DLdate (mkdate 2025 7 7)) (DLdate (mkdate 2025 7 11))
  = Ok 5
  /\ business_days (fun _ _ => Ok 0) (DLdate (mkdate 2025 7 12)) (DLdate (mkdate 2025 7 13))
     = Ok 0.
Proof. split; reflexivity. Qed.

(** ** More on the edit history *)

(** Both stacks hold at most [HISTORY_LIMIT] snapshots in a new session,
    and after every history operation on a session where they do. *)
Theorem history_stays_bounded
    (state : AppState) (projects : ProjectsFrame) (segments : SegmentsFrame) :
  state_wf state ->
  state_wf (AppState_new projects segments)
  /\ state_wf (push_history state)
  /\ state_wf (update_data state projects segments)
  /\ (exists st n, undo state = Ok (st, n) /\ state_wf st)
  /\ (exists st n, redo state = Ok (st, n) /\ state_wf st).
Proof.
  intros W.
  split; [apply AppState_new_wf|].
  split; [now apply push_history_wf|].
  split; [now apply update_data_wf|].
  split.
  - destruct (undo_total state) as (st & n & E). exists st, n.
    split; [exact E | exact (undo_wf state st n W E)].
  - destruct (redo_total state) as (st & n & E). exists st, n.
    split; [exact E | exact (redo_wf state st n W E)].
Qed.

Lemma history_stays_bounded_witness :
  let state := update_data (AppState_new sample_projects sample_segments) [] [] in
  state_wf state
  /\ state_wf (AppState_new [] [])
  /\ state_wf (push_history state)
  /\ state_wf (update_data state [] [])
  /\ (exists st n, undo state = Ok (st, n) /\ state_wf st)
  /\ (exists st n, redo state = Ok (st, n) /\ state_wf st).
Proof.
  intros state.
  assert (W : state_wf state) by (apply update_data_wf, AppState_new_wf).
  split; [exact W|]. exact (history_stays_bounded state [] [] W).
Defined.

(** [push_history] adds the current tables at the recent end of the
    history; a history that already holds [HISTORY_LIMIT] snapshots loses
    its oldest one. *)
Theorem push_history_evicts_oldest (state : AppState) :
  state_wf state ->
  items (history (push_history state))
  = (if (length (items (history state)) =? HISTORY_LIMIT)%nat
     then tl (items (history state))
     else items (history state)) ++ [current_tables state].
Proof.
  intros (Hh & _ & Lh & _).
  destruct state as [p s fl se [hi hm] [fi fm]].
  cbn [history future items maxlen] in *. subst hm.
  unfold push_history, deque_append, current_tables, copy.
  cbn [history items maxlen projects_df segments_df].
  unfold Snapshot, ProjectsFrame, SegmentsFrame in *. rewrite length_app. cbn [length].
  destruct (Nat.eqb_spec (length hi) HISTORY_LIMIT) as [E|N].
  - replace (HISTORY_LIMIT <? length hi + 1)%nat with true
      by (symmetry; apply Nat.ltb_lt; lia).
    destruct hi as [|a l]; [discriminate E | reflexivity].
  - replace (HISTORY_LIMIT <? length hi + 1)%nat with false
      by (symmetry; apply Nat.ltb_ge; lia).
    reflexivity.
Qed.

Lemma push_history_evicts_oldest_witness :
  let state := AppState_new sample_projects sample_segments in
  state_wf state
  /\ items (history (push_history state))
     = (if (length (items (history state)) =? HISTORY_LIMIT)%nat
        then tl (items (history state))
        else items (history state)) ++ [current_tables state].
Proof.
  intros state. split; [apply AppState_new_wf|].
  exact (push_history_evicts_oldest state (AppState_new_wf _ _)).
Defined.

Lemma items_snoc {A : Type} (l : list A) (x : A) (r : list A) :
  rev l = x :: r -> l = rev r ++ [x].
Proof. intros H. rewrite <- (rev_involutive l), H. reflexivity. Qed.

(** [undo] and then [redo] give the session back as it was, when the
    history is not empty and the future has room for one more snapshot. *)
Theorem redo_undoes_undo (state : AppState) :
  state_wf state ->
  items (history state) <> [] ->
  (length (items (future state)) < HISTORY_LIMIT)%nat ->
  exists st1, undo state = Ok (st1, []) /\ redo st1 = Ok (state, []).
Proof.
  intros (Hh & Hf & Lh & Lf) Hne Hroom.
  destruct state as [p s fl se [hi hm] [fi fm]].
  cbn [history future items maxlen] in *. subst hm fm.
  unfold undo. cbn [history future projects_df segments_df filters settings].
  unfold deque_nonempty, deque_pop, deque_appendleft, copy. cbn [items maxlen].
  unfold Snapshot, ProjectsFrame, SegmentsFrame in *.
  destruct hi as [|h0 hi0]; [congruence|]. cbn [negb].
  destruct (rev (h0 :: hi0)) as [|[xp xs] r] eqn:R.
  { apply (f_equal (@length _)) in R. rewrite length_rev in R. discriminate. }
  apply items_snoc in R. cbn [bind].
  replace (HISTORY_LIMIT <? length ((p, s) :: fi))%nat with false
    by (symmetry; apply Nat.ltb_ge; cbn [length]; lia).
  eexists. split; [reflexivity|].
  unfold redo. cbn [history future projects_df segments_df filters settings].
  unfold deque_nonempty, deque_popleft, deque_append, copy. cbn [items maxlen negb bind].
  unfold Snapshot, ProjectsFrame, SegmentsFrame in *.
  replace (HISTORY_LIMIT <? length (rev r ++ [(xp, xs)]))%nat with false
    by (symmetry; apply Nat.ltb_ge; rewrite <- R; exact Lh).
  rewrite <- R. reflexivity.
Qed.

(** [redo] and then [undo] give the session back as it was, when the
    future is not empty and the history has room for one more snapshot. *)
Theorem undo_undoes_redo (state : AppState) :
  state_wf state ->
  items (future state) <> [] ->
  (length (items (history state)) < HISTORY_LIMIT)%nat ->
  exists st1, redo state = Ok (st1, []) /\ undo st1 = Ok (state, []).
Proof.
  intros (Hh & Hf & Lh & Lf) Hne Hroom.
  destruct state as [p s fl se [hi hm] [fi fm]].
  cbn [history future items maxlen] in *. subst hm fm.
  unfold redo. cbn [history future projects_df segments_df filters settings].
  unfold deque_nonempty, deque_popleft, deque_append, copy. cbn [items maxlen].
  unfold Snapshot, ProjectsFrame, SegmentsFrame in *.
  destruct fi as [|[xp xs] fi0]; [congruence|]. cbn [negb bind].
  replace (HISTORY_LIMIT <? length (hi ++ [(p, s)]))%nat with false
    by (symmetry; apply Nat.ltb_ge; rewrite length_app; cbn [length]; lia).
  eexists. split; [reflexivity|].
  unfold undo. cbn [history future projects_df segments_df filters settings].
  unfold deque_nonempty, deque_pop, deque_appendleft, copy. cbn [items maxlen].
  unfold Snapshot, ProjectsFrame, SegmentsFrame in *.
  destruct (hi ++ [(p, s)]) as [|a l] eqn:E; [now destruct hi|]. cbn [negb].
  rewrite <- E, rev_app_distr. cbn [rev app bind].
  replace (HISTORY_LIMIT <? length ((xp, xs) :: fi0))%nat with false
    by (symmetry; apply Nat.ltb_ge; exact Lf).
  rewrite rev_involutive. reflexivity.
Qed.

Lemma redo_undoes_undo_witness :
  let state := update_data (AppState_new sample_projects sample_segments) [] [] in
  state_wf state /\ items (history state) <> []
  /\ (length (items (future state)) < HISTORY_LIMIT)%nat
  /\ exists st1, undo state = Ok (st1, []) /\ redo st1 = Ok (state, []).
Proof.
  intros state.
  assert (W : state_wf state) by (apply update_data_wf, AppState_new_wf).
  assert (N : items (history state) <> []) by discriminate.
  assert (L : (length (items (future state)) < HISTORY_LIMIT)%nat)
    by (unfold HISTORY_LIMIT; cbn; lia).
  split; [exact W|]. split; [exact N|]. split; [exact L|].
  exact (redo_undoes_undo state W N L).
Defined.

Lemma undo_undoes_redo_witness :
  let state :=
    mkAppState [] [] [] DEFAULT_SETTINGS (deque_new HISTORY_LIMIT)
      (mkdeque [(sample_projects, sample_segments)] HISTORY_LIMIT) in
  state_wf state /\ items (future state) <> []
  /\ (length (items (history state)) < HISTORY_LIMIT)%nat
  /\ exists st1, redo state = Ok (st1, []) /\ undo st1 = Ok (state, []).
Proof.
  intros state.
  assert (W : state_wf state) by (unfold state_wf, HISTORY_LIMIT; cbn; repeat split; lia).
  assert (N : items (future state) <> []) by discriminate.
  assert (L : (length (items (history state)) < HISTORY_LIMIT)%nat)
    by (unfold HISTORY_LIMIT; cbn; lia).
  split; [exact W|]. split; [exact N|]. split; [exact L|].
  exact (undo_undoes_redo state W N L).
Defined.

Lemma undo_pops (state : AppState) (h : list Snapshot) (x : Snapshot) :
  items (history state) = h ++ [x] ->
  exists st, undo state = Ok (st, [])
             /\ current_tables st = x /\ items (history st) = h.
Proof.
  intros E. unfold undo, deque_nonempty, deque_pop.
  rewrite E, rev_app_distr. cbn [rev app].
  destruct (h ++ [x]) as [|a l] eqn:N; [now destruct h|]. cbn [negb bind].
  destruct x as [xp xs]. eexists. split; [reflexivity|].
  unfold current_tables. cbn [projects_df segments_df history items].
  now rewrite rev_involutive.
Qed.

(** Undoing once per snapshot above a snapshot of the history makes that
    snapshot current and leaves the older ones in the history; when there
    is none older, the next [undo] only shows its notice. *)
Theorem undo_times_reaches (newer : list Snapshot) :
  forall (state : AppState) (old : list Snapshot) (snapshot : Snapshot),
    items (history state) = old ++ snapshot :: newer ->
    exists st,
      undo_times (S (length newer)) state = Ok st
      /\ current_tables st = snapshot
      /\ items (history st) = old
      /\ (old = [] -> undo st = Ok (st, [Toast NOTHING_TO_UNDO])).
Proof.
  induction newer as [|x newer IH] using rev_ind; intros state old snapshot E.
  - destruct (undo_pops state old snapshot E) as (st & U & T & H).
    exists st. cbn [length undo_times]. rewrite U. cbn [bind fst].
    repeat split; auto.
    intros ->. unfold undo, deque_nonempty. now rewrite H.
  - assert (E' : items (history state) = (old ++ snapshot :: newer) ++ [x])
      by (rewrite E, <- app_assoc; reflexivity).
    destruct (undo_pops state _ x E') as (st1 & U & _ & H1).
    destruct (IH st1 old snapshot H1) as (st & R & T & H & N).
    exists st. rewrite length_app. cbn [length]. rewrite Nat.add_1_r.
    change (undo_times (S (S (length newer))) state)
      with (r <- undo state ;; undo_times (S (length newer)) (fst r)).
    rewrite U. cbn [bind fst]. auto.
Qed.

Lemma undo_times_reaches_witness :
  let state :=
    update_data (update_data (AppState_new sample_projects sample_segments) [] [])
      tie_projects tie_segments in
  items (history state) = [] ++ (sample_projects, sample_segments) :: [([], [])]
  /\ exists st,
       undo_times 2 state = Ok st
       /\ current_tables st = (sample_projects, sample_segments)
       /\ items (history st) = []
       /\ (@nil Snapshot = [] -> undo st = Ok (st, [Toast NOTHING_TO_UNDO])).
Proof.
  intros state. split; [reflexivity|].
  exact (undo_times_reaches [([], [])] state [] (sample_projects, sample_segments)
           eq_refl).
Defined.

(** ** More on the timeline frame *)

Lemma dt_leb_refl (a : datetime) : dt_leb a a = true.
Proof. unfold dt_leb. now rewrite (ord_refl _ dt_compare_order). Qed.

Lemma dt_leb_trans (a b c : datetime) :
  dt_leb a b = true -> dt_leb b c = true -> dt_leb a c = true.
Proof.
  destruct dt_compare_order as [oeq orefl oanti otrans].
  unfold dt_leb. intros Hab Hbc.
  destruct (dt_compare a b) eqn:Eab; [| |discriminate].
  - apply oeq in Eab. now subst b.
  - destruct (dt_compare b c) eqn:Ebc; [| |discriminate].
    + apply oeq in Ebc. subst c. now rewrite Eab.
    + now rewrite (otrans _ _ _ Eab Ebc).
Qed.

Lemma dt_geb_leb (a b : datetime) : dt_geb a b = dt_leb b a.
Proof.
  unfold dt_geb, dt_leb. rewrite (ord_antisym _ dt_compare_order b a).
  now destruct (dt_compare a b).
Qed.

Lemma dt_ltb_leb (a b : datetime) : dt_ltb a b = negb (dt_leb b a).
Proof.
  unfold dt_ltb, dt_leb. rewrite (ord_antisym _ dt_compare_order b a).
  now destruct (dt_compare a b).
Qed.

Lemma dt_gtb_leb (a b : datetime) : dt_gtb a b = negb (dt_leb a b).
Proof. unfold dt_gtb, dt_leb. now destruct (dt_compare a b). Qed.

Lemma dt_leb_total (a b : datetime) : dt_leb a b = false -> dt_leb b a = true.
Proof.
  unfold dt_leb. rewrite (ord_antisym _ dt_compare_order b a).
  now destruct (dt_compare a b).
Qed.

(** Clipping at the lower bound gives the later of the two instants, and
    clipping at the upper bound the earlier. *)
Lemma clip_lower_spec (lower x : datetime) :
  exists a, clip_lower lower (Some x) = Some a
            /\ dt_leb lower a = true /\ dt_leb x a = true /\ (a = x \/ a = lower).
Proof.
  unfold clip_lower, option_map. rewrite dt_ltb_leb.
  destruct (dt_leb lower x) eqn:E; cbn [negb]; eexists; (split; [reflexivity|]).
  - auto using dt_leb_refl.
  - auto using dt_leb_refl, dt_leb_total.
Qed.

Lemma clip_upper_spec (upper y : datetime) :
  exists b, clip_upper upper (Some y) = Some b
            /\ dt_leb b upper = true /\ dt_leb b y = true /\ (b = y \/ b = upper).
Proof.
  unfold clip_upper, option_map. rewrite dt_gtb_leb.
  destruct (dt_leb y upper) eqn:E; cbn [negb]; eexists; (split; [reflexivity|]).
  - auto using dt_leb_refl.
  - auto using dt_leb_refl, dt_leb_total.
Qed.

(** The columns of a row of [merged]. *)
Lemma merged_rows_columns (projects : ProjectsFrame) (segments : SegmentsFrame)
    (view_start view_end : datetime) (m : Merged.t) :
  In m (merged_rows projects segments view_start view_end) ->
  Merged.color m = fillna DEFAULT_COLOR (project_column Project.color (Merged.project m))
  /\ Merged.start m
     = clip_lower view_start (project_column Project.start_date (Merged.project m))
  /\ Merged.end_ m
     = clip_upper view_end (project_column Project.end_date (Merged.project m)).
Proof.
  unfold merged_rows. rewrite in_map_iff. intros ([i [s p]] & <- & _).
  cbn. auto.
Qed.

Lemma number_rows_merged (l : list Merged.t) :
  forall seen, map Row.merged (number_rows seen l) = l.
Proof.
  unfold number_rows. induction l as [|x l IH]; intros seen; cbn; [reflexivity|].
  f_equal. apply IH.
Qed.

Lemma number_rows_display_name (l : list Merged.t) (seen : list string) (r : Row.t) :
  In r (number_rows seen l) -> Row.display_name r = make_display_name (Row.merged r).
Proof.
  unfold number_rows. rewrite in_map_iff. intros ([m n] & <- & _). reflexivity.
Qed.

(** Every row of the frame lies in the window: its [start] and [end] are
    instants between [view_start] and [view_end], the project's own start
    and end moved into the window; and they are in order when the
    project's dates and the window are. *)
Theorem rows_lie_in_window
    (projects : ProjectsFrame) (segments : SegmentsFrame)
    (view_start view_end : datetime) (r : Row.t) :
  In r (build_gantt_dataframe projects segments view_start view_end) ->
  exists p x y a b,
    Row.project r = Some p
    /\ Project.start_date p = Some x /\ Project.end_date p = Some y
    /\ Row.start r = Some a /\ Row.end_ r = Some b
    /\ (a = x \/ a = view_start) /\ (b = y \/ b = view_end)
    /\ dt_leb view_start a = true /\ dt_leb a view_end = true
    /\ dt_leb view_start b = true /\ dt_leb b view_end = true
    /\ (dt_leb x y = true -> dt_leb view_start view_end = true -> dt_leb a b = true).
Proof.
  intros H. apply build_gantt_dataframe_In in H as [Hin Hw].
  apply merged_rows_columns in Hin as (_ & Hs & He).
  unfold Row.project, Row.start, Row.end_.
  unfold in_window in Hw. rewrite Hs, He in Hw.
  destruct (Merged.project (Row.merged r)) as [p|]; [|discriminate].
  cbn [project_column] in *.
  destruct (Project.start_date p) as [x|] eqn:Px;
    [|rewrite andb_false_r in Hw; discriminate].
  destruct (Project.end_date p) as [y|] eqn:Py; [|discriminate].
  destruct (clip_lower_spec view_start x) as (a & Ea & La & Lxa & Ca).
  destruct (clip_upper_spec view_end y) as (b & Eb & Lb & Lby & Cb).
  rewrite Ea, Eb in Hw. cbn [ts_geb ts_leb] in Hw.
  apply andb_true_iff in Hw as [Hw1 Hw2]. rewrite dt_geb_leb in Hw1.
  exists p, x, y, a, b.
  rewrite Hs, He, Ea, Eb.
  assert (Hab : dt_leb x y = true -> dt_leb view_start view_end = true ->
                dt_leb a b = true).
  { intros Hxy Hv. destruct Ca as [->| ->], Cb as [->| ->]; auto. }
  repeat split; auto.
Qed.

Lemma rows_lie_in_window_witness :
  let out := build_gantt_dataframe sample_projects sample_segments
               sample_view_start sample_view_end in
  let r := nth 0 out blank_row in
  In r out
  /\ exists p x y a b,
       Row.project r = Some p
       /\ Project.start_date p = Some x /\ Project.end_date p = Some y
       /\ Row.start r = Some a /\ Row.end_ r = Some b
       /\ (a = x \/ a = sample_view_start) /\ (b = y \/ b = sample_view_end)
       /\ dt_leb sample_view_start a = true /\ dt_leb a sample_view_end = true
       /\ dt_leb sample_view_start b = true /\ dt_leb b sample_view_end = true
       /\ (dt_leb x y = true -> dt_leb sample_view_start sample_view_end = true ->
           dt_leb a b = true).
Proof.
  intros out r.
  assert (H : In r out) by (left; reflexivity).
  split; [exact H|].
  exact (rows_lie_in_window sample_projects sample_segments
           sample_view_start sample_view_end r H).
Defined.

Lemma merge_left_complete (segments : SegmentsFrame) (projects : ProjectsFrame)
    (s : Segment.t) (p : Project.t) :
  In s segments -> In p projects -> Project.id p = Segment.project_id s ->
  In (s, Some p) (merge_left segments projects).
Proof.
  intros Hs Hp E. unfold merge_left. apply in_flat_map. exists s. split; [exact Hs|].
  assert (Hin : In p (filter (fun p0 => String.eqb (Project.id p0) (Segment.project_id s))
                        projects)).
  { apply filter_In. split; [exact Hp|]. now apply String.eqb_eq. }
  destruct (filter (fun p0 => String.eqb (Project.id p0) (Segment.project_id s)) projects)
    as [|q qs]; [destruct Hin|].
  apply in_map_iff. exists p. auto.
Qed.

Lemma combine_seq_complete {A : Type} (l : list A) (k i : nat) (x : A) :
  nth_error l i = Some x -> In ((k + i)%nat, x) (combine (seq k (length l)) l).
Proof.
  revert k i. induction l as [|a l IH]; intros k [|i]; cbn; try discriminate.
  - intros [= ->]. left. f_equal. lia.
  - intros H. right. replace (k + S i)%nat with (S k + i)%nat by lia. now apply IH.
Qed.

Lemma range_index_complete {A : Type} (l : list A) (x : A) :
  In x l -> exists i, In (i, x) (range_index l).
Proof.
  intros H. apply In_nth_error in H as [i H]. exists i.
  apply (combine_seq_complete l 0 i x H).
Qed.

(** The row of a segment whose project meets the window. *)
Lemma visible_segment_row
    (projects : ProjectsFrame) (segments : SegmentsFrame)
    (view_start view_end : datetime) (s : Segment.t) (p : Project.t) (x y : datetime) :
  In s segments -> In p projects ->
  Project.id p = Segment.project_id s ->
  Project.start_date p = Some x -> Project.end_date p = Some y ->
  dt_leb view_start view_end = true ->
  dt_leb x view_end = true -> dt_leb view_start y = true ->
  exists r,
    In r (build_gantt_dataframe projects segments view_start view_end)
    /\ Row.segment r = s /\ Row.project r = Some p.
Proof.
  intros Hs Hp E Px Py Hv Hx Hy.
  pose proof (merge_left_complete segments projects s p Hs Hp E) as Hm.
  apply range_index_complete in Hm as [i Hi].
  set (m := Merged.mk i s (Some p)
              (fillna DEFAULT_COLOR (project_column Project.color (Some p)))
              (clip_lower view_start (to_datetime (project_column Project.start_date (Some p))))
              (clip_upper view_end (to_datetime (project_column Project.end_date (Some p))))).
  assert (Hin : In m (merged_rows projects segments view_start view_end)).
  { unfold merged_rows. apply in_map_iff. exists (i, (s, Some p)). auto. }
  assert (Hw : in_window view_start view_end m = true).
  { unfold in_window, m. cbn [Merged.start Merged.end_ project_column to_datetime].
    rewrite Px, Py.
    destruct (clip_lower_spec view_start x) as (a & -> & La & Lxa & [->| ->]);
      destruct (clip_upper_spec view_end y) as (b & -> & Lb & Lby & [->| ->]);
      cbn [ts_geb ts_leb]; rewrite dt_geb_leb; apply andb_true_iff; auto. }
  assert (Hsorted : In m (sort_values (filter (in_window view_start view_end)
                                         (merged_rows projects segments
                                            view_start view_end)))).
  { rewrite sort_values_In, filter_In. auto. }
  rewrite build_gantt_dataframe_steps.
  rewrite <- (number_rows_merged _ []) in Hsorted.
  apply in_map_iff in Hsorted as (r & Er & Hr).
  exists r. split; [exact Hr|].
  unfold Row.segment, Row.project. rewrite Er. auto.
Qed.

(** A segment is drawn when its project is in the projects table and the
    project's own dates meet the window; the dates of the segment itself
    play no part. *)
Theorem segment_of_visible_project_is_rendered
    (projects : ProjectsFrame) (segments : SegmentsFrame)
    (view_start view_end : datetime) (s : Segment.t) (p : Project.t) (x y : datetime) :
  In s segments -> In p projects ->
  Project.id p = Segment.project_id s ->
  Project.start_date p = Some x -> Project.end_date p = Some y ->
  dt_leb view_start view_end = true ->
  dt_leb x view_end = true -> dt_leb view_start y = true ->
  exists r,
    In r (build_gantt_dataframe projects segments view_start view_end)
    /\ Row.segment r = s /\ Row.project r = Some p.
Proof.
  exact (visible_segment_row projects segments view_start view_end s p x y).
Qed.

Lemma segment_of_visible_project_is_rendered_witness :
  let s := sample_segment "1-main" "1" (mkdate 2025 9 1) (mkdate 2025 10 31) in
  let p := sample_project "1" (mkdate 2025 9 1) (mkdate 2025 10 31) in
  exists r,
    In r (build_gantt_dataframe sample_projects sample_segments
            sample_view_start sample_view_end)
    /\ Row.segment r = s /\ Row.project r = Some p.
Proof.
  intros s p.
  apply (segment_of_visible_project_is_rendered sample_projects sample_segments
           sample_view_start sample_view_end s p
           (datetime_combine (mkdate 2025 9 1) time_min)
           (datetime_combine (mkdate 2025 10 31) time_min));
    try reflexivity.
  - left. reflexivity.
  - right. left. reflexivity.
Defined.

(** [cumcount] numbers the rows of one group from the occurrences seen
    so far. *)
Lemma number_rows_ordinals (pid : string) (l : list Merged.t) :
  forall seen,
    map Row.row (filter (fun r => String.eqb (Row.project_id r) pid) (number_rows seen l))
    = seq (count_occ string_dec seen pid)
        (length (filter (fun m => String.eqb (Merged.project_id m) pid) l)).
Proof.
  unfold number_rows. induction l as [|x l IH]; intros seen; [reflexivity|].
  cbn [cumcount combine map filter]. unfold Row.project_id at 1. cbn [Row.merged].
  destruct (String.eqb_spec (Merged.project_id x) pid) as [E|N].
  - cbn [map length seq Row.row]. f_equal; [now rewrite E|].
    rewrite IH. cbn [count_occ].
    destruct (string_dec (Merged.project_id x) pid); [reflexivity | contradiction].
  - rewrite IH. cbn [count_occ].
    destruct (string_dec (Merged.project_id x) pid); [contradiction | reflexivity].
Qed.

(** The ordinals of the rows of one project, in the order of the frame,
    are 0, 1, 2, and so on without a gap. *)
Theorem row_ordinals_are_contiguous
    (projects : ProjectsFrame) (segments : SegmentsFrame)
    (view_start view_end : datetime) (pid : string) :
  let rows :=
    filter (fun r => String.eqb (Row.project_id r) pid)
      (build_gantt_dataframe projects segments view_start view_end) in
  map Row.row rows = seq 0 (length rows).
Proof.
  cbv zeta. rewrite build_gantt_dataframe_steps.
  rewrite <- (length_map Row.row), number_rows_ordinals. cbn [count_occ].
  now rewrite length_seq.
Qed.

(** Every row carries the name of its project, a separator and the label
    of its segment as display name, and the colour of its project, the
    default colour standing in for a missing one only. *)
Theorem rows_are_labelled
    (projects : ProjectsFrame) (segments : SegmentsFrame)
    (view_start view_end : datetime) (r : Row.t) :
  In r (build_gantt_dataframe projects segments view_start view_end) ->
  exists p,
    Row.project r = Some p
    /\ Row.display_name r
       = Some (Project.name p ++ " / " ++ Segment.label (Row.segment r))%string
    /\ Merged.color (Row.merged r) = fillna DEFAULT_COLOR (Project.color p).
Proof.
  intros H.
  destruct (row_has_project _ _ _ _ _ H) as (_ & p & Hp & _ & _).
  pose proof H as H'. apply build_gantt_dataframe_In in H' as [Hin _].
  apply merged_rows_columns in Hin as (Hc & _ & _).
  rewrite build_gantt_dataframe_steps in H.
  apply number_rows_display_name in H.
  exists p. split; [exact Hp|]. unfold Row.project in Hp.
  split.
  - rewrite H. unfold make_display_name. rewrite Hp. reflexivity.
  - rewrite Hc, Hp. reflexivity.
Qed.

Lemma rows_are_labelled_witness :
  let out := build_gantt_dataframe sample_projects sample_segments
               sample_view_start sample_view_end in
  let r := nth 0 out blank_row in
  In r out
  /\ exists p,
       Row.project r = Some p
       /\ Row.display_name r
          = Some (Project.name p ++ " / " ++ Segment.label (Row.segment r))%string
       /\ Merged.color (Row.merged r) = fillna DEFAULT_COLOR (Project.color p).
Proof.
  intros out r.
  assert (H : In r out) by (left; reflexivity).
  split; [exact H|].
  exact (rows_are_labelled sample_projects sample_segments
           sample_view_start sample_view_end r H).
Defined.

Lemma insert_row_perm (x : Merged.t) (l : list Merged.t) :
  Permutation (insert_row x l) (x :: l).
Proof.
  induction l as [|y l IH]; cbn [insert_row]; [reflexivity|].
  destruct (sort_key_leb x y); [reflexivity|].
  rewrite IH. apply perm_swap.
Qed.

Lemma sort_values_perm (l : list Merged.t) : Permutation (sort_values l) l.
Proof.
  induction l as [|x l IH]; [reflexivity|].
  change (sort_values (x :: l)) with (insert_row x (sort_values l)).
  rewrite insert_row_perm. now apply perm_skip.
Qed.

Lemma StronglySorted_NoDup {A : Type} (f : A -> nat) (l : list A) :
  StronglySorted (fun a b => (f a < f b)%nat) l -> NoDup (map f l).
Proof.
  induction 1 as [|a l _ IH Hall]; cbn [map]; constructor; auto.
  rewrite Forall_forall in Hall. intros Hin.
  apply in_map_iff in Hin as (b & E & Hb). specialize (Hall b Hb). lia.
Qed.

(** The sort keeps every row: the frame is the rows of [merged] inside
    the window, each once. No index label occurs twice, and with unique
    project ids the frame has at most one row per segment. *)
Theorem rows_are_distinct
    (projects : ProjectsFrame) (segments : SegmentsFrame)
    (view_start view_end : datetime) :
  let out := build_gantt_dataframe projects segments view_start view_end in
  Permutation (map Row.merged out)
    (filter (in_window view_start view_end)
       (merged_rows projects segments view_start view_end))
  /\ NoDup (map Row.index out)
  /\ (NoDup (map Project.id projects) -> (length out <= length segments)%nat).
Proof.
  cbv zeta. rewrite build_gantt_dataframe_steps.
  set (visible := filter (in_window view_start view_end)
                    (merged_rows projects segments view_start view_end)).
  assert (P : Permutation (map Row.merged (number_rows [] (sort_values visible))) visible).
  { rewrite number_rows_merged. apply sort_values_perm. }
  split; [exact P|]. split.
  - unfold Row.index.
    rewrite <- (map_map Row.merged Merged.index).
    apply (Permutation_NoDup (l := map Merged.index visible)).
    + symmetry. now apply Permutation_map.
    + apply StronglySorted_NoDup, StronglySorted_filter, merged_rows_sorted.
  - intros Hnd. apply Permutation_length in P. rewrite length_map in P. rewrite P.
    subst visible.
    pose proof (filter_length_le (in_window view_start view_end)
                  (merged_rows projects segments view_start view_end)) as L.
    assert (Lm : length (merged_rows projects segments view_start view_end)
                 = length segments).
    { unfold merged_rows, range_index.
      rewrite length_map, length_combine, length_seq, Nat.min_id.
      rewrite <- (merge_left_unique_ids segments projects Hnd) at 2.
      now rewrite length_map. }
    lia.
Qed.

Lemma rows_are_distinct_witness :
  let out := build_gantt_dataframe tie_projects tie_segments
               sample_view_start sample_view_end in
  NoDup (map Project.id tie_projects)
  /\ Permutation (map Row.merged out)
       (filter (in_window sample_view_start sample_view_end)
          (merged_rows tie_projects tie_segments sample_view_start sample_view_end))
  /\ NoDup (map Row.index out)
  /\ (length out <= length tie_segments)%nat.
Proof.
  intros out.
  assert (H : NoDup (map Project.id tie_projects)).
  { constructor; [intros [] | constructor]. }
  destruct (rows_are_distinct tie_projects tie_segments
              sample_view_start sample_view_end) as (A & B & C).
  split; [exact H|]. split; [exact A|]. split; [exact B | exact (C H)].
Defined.

(** ** Generated segments *)

Lemma list_ascii_of_string_append (a b : string) :
  list_ascii_of_string (a ++ b) = list_ascii_of_string a ++ list_ascii_of_string b.
Proof. induction a as [|c a IH]; cbn; [reflexivity | now rewrite IH]. Qed.

Lemma string_append_inj_l (a b s : string) : (a ++ s = b ++ s)%string -> a = b.
Proof.
  intros H. apply (f_equal list_ascii_of_string) in H.
  rewrite !list_ascii_of_string_append in H. apply app_inv_tail in H.
  rewrite <- (string_of_list_ascii_of_string a), <- (string_of_list_ascii_of_string b).
  now rewrite H.
Qed.

Lemma string_of_nat_inj (n m : nat) : string_of_nat n = string_of_nat m -> n = m.
Proof.
  assert (N : forall k, Nat.to_uint k <> Decimal.Nil).
  { intros k. rewrite <- (Unsigned.of_to k) at 1. rewrite Unsigned.to_of.
    apply DecimalFacts.unorm_nonnil. }
  unfold string_of_nat. intros H.
  apply (f_equal NilZero.uint_of_string) in H.
  rewrite !NilZero.usu in H by apply N.
  injection H as H. now apply Unsigned.to_uint_inj.
Qed.

(** No id of an extra segment is the id of a main segment. *)
Lemma extra_id_not_main (e : Segment.t) (a : string) :
  In e (flat_map extra_segments_of EXTRA_SEGMENTS) ->
  Segment.segment_id e <> (a ++ "-main")%string.
Proof.
  intros Hin E.
  apply (f_equal (fun s => rev (list_ascii_of_string s))) in E.
  rewrite list_ascii_of_string_append, rev_app_distr in E.
  cbn in Hin.
  repeat (destruct Hin as [<-|Hin]; [cbn in E; discriminate E|]).
  destruct Hin.
Qed.

Lemma drop_duplicates_last_In (l : list Segment.t) (x : Segment.t) :
  In x (drop_duplicates_last l) -> In x l.
Proof.
  induction l as [|y l IH]; cbn [drop_duplicates_last]; [tauto|].
  destruct (existsb _ l); cbn [In]; intuition.
Qed.

Lemma drop_duplicates_last_NoDup (l : list Segment.t) :
  NoDup (map Segment.segment_id (drop_duplicates_last l)).
Proof.
  induction l as [|y l IH]; cbn [drop_duplicates_last]; [constructor|].
  destruct (existsb (fun z => String.eqb (Segment.segment_id z) (Segment.segment_id y)) l)
    eqn:E; [exact IH|].
  cbn [map]. constructor; [|exact IH].
  intros Hin. apply in_map_iff in Hin as (z & Ez & Hz).
  apply drop_duplicates_last_In in Hz.
  assert (T : existsb (fun z => String.eqb (Segment.segment_id z) (Segment.segment_id y)) l
              = true).
  { apply existsb_exists. exists z. split; [exact Hz|]. now apply String.eqb_eq. }
  congruence.
Qed.

Lemma drop_duplicates_last_keeps (l1 l2 : list Segment.t) (x : Segment.t) :
  Forall (fun y => Segment.segment_id y <> Segment.segment_id x) l2 ->
  In x (drop_duplicates_last (l1 ++ x :: l2)).
Proof.
  intros Hlater. induction l1 as [|a l1 IH]; cbn [app drop_duplicates_last].
  - destruct (existsb (fun y => String.eqb (Segment.segment_id y) (Segment.segment_id x)) l2)
      eqn:E; [|now left].
    apply existsb_exists in E as (y & Hy & Ey). apply String.eqb_eq in Ey.
    rewrite Forall_forall in Hlater. now destruct (Hlater y Hy).
  - destruct (existsb _ (l1 ++ x :: l2)); [exact IH | now right].
Qed.

Lemma drop_duplicates_last_ids (l : list Segment.t) (x : Segment.t) :
  In x l ->
  exists y, In y (drop_duplicates_last l) /\ Segment.segment_id y = Segment.segment_id x.
Proof.
  revert x. induction l as [|a l IH]; intros x; cbn [drop_duplicates_last]; [intros []|].
  intros [->|Hx].
  - destruct (existsb (fun y => String.eqb (Segment.segment_id y) (Segment.segment_id x)) l)
      eqn:E.
    + apply existsb_exists in E as (y & Hy & Ey). apply String.eqb_eq in Ey.
      destruct (IH y Hy) as (z & Hz & Ez). exists z. split; [exact Hz | congruence].
    + exists x. split; [now left | reflexivity].
  - destruct (IH x Hx) as (z & Hz & Ez).
    destruct (existsb _ l); exists z; (split; [|exact Ez]); [exact Hz | now right].
Qed.

(** The segment with the main id of a project names that project. *)
Lemma main_id_names_project (projects : ProjectsFrame) (p : Project.t) (y : Segment.t) :
  In y (map main_segment projects ++ flat_map extra_segments_of EXTRA_SEGMENTS) ->
  Segment.segment_id y = (Project.id p ++ "-main")%string ->
  Segment.project_id y = Project.id p.
Proof.
  intros Hy E. apply in_app_or in Hy as [Hy|Hy].
  - apply in_map_iff in Hy as (q & <- & _). cbn in *.
    now apply string_append_inj_l in E.
  - now apply extra_id_not_main with (a := Project.id p) in Hy.
Qed.

(** With unique project ids no later row takes the place of a main
    segment. *)
Lemma main_segment_kept (projects : ProjectsFrame) (p : Project.t) :
  NoDup (map Project.id projects) -> In p projects ->
  In (main_segment p) (build_segments projects).
Proof.
  intros Hnd Hp. unfold build_segments. cbv zeta.
  apply in_split in Hp as (l1 & l2 & ->).
  rewrite map_app. cbn [map]. rewrite <- app_assoc. cbn [app].
  apply drop_duplicates_last_keeps.
  apply Forall_forall. intros y Hy E.
  apply in_app_or in Hy as [Hy|Hy].
  - apply in_map_iff in Hy as (q & <- & Hq). cbn in E.
    apply string_append_inj_l in E.
    rewrite map_app in Hnd. cbn [map] in Hnd.
    apply NoDup_remove_2 in Hnd. apply Hnd.
    apply in_or_app. right. rewrite <- E. now apply in_map.
  - now apply extra_id_not_main with (a := Project.id p) in Hy.
Qed.

(** [_build_segments] returns segments with pairwise different ids, among
    them one with the main id of every project, which names that project;
    when the project ids are unique it is the main segment of the project,
    with the project's own dates. *)
Theorem build_segments_covers_projects (projects : ProjectsFrame) (p : Project.t) :
  In p projects ->
  NoDup (map Segment.segment_id (build_segments projects))
  /\ (exists s, In s (build_segments projects)
                /\ Segment.segment_id s = (Project.id p ++ "-main")%string
                /\ Segment.project_id s = Project.id p)
  /\ (NoDup (map Project.id projects) -> In (main_segment p) (build_segments projects)).
Proof.
  intros Hp. unfold build_segments. cbv zeta.
  split; [apply drop_duplicates_last_NoDup|]. split.
  - assert (Hin : In (main_segment p)
                    (map main_segment projects
                     ++ flat_map extra_segments_of EXTRA_SEGMENTS))
      by (apply in_or_app; left; now apply in_map).
    destruct (drop_duplicates_last_ids _ _ Hin) as (y & Hy & Ey).
    exists y. split; [exact Hy|]. split; [exact Ey|].
    apply drop_duplicates_last_In in Hy.
    exact (main_id_names_project projects p y Hy Ey).
  - intros Hnd. now apply main_segment_kept.
Qed.

Lemma build_segments_covers_projects_witness :
  let p := sample_project "1" (mkdate 2025 9 1) (mkdate 2025 10 31) in
  In p sample_projects
  /\ NoDup (map Project.id sample_projects)
  /\ NoDup (map Segment.segment_id (build_segments sample_projects))
  /\ (exists s, In s (build_segments sample_projects)
                /\ Segment.segment_id s = (Project.id p ++ "-main")%string
                /\ Segment.project_id s = Project.id p)
  /\ In (main_segment p) (build_segments sample_projects).
Proof.
  intros p.
  assert (H : In p sample_projects) by (right; left; reflexivity).
  assert (N : NoDup (map Project.id sample_projects)).
  { repeat constructor; cbn; intuition discriminate. }
  destruct (build_segments_covers_projects sample_projects p H) as (A & B & C).
  split; [exact H|]. split; [exact N|]. split; [exact A|]. split; [exact B | exact (C N)].
Defined.

(** With the segments of [_build_segments], every project with unique id
    whose own dates meet the window has a row in the frame, that of its
    main segment: this is how a project without segments of its own still
    gets its bar. *)
Theorem project_is_rendered_through_main_segment
    (projects : ProjectsFrame) (view_start view_end : datetime)
    (p : Project.t) (x y : datetime) :
  NoDup (map Project.id projects) -> In p projects ->
  Project.start_date p = Some x -> Project.end_date p = Some y ->
  dt_leb view_start view_end = true ->
  dt_leb x view_end = true -> dt_leb view_start y = true ->
  exists r,
    In r (build_gantt_dataframe projects (build_segments projects) view_start view_end)
    /\ Row.segment r = main_segment p /\ Row.project r = Some p.
Proof.
  intros Hnd Hp Px Py Hv Hx Hy.
  apply (visible_segment_row projects (build_segments projects) view_start view_end
           (main_segment p) p x y); auto.
  now apply main_segment_kept.
Qed.

Lemma project_is_rendered_through_main_segment_witness :
  let p := sample_project "0" (mkdate 2025 7 1) (mkdate 2025 8 31) in
  exists r,
    In r (build_gantt_dataframe sample_projects (build_segments sample_projects)
            sample_view_start sample_view_end)
    /\ Row.segment r = main_segment p /\ Row.project r = Some p.
Proof.
  intros p.
  apply (project_is_rendered_through_main_segment sample_projects
           sample_view_start sample_view_end p
           (datetime_combine (mkdate 2025 7 1) time_min)
           (datetime_combine (mkdate 2025 8 31) time_min));
    try reflexivity.
  - repeat constructor; cbn; intuition discriminate.
  - left. reflexivity.
Defined.

Lemma range_index_fst {A : Type} (l : list A) :
  map fst (range_index l) = seq 0 (length l).
Proof.
  unfold range_index. generalize 0%nat.
  induction l as [|a l IH]; intros k; cbn; [reflexivity|]. now rewrite IH.
Qed.

Lemma range_index_snd {A : Type} (l : list A) : map snd (range_index l) = l.
Proof.
  unfold range_index. generalize 0%nat.
  induction l as [|a l IH]; intros k; cbn; [reflexivity|]. now rewrite IH.
Qed.

Lemma index_strings_NoDup (n : nat) : NoDup (map string_of_nat (seq 0 n)).
Proof.
  apply NoDup_map_NoDup_ForallPairs; [|apply seq_NoDup].
  intros x y _ _. apply string_of_nat_inj.
Qed.

(** After an import every project has exactly one segment, at its own
    position, which names it and has its dates; the project ids and the
    segment ids are pairwise different. *)
Theorem import_tables_are_consistent (state : AppState) (df : ProjectsFrame) :
  let st := import_tables state df in
  length (projects_df st) = length df
  /\ map Segment.project_id (segments_df st) = map Project.id (projects_df st)
  /\ map Segment.start_date (segments_df st) = map Project.start_date df
  /\ map Segment.end_date (segments_df st) = map Project.end_date df
  /\ NoDup (map Project.id (projects_df st))
  /\ NoDup (map Segment.segment_id (segments_df st)).
Proof.
  cbv zeta. unfold import_tables, update_data. cbn [projects_df segments_df].
  unfold assign_ids, generate_segments.
  assert (Eid : map Project.id
                  (map (fun '(i, p) =>
                          Project.mk (string_of_nat i) (Project.name p) (Project.client p)
                            (Project.site p) (Project.work_type p) (Project.owner p)
                            (Project.progress p) (Project.start_date p)
                            (Project.end_date p) (Project.note p) (Project.color p))
                     (range_index df))
                = map string_of_nat (seq 0 (length df))).
  { rewrite <- range_index_fst, !map_map. apply map_ext. now intros [i p]. }
  split; [now rewrite length_map, <- (length_map snd), range_index_snd|].
  split; [rewrite Eid, <- range_index_fst, !map_map; apply map_ext; now intros [i p]|].
  split; [rewrite <- (range_index_snd df) at 2; rewrite !map_map; apply map_ext;
          now intros [i p]|].
  split; [rewrite <- (range_index_snd df) at 2; rewrite !map_map; apply map_ext;
          now intros [i p]|].
  split; [rewrite Eid; apply index_strings_NoDup|].
  replace (map Segment.segment_id
             (map (fun '(i, p) =>
                     Segment.mk (string_of_nat i ++ "-main") (string_of_nat i) IMPORT_LABEL
                       (Project.start_date p) (Project.end_date p))
                (range_index df)))
    with (map (fun s => (s ++ "-main")%string) (map string_of_nat (seq 0 (length df)))).
  - apply NoDup_map_NoDup_ForallPairs; [|apply index_strings_NoDup].
    intros x y _ _. apply string_append_inj_l.
  - rewrite <- range_index_fst, !map_map. apply map_ext. now intros [i p].
Qed.

(** ** The segment editor *)

Lemma list_index_total (x : string) (options : list string) :
  In x options -> exists i, list_index x options = Ok i.
Proof.
  induction options as [|o rest IH]; [intros []|].
  cbn [list_index]. destruct (String.eqb_spec o x) as [E|N]; [eauto|].
  intros [E|H]; [contradiction|]. destruct (IH H) as [i ->]. cbn [bind]. eauto.
Qed.

Lemma list_index_missing (x : string) (options : list string) :
  ~ In x options -> list_index x options = Raise (ValueError "is not in list").
Proof.
  induction options as [|o rest IH]; [reflexivity|].
  cbn [list_index In]. intros N.
  destruct (String.eqb_spec o x) as [E|_]; [tauto|].
  rewrite IH by tauto. reflexivity.
Qed.

Lemma deque_append_last {A : Type} (x : A) (d : deque A) :
  (1 <= maxlen d)%nat ->
  items (deque_append x d) = removelast (items (deque_append x d)) ++ [x].
Proof.
  intros Hmax. unfold deque_append. cbv zeta. cbn [items].
  destruct (maxlen d <? length (items d ++ [x]))%nat eqn:T.
  - destruct (items d) as [|a l].
    + apply Nat.ltb_lt in T. cbn [app List.length] in T. lia.
    + cbn [app tl]. now rewrite removelast_last.
  - now rewrite removelast_last.
Qed.

(** What a save does, under the conditions that let it through. *)
Lemma render_editor_save (state : AppState) (segment_id : string)
    (row : Segment.t) (project : Project.t) (a b : datetime) (form : SegmentForm) :
  segment_id <> EmptyString ->
  get_segment_row state segment_id = Some row ->
  iloc0 (filter (fun p => String.eqb (Project.id p) (Segment.project_id row))
           (projects_df state)) = Ok project ->
  Segment.start_date row = Some a -> Segment.end_date row = Some b ->
  In (Project.progress project) PROGRESS_OPTIONS ->
  form_submitted form = true ->
  date_leb (form_start_date form) (form_end_date form) = true ->
  render_editor state (Some segment_id) form
  = Ok (mkAppState
          (set_project_fields (Project.id project) (form_progress form) (form_note form)
             (projects_df state))
          (set_segment_fields segment_id (form_label form)
             (strftime_cell (form_start_date form)) (strftime_cell (form_end_date form))
             (segments_df state))
          (filters state) (settings state)
          (history (push_history state)) (future (push_history state)),
        [UiSubheader EDITOR_TITLE;
         UiMarkdown (EDITOR_PROJECT ++ Project.name project);
         UiSuccess EDITOR_SAVED]).
Proof.
  intros Hid Hrow Hproj Ha Hb Hprog Hsub Hle.
  unfold render_editor. destruct segment_id as [|c id]; [congruence|].
  rewrite Hrow, Hproj. cbn [bind]. rewrite Ha, Hb. cbn [cell_to_date bind].
  destruct (list_index_total _ _ Hprog) as [i ->]. cbn [bind].
  rewrite Hsub. rewrite date_leb_ltb in Hle. apply negb_true_iff in Hle. rewrite Hle.
  reflexivity.
Qed.

(** The editor changes nothing unless the form was submitted with a start
    not after its end: without a submission, and on an inverted range
    (which it answers with its error message), the session stays as it
    was, and no snapshot is taken. *)
Theorem editor_keeps_session_without_valid_save
    (state st : AppState) (selected : option string) (form : SegmentForm)
    (shown : list EditorEvent) :
  render_editor state selected form = Ok (st, shown) ->
  form_submitted form = false
  \/ date_ltb (form_end_date form) (form_start_date form) = true ->
  st = state.
Proof.
  unfold render_editor. intros H Hno.
  destruct selected as [[|c id]|]; try (injection H as <- _; reflexivity).
  destruct (get_segment_row state (String c id)) as [row|];
    [|injection H as <- _; reflexivity].
  destruct (iloc0 _) as [project| |]; cbn [bind] in H; try discriminate.
  destruct (cell_to_date (Segment.start_date row)); cbn [bind] in H; try discriminate.
  destruct (cell_to_date (Segment.end_date row)); cbn [bind] in H; try discriminate.
  destruct (list_index _ _); cbn [bind] in H; try discriminate.
  destruct (form_submitted form); [|injection H as <- _; reflexivity].
  destruct (date_ltb (form_end_date form) (form_start_date form));
    [injection H as <- _; reflexivity|].
  destruct Hno; discriminate.
Qed.

(** A save keeps the rows of both tables in place, with their ids: the
    rows of the selected segment get the label and dates of the form, the
    rows of its project the progress and note, every other row is
    untouched; filters and settings stay. *)
Theorem editor_save_updates_selected (state : AppState) (segment_id : string)
    (row : Segment.t) (project : Project.t) (a b : datetime) (form : SegmentForm) :
  segment_id <> EmptyString ->
  get_segment_row state segment_id = Some row ->
  iloc0 (filter (fun p => String.eqb (Project.id p) (Segment.project_id row))
           (projects_df state)) = Ok project ->
  Segment.start_date row = Some a -> Segment.end_date row = Some b ->
  In (Project.progress project) PROGRESS_OPTIONS ->
  form_submitted form = true ->
  date_leb (form_start_date form) (form_end_date form) = true ->
  exists st shown,
    render_editor state (Some segment_id) form = Ok (st, shown)
    /\ Forall2 (fun old new =>
                  Segment.segment_id new = Segment.segment_id old
                  /\ Segment.project_id new = Segment.project_id old
                  /\ if String.eqb (Segment.segment_id old) segment_id
                     then Segment.label new = form_label form
                          /\ Segment.start_date new = strftime_cell (form_start_date form)
                          /\ Segment.end_date new = strftime_cell (form_end_date form)
                     else new = old)
         (segments_df state) (segments_df st)
    /\ Forall2 (fun old new =>
                  Project.id new = Project.id old
                  /\ Project.start_date new = Project.start_date old
                  /\ Project.end_date new = Project.end_date old
                  /\ if String.eqb (Project.id old) (Project.id project)
                     then Project.progress new = form_progress form
                          /\ Project.note new = form_note form
                     else new = old)
         (projects_df state) (projects_df st)
    /\ filters st = filters state /\ settings st = settings state.
Proof.
  intros Hid Hrow Hproj Ha Hb Hprog Hsub Hle.
  rewrite (render_editor_save state segment_id row project a b form) by assumption.
  eexists; eexists. split; [reflexivity|].
  cbn [projects_df segments_df filters settings].
  split; [|split; [|split; reflexivity]].
  - unfold set_segment_fields.
    clear. induction (segments_df state) as [|s l IH]; cbn [map]; constructor; [|exact IH].
    destruct (String.eqb (Segment.segment_id s) segment_id); cbn; repeat split; reflexivity.
  - unfold set_project_fields.
    clear. induction (projects_df state) as [|p l IH]; cbn [map]; constructor; [|exact IH].
    destruct (String.eqb (Project.id p) (Project.id project)); cbn; repeat split; reflexivity.
Qed.

(** A save can be undone: [undo] right after it brings back both tables
    as they were before, and the save leaves nothing to redo. *)
Theorem editor_save_is_undoable (state : AppState) (segment_id : string)
    (row : Segment.t) (project : Project.t) (a b : datetime) (form : SegmentForm) :
  state_wf state ->
  segment_id <> EmptyString ->
  get_segment_row state segment_id = Some row ->
  iloc0 (filter (fun p => String.eqb (Project.id p) (Segment.project_id row))
           (projects_df state)) = Ok project ->
  Segment.start_date row = Some a -> Segment.end_date row = Some b ->
  In (Project.progress project) PROGRESS_OPTIONS ->
  form_submitted form = true ->
  date_leb (form_start_date form) (form_end_date form) = true ->
  exists st shown st',
    render_editor state (Some segment_id) form = Ok (st, shown)
    /\ items (future st) = []
    /\ undo st = Ok (st', [])
    /\ current_tables st' = current_tables state.
Proof.
  intros W Hid Hrow Hproj Ha Hb Hprog Hsub Hle.
  rewrite (render_editor_save state segment_id row project a b form) by assumption.
  destruct W as (Hh & _ & _ & _).
  assert (H1 : (1 <= maxlen (history state))%nat) by (rewrite Hh; unfold HISTORY_LIMIT; lia).
  assert (E : items (history (push_history state))
              = removelast (items (history (push_history state)))
                ++ [current_tables state])
    by (apply (deque_append_last (current_tables state) (history state) H1)).
  eexists; eexists.
  match goal with
  | |- exists st', Ok (?s, _) = _ /\ _ =>
      destruct (undo_pops s _ _ E) as (st' & U & T & _)
  end.
  exists st'. split; [reflexivity|]. split; [reflexivity|]. split; [exact U | exact T].
Qed.

(** The editor cannot open a segment whose project has a progress that is
    none of the three the form offers: building the form raises. *)
Theorem editor_needs_known_progress (state : AppState) (segment_id : string)
    (row : Segment.t) (project : Project.t) (a b : datetime) (form : SegmentForm) :
  segment_id <> EmptyString ->
  get_segment_row state segment_id = Some row ->
  iloc0 (filter (fun p => String.eqb (Project.id p) (Segment.project_id row))
           (projects_df state)) = Ok project ->
  Segment.start_date row = Some a -> Segment.end_date row = Some b ->
  ~ In (Project.progress project) PROGRESS_OPTIONS ->
  exists message, render_editor state (Some segment_id) form = Raise (ValueError message).
Proof.
  intros Hid Hrow Hproj Ha Hb Hprog.
  unfold render_editor. destruct segment_id as [|c id]; [congruence|].
  rewrite Hrow, Hproj. cbn [bind]. rewrite Ha, Hb. cbn [cell_to_date bind].
  rewrite (list_index_missing _ _ Hprog). cbn [bind]. eauto.
Qed.

Lemma editor_keeps_session_without_valid_save_witness :
  let state := AppState_new sample_projects sample_segments in
  let form := sample_form (mkdate 2025 9 20) (mkdate 2025 9 10) in
  render_editor state (Some "1-main") form
  = Ok (state, [UiSubheader EDITOR_TITLE; UiMarkdown (EDITOR_PROJECT ++ "Project 1");
                UiError EDITOR_BAD_RANGE])
  /\ (form_submitted form = false
      \/ date_ltb (form_end_date form) (form_start_date form) = true)
  /\ state = state.
Proof.
  intros state form.
  assert (R : render_editor state (Some "1-main") form
              = Ok (state, [UiSubheader EDITOR_TITLE;
                            UiMarkdown (EDITOR_PROJECT ++ "Project 1");
                            UiError EDITOR_BAD_RANGE])) by reflexivity.
  assert (N : form_submitted form = false
              \/ date_ltb (form_end_date form) (form_start_date form) = true)
    by (right; reflexivity).
  split; [exact R|]. split; [exact N|].
  exact (editor_keeps_session_without_valid_save state state (Some "1-main") form _ R N).
Defined.

Lemma editor_save_updates_selected_witness :
  let state := AppState_new sample_projects sample_segments in
  let form := sample_form (mkdate 2025 9 10) (mkdate 2025 9 20) in
  exists st shown,
    render_editor state (Some "1-main") form = Ok (st, shown)
    /\ Forall2 (fun old new =>
                  Segment.segment_id new = Segment.segment_id old
                  /\ Segment.project_id new = Segment.project_id old
                  /\ if String.eqb (Segment.segment_id old) "1-main"
                     then Segment.label new = form_label form
                          /\ Segment.start_date new = strftime_cell (form_start_date form)
                          /\ Segment.end_date new = strftime_cell (form_end_date form)
                     else new = old)
         (segments_df state) (segments_df st)
    /\ Forall2 (fun old new =>
                  Project.id new = Project.id old
                  /\ Project.start_date new = Project.start_date old
                  /\ Project.end_date new = Project.end_date old
                  /\ if String.eqb (Project.id old) "1"
                     then Project.progress new = form_progress form
                          /\ Project.note new = form_note form
                     else new = old)
         (projects_df state) (projects_df st)
    /\ filters st = filters state /\ settings st = settings state.
Proof.
  intros state form.
  exact (editor_save_updates_selected state "1-main"
           (sample_segment "1-main" "1" (mkdate 2025 9 1) (mkdate 2025 10 31))
           (sample_project "1" (mkdate 2025 9 1) (mkdate 2025 10 31))
           (datetime_combine (mkdate 2025 9 1) time_min)
           (datetime_combine (mkdate 2025 10 31) time_min) form
           ltac:(discriminate) eq_refl eq_refl eq_refl eq_refl
           ltac:(cbn; tauto) eq_refl eq_refl).
Defined.

Lemma editor_save_is_undoable_witness :
  let state := AppState_new sample_projects sample_segments in
  let form := sample_form (mkdate 2025 9 10) (mkdate 2025 9 20) in
  state_wf state
  /\ exists st shown st',
       render_editor state (Some "1-main") form = Ok (st, shown)
       /\ items (future st) = []
       /\ undo st = Ok (st', [])
       /\ current_tables st' = current_tables state.
Proof.
  intros state form.
  assert (W : state_wf state) by apply AppState_new_wf.
  split; [exact W|].
  exact (editor_save_is_undoable state "1-main"
           (sample_segment "1-main" "1" (mkdate 2025 9 1) (mkdate 2025 10 31))
           (sample_project "1" (mkdate 2025 9 1) (mkdate 2025 10 31))
           (datetime_combine (mkdate 2025 9 1) time_min)
           (datetime_combine (mkdate 2025 10 31) time_min) form W
           ltac:(discriminate) eq_refl eq_refl eq_refl eq_refl
           ltac:(cbn; tauto) eq_refl eq_refl).
Defined.

Lemma editor_needs_known_progress_witness :
  let held := set_project_fields "1" "保留" EmptyString sample_projects in
  let state := AppState_new held sample_segments in
  ~ In "保留" PROGRESS_OPTIONS
  /\ exists message,
       render_editor state (Some "1-main") (sample_form (mkdate 2025 9 10) (mkdate 2025 9 20))
       = Raise (ValueError message).
Proof.
  intros held state.
  assert (N : ~ In "保留" PROGRESS_OPTIONS)
    by (cbn; intros [H|[H|[H|[]]]]; discriminate H).
  split; [exact N|].
  exact (editor_needs_known_progress state "1-main"
           (sample_segment "1-main" "1" (mkdate 2025 9 1) (mkdate 2025 10 31))
           (Project.mk "1" "Project 1" "client" "site" "works" "owner" "保留"
              (Some (datetime_combine (mkdate 2025 9 1) time_min))
              (Some (datetime_combine (mkdate 2025 10 31) time_min))
              EmptyString None)
           (datetime_combine (mkdate 2025 9 1) time_min)
           (datetime_combine (mkdate 2025 10 31) time_min)
           (sample_form (mkdate 2025 9 10) (mkdate 2025 9 20))
           ltac:(discriminate) eq_refl eq_refl eq_refl eq_refl N).
Defined.

(** ** The editor and the chart *)

Section RelabelledTables.
(** Tables whose rows are rewritten without touching the columns that
    place the bars. *)
Variable f : Segment.t -> Segment.t.
Variable g : Project.t -> Project.t.
Hypothesis f_segment_id : forall s, Segment.segment_id (f s) = Segment.segment_id s.
Hypothesis f_project_id : forall s, Segment.project_id (f s) = Segment.project_id s.
Hypothesis g_id : forall p, Project.id (g p) = Project.id p.
Hypothesis g_name : forall p, Project.name (g p) = Project.name p.
Hypothesis g_start : forall p, Project.start_date (g p) = Project.start_date p.
Hypothesis g_end : forall p, Project.end_date (g p) = Project.end_date p.
Hypothesis g_color : forall p, Project.color (g p) = Project.color p.











End RelabelledTables.


